(** * Kiosk chatbot core: response cache, failover dispatcher, health
      tracker and per-turn orchestrator of [main.py], embedded in Rocq.

    Python values are modelled as follows.
    - [str] is a list of Unicode code points ([list N]); string literals
      of the source are written with [lit].
    - [int] is [Z]; [float] is a binary64 float ([PrimFloat.float]).
    - [datetime] is the number of microseconds since the epoch ([Z]), so
      that the difference of two datetimes is an exact [timedelta].
    - A [dict] whose iteration order matters ([self.cache], [self.models])
      is an insertion-ordered association list; [self.model_health], whose
      order no code path depends on, is a [gmap].
    - Code that can raise returns an [Outcome]; code that mutates [self]
      is a function from the object's state to a result and a new state.
    - [bytes] is a list of byte values, also [list N].
    - Library functions outside the repository (hashlib, re, [str.lower],
      [repr]) are fields of the class [PyHost]. *)

From Stdlib Require Import ZArith String Ascii Lia Floats DecimalString.
From stdpp Require Import gmap list.

Local Open Scope Z_scope.
Local Set Warnings "-register-all".

Abbreviation pystr := (list N).

(** ** Python strings *)
Module Py.

(** A source literal, character by character. *)
Definition lit (s : string) : pystr :=
  List.map N_of_ascii (list_ascii_of_string s).

(** [int.__str__]: decimal rendering. *)
Definition str_of_int (z : Z) : pystr :=
  lit (NilZero.string_of_int (Z.to_int z)).

(** The code points [str.strip()] removes: those for which
    [str.isspace] holds. *)
Definition is_space (c : N) : bool :=
  ((9 <=? c) && (c <=? 13) || (28 <=? c) && (c <=? 32)
   || (c =? 133) || (c =? 160) || (c =? 5760)
   || (8192 <=? c) && (c <=? 8202)
   || (c =? 8232) || (c =? 8233) || (c =? 8239) || (c =? 8287)
   || (c =? 12288))%N.

Fixpoint lstrip (s : pystr) : pystr :=
  match s with
  | c :: s' => if is_space c then lstrip s' else s
  | [] => []
  end.

Definition rstrip (s : pystr) : pystr := rev (lstrip (rev s)).

Definition strip (s : pystr) : pystr := rstrip (lstrip s).

(** [s[:n]] for an [int] n: a negative bound counts from the end. *)
Definition slice_to (n : Z) (s : pystr) : pystr :=
  if 0 <=? n then take (Z.to_nat n) s
  else take (Z.to_nat (Z.max 0 (Z.of_nat (length s) + n))) s.

(** A string with no whitespace at either end. *)
Definition trimmed (s : pystr) : Prop :=
  (forall c, head s = Some c -> is_space c = false) /\
  (forall c, last s = Some c -> is_space c = false).

End Py.

(** ** Python objects that reach the core *)

(** What a model chain may hand back.  [PMessage] is any object with a
    [content] attribute (a chat message); [PObject] is any other object,
    carried with what [str()] makes of it. *)
Inductive PyVal : Type :=
| PStr (s : pystr)
| PMessage (content : PyVal)
| PDict (items : list (pystr * PyVal))
| PList (items : list PyVal)
| PObject (rendering : pystr).

(** Exceptions, all of them subclasses of [Exception]. *)
Inductive PyExc : Type :=
| KeyError (key : pystr)
| ValueError (msg : pystr)
| Exception_ (msg : pystr).

Inductive Outcome (A : Type) : Type :=
| Return (a : A)
| Raise (e : PyExc).
Arguments Return {A} a.
Arguments Raise {A} e.

(** A model chain [prompt | model], seen from the dispatcher:
    [chain.invoke({"context": c, "question": q})] either hands back a
    value or raises. *)
Definition Model : Type := pystr -> pystr -> Outcome PyVal.

(** Functions of the Python runtime and of libraries that the core calls
    and that are not part of the repository. *)
Class PyHost := {
  (** [str.lower] *)
  str_lower : pystr -> pystr;
  (** [hashlib.md5(b).hexdigest()], from the bytes [b] to the digest's
      hexadecimal text *)
  md5_hexdigest : pystr -> pystr;
  (** [repr] of a string, as in [str(KeyError(k))] *)
  repr_str : pystr -> pystr;
  (** [str] of a container or message object *)
  str_object : PyVal -> pystr;
  (** the text of the [ValueError] that [min] raises on an empty iterable *)
  min_empty_msg : pystr;
  (** whether [re.search] finds one of the three patterns of
      [_is_inappropriate_content] in the text *)
  re_search_inappropriate : pystr -> bool;
  (** the module flag set by the import of langchain *)
  LANGCHAIN_AVAILABLE : bool;
  (** the constructor [OllamaLLM(model, temperature, timeout, num_predict)] *)
  OllamaLLM : pystr -> float -> float -> Z -> Outcome Model;
  (** [datetime.isoformat] *)
  isoformat : Z -> pystr
}.

Definition str_exc `{PyHost} (e : PyExc) : pystr :=
  match e with
  | KeyError k => repr_str k
  | ValueError m => m
  | Exception_ m => m
  end.

(** ** [str.encode()]

    The UTF-8 encoding of a string.  The code points U+D800 to U+DFFF
    (the surrogates) have none: at the first run of them [encode]
    raises [UnicodeEncodeError], which is a [ValueError], with the
    text Python gives it. *)
Module Codec.
Definition is_surrogate (c : N) : bool := ((55296 <=? c) && (c <=? 57343))%N.

(** The bytes of one code point that is not a surrogate. *)
Definition utf8 (c : N) : list N :=
  (if c <? 128 then [c]
   else if c <? 2048 then [192 + c / 64; 128 + c mod 64]
   else if c <? 65536 then
     [224 + c / 4096; 128 + (c / 64) mod 64; 128 + c mod 64]
   else [240 + c / 262144; 128 + (c / 4096) mod 64;
         128 + (c / 64) mod 64; 128 + c mod 64])%N.

(** How many characters at the head of [s] satisfy [p]. *)
Fixpoint span (p : N -> bool) (s : pystr) : nat :=
  match s with
  | c :: s' => if p c then S (span p s') else O
  | [] => O
  end.

Definition hex_digit (d : N) : N :=
  (if d <? 10 then 48 + d else 87 + d)%N.

(** ["%04x" % c] *)
Definition hex4 (c : N) : pystr :=
  [hex_digit ((c / 4096) mod 16); hex_digit ((c / 256) mod 16);
   hex_digit ((c / 16) mod 16); hex_digit (c mod 16)]%N.

(** [str(e)] for the [UnicodeEncodeError] on the surrogates at the
    positions [start] to [stop - 1]; [c] is the first of them. *)
Definition error_message (c : N) (start stop : nat) : pystr :=
  if decide (stop = S start) then
    Py.lit "'utf-8' codec can't encode character '\u" ++ hex4 c
    ++ Py.lit "' in position " ++ Py.str_of_int (Z.of_nat start)
    ++ Py.lit ": surrogates not allowed"
  else
    Py.lit "'utf-8' codec can't encode characters in position "
    ++ Py.str_of_int (Z.of_nat start) ++ Py.lit "-"
    ++ Py.str_of_int (Z.of_nat stop - 1)
    ++ Py.lit ": surrogates not allowed".

(** [s.encode()] *)
Definition encode (s : pystr) : Outcome pystr :=
  let start := span (fun c => negb (is_surrogate c)) s in
  match drop start s with
  | [] => Return (concat (List.map utf8 s))
  | c :: rest =>
      Raise (ValueError
               (error_message c start (S start + span is_surrogate rest)))
  end.
End Codec.

(** [str(v)] *)
Definition py_str `{PyHost} (v : PyVal) : pystr :=
  match v with
  | PStr s => s
  | PObject r => r
  | _ => str_object v
  end.

(** Arithmetic of the Python runtime that mixes [int] and [float]. *)
Class PyArith := {
  (** [a / b] for two [int]s, [b] not zero: the correctly rounded quotient *)
  int_truediv : Z -> Z -> float;
  (** [float(n)] *)
  float_of_int : Z -> float
}.

(** ** Insertion-ordered dictionaries with string keys *)
Module PyDict.
Section Dict.
Context {V : Type}.
Implicit Type d : list (pystr * V).

Fixpoint lookup (k : pystr) d : option V :=
  match d with
  | [] => None
  | (k', v) :: d' => if decide (k = k') then Some v else lookup k d'
  end.

(** [d[k] = v]: an existing key keeps its position. *)
Fixpoint store (k : pystr) (v : V) d : list (pystr * V) :=
  match d with
  | [] => [(k, v)]
  | (k', v') :: d' =>
      if decide (k = k') then (k, v) :: d' else (k', v') :: store k v d'
  end.

(** [del d[k]] *)
Fixpoint del (k : pystr) d : list (pystr * V) :=
  match d with
  | [] => []
  | (k', v') :: d' =>
      if decide (k = k') then del k d' else (k', v') :: del k d'
  end.

Definition keys d : list pystr := d.*1.

Definition wf d : Prop := NoDup (keys d).
End Dict.

(** [min(ks, key=f)]: the first element whose key is minimal. *)
Fixpoint min_from (f : pystr -> Z) (best : pystr) (ks : list pystr) : pystr :=
  match ks with
  | [] => best
  | k :: ks' => if f k <? f best then min_from f k ks' else min_from f best ks'
  end.

Definition py_min `{PyHost} (ks : list pystr) (f : pystr -> Z) : Outcome pystr :=
  match ks with
  | [] => Raise (ValueError min_empty_msg)
  | k :: ks' => Return (min_from f k ks')
  end.
End PyDict.

(** ** [class IntelligentCache] *)
Module IntelligentCache.

Record CacheEntry := {
  response : pystr;
  timestamp : Z;
  hits : Z
}.

Record t := {
  ttl_hours : Z;
  max_size : Z;
  cache : list (pystr * CacheEntry)
}.

(** [__init__] *)
Definition init (ttl_hours max_size : Z) : t :=
  {| ttl_hours := ttl_hours; max_size := max_size; cache := [] |}.

Definition with_cache (c : t) (d : list (pystr * CacheEntry)) : t :=
  {| ttl_hours := ttl_hours c; max_size := max_size c; cache := d |}.

(** [timedelta(hours=h)] in microseconds. *)
Definition timedelta_hours (h : Z) : Z := h * 3600000000.

(** What a cache built by [init] and driven through [get] and [set]
    satisfies: its keys are distinct and it holds no more than
    [max_size] entries. *)
Definition inv (c : t) : Prop :=
  PyDict.wf (cache c) /\ Z.of_nat (length (cache c)) <= max_size c.

Section WithHost.
Context `{PyHost}.

(** [_generate_key]: it raises when [combined] cannot be encoded. *)
Definition _generate_key (query context : pystr) : Outcome pystr :=
  let combined := Py.strip (str_lower query) ++ context in
  match Codec.encode combined with
  | Return encoded => Return (md5_hexdigest encoded)
  | Raise e => Raise e
  end.

(** [get]; [now] is what [datetime.now()] reads.  The key is computed
    before anything else, so an exception of [_generate_key] leaves
    the cache as it is. *)
Definition get (now : Z) (query context : pystr) (c : t)
  : Outcome (option pystr) * t :=
  match _generate_key query context with
  | Raise e => (Raise e, c)
  | Return key =>
      match PyDict.lookup key (cache c) with
      | Some entry =>
          if now - timestamp entry <? timedelta_hours (ttl_hours c) then
            let entry' := {| response := response entry;
                             timestamp := timestamp entry;
                             hits := hits entry + 1 |} in
            (Return (Some (response entry)),
             with_cache c (PyDict.store key entry' (cache c)))
          else (Return None, with_cache c (PyDict.del key (cache c)))
      | None => (Return None, c)
      end
  end.

(** The sort key of the eviction: [self.cache[k]['timestamp']]. *)
Definition timestamp_of (d : list (pystr * CacheEntry)) (k : pystr) : Z :=
  match PyDict.lookup k d with
  | Some e => timestamp e
  | None => 0
  end.

(** [set]; [now] is what [datetime.now()] reads.  Here too the key is
    computed first, before the eviction. *)
Definition set (now : Z) (query response context : pystr) (c : t)
  : Outcome unit * t :=
  match _generate_key query context with
  | Raise e => (Raise e, c)
  | Return key =>
      let fresh := {| response := response; timestamp := now; hits := 0 |} in
      if max_size c <=? Z.of_nat (length (cache c)) then
        match PyDict.py_min (PyDict.keys (cache c)) (timestamp_of (cache c)) with
        | Raise e => (Raise e, c)
        | Return oldest_key =>
            (Return tt,
             with_cache c
               (PyDict.store key fresh (PyDict.del oldest_key (cache c))))
        end
      else (Return tt, with_cache c (PyDict.store key fresh (cache c)))
  end.

(** A call of one of the two operations, with its clock reading. *)
Inductive op :=
| Get (now : Z) (query context : pystr)
| Set_ (now : Z) (query response context : pystr).

Definition run_op (o : op) (c : t) : t :=
  match o with
  | Get now q ctx => snd (get now q ctx c)
  | Set_ now q r ctx => snd (set now q r ctx c)
  end.

Definition run_ops (os : list op) (c : t) : t :=
  fold_left (fun c o => run_op o c) os c.
End WithHost.

(** The dict that [get_stats] returns. *)
Record Stats := {
  size : Z;
  total_hits : Z;
  hit_rate : float
}.

(** [sum(...)]: the additions run from the left, starting at 0. *)
Definition py_sum (l : list Z) : Z := fold_left Z.add l 0.

Section WithArith.
Context `{PyArith}.

(** [a / b] on [int]s. *)
Definition py_truediv (a b : Z) : Outcome float :=
  if b =? 0 then Raise (Exception_ (Py.lit "division by zero"))
  else Return (int_truediv a b).

(** [get_stats] *)
Definition get_stats (c : t) : Outcome Stats :=
  let total_hits := py_sum (List.map (fun kv => hits (snd kv)) (cache c)) in
  match py_truediv total_hits (Z.max 1 (Z.of_nat (length (cache c)))) with
  | Return rate =>
      Return {| size := Z.of_nat (length (cache c));
                total_hits := total_hits;
                hit_rate := rate |}
  | Raise e => Raise e
  end.
End WithArith.
End IntelligentCache.

(** ** Enumerations and configuration *)

Inductive LogLevel := DEBUG | INFO | WARNING | ERROR | CRITICAL.

Inductive ModelProvider : Set := OLLAMA.

Definition provider_value (p : ModelProvider) : pystr :=
  match p with OLLAMA => Py.lit "ollama" end.

(** [class KioskConfig], after [__post_init__]. *)
Record KioskConfig := {
  primary_model_provider : ModelProvider;
  primary_model_name : pystr;
  fallback_models : list (ModelProvider * pystr);
  max_tokens : Z;
  temperature : float;
  timeout : float;
  max_conversation_turns : Z;
  context_window_size : Z;
  cache_ttl_hours : Z;
  default_language : pystr;
  enable_content_filtering : bool;
  max_input_length : Z;
  enable_analytics : bool
}.

(** ** [class AdvancedLogger]: the lines handed to the [logging] module *)
Module AdvancedLogger.

Definition t : Type := list (LogLevel * pystr).

(** [" | ".join(parts)] *)
Fixpoint join_bar (parts : list pystr) : pystr :=
  match parts with
  | [] => []
  | [p] => p
  | p :: ps => p ++ Py.lit " | " ++ join_bar ps
  end.

(** [log(level, message, **kwargs)]; the keyword values arrive as
    their [str()]. *)
Definition log (level : LogLevel) (message : pystr)
    (kwargs : list (pystr * pystr)) (lg : t) : t :=
  let extra_info :=
    join_bar (List.map (fun kv => fst kv ++ Py.lit "=" ++ snd kv) kwargs) in
  let full_message :=
    match extra_info with
    | [] => message
    | _ => message ++ Py.lit " | " ++ extra_info
    end in
  lg ++ [(level, full_message)].
End AdvancedLogger.

(** ** [class MultiModelAIManager] *)
Module MultiModelAIManager.

Record ModelHealth := {
  healthy : bool;
  last_error : option pystr
}.

(** One call of [chain.invoke]: the candidate's key and what was sent. *)
Record Invocation := {
  inv_key : pystr;
  inv_context : pystr;
  inv_question : pystr
}.

(** The object's fields.  [logger] is the logger shared with the
    orchestrator.  [invocations] is not a field of the class: it
    records every [chain.invoke], in order, so that statements can
    speak of which candidates were attempted. *)
Record t := {
  config : KioskConfig;
  logger : AdvancedLogger.t;
  models : list (pystr * Model);
  current_model : Model;
  model_health : gmap pystr ModelHealth;
  invocations : list Invocation
}.

Definition with_logger (m : t) (lg : AdvancedLogger.t) : t :=
  {| config := config m; logger := lg; models := models m;
     current_model := current_model m; model_health := model_health m;
     invocations := invocations m |}.

Definition with_models (m : t) (ms : list (pystr * Model)) : t :=
  {| config := config m; logger := logger m; models := ms;
     current_model := current_model m; model_health := model_health m;
     invocations := invocations m |}.

Definition with_model_health (m : t) (h : gmap pystr ModelHealth) : t :=
  {| config := config m; logger := logger m; models := models m;
     current_model := current_model m; model_health := h;
     invocations := invocations m |}.

Definition with_invocations (m : t) (l : list Invocation) : t :=
  {| config := config m; logger := logger m; models := models m;
     current_model := current_model m; model_health := model_health m;
     invocations := l |}.

Definition log (level : LogLevel) (message : pystr)
    (kwargs : list (pystr * pystr)) (m : t) : t :=
  with_logger m (AdvancedLogger.log level message kwargs (logger m)).

Definition primary : pystr := Py.lit "primary".

Definition exhausted_message : pystr :=
  Py.lit "I'm experiencing technical difficulties. Please try again in a moment.".

Definition unavailable_message : pystr :=
  Py.lit "Service temporarily unavailable.".

(** [context[:self.config.context_window_size]] *)
Definition sent_context (m : t) (context : pystr) : pystr :=
  Py.slice_to (context_window_size (config m)) context.

Definition invocation_of (sent prompt key : pystr) : Invocation :=
  {| inv_key := key; inv_context := sent; inv_question := prompt |}.

(** A candidate whose invocation raises on this input. *)
Definition raises (sent prompt : pystr) (candidate : pystr * Model) : Prop :=
  exists e, candidate.2 sent prompt = Raise e.

(** What [initialize_models] establishes and [get_response] keeps:
    [self.models] has distinct keys, none of them ["primary"], and
    [self.model_health] has a record for exactly these keys. *)
Definition wf (m : t) : Prop :=
  NoDup (PyDict.keys (models m)) /\
  (primary ∉ PyDict.keys (models m)) /\
  (forall k, (k ∈ dom (model_health m)) <-> (k ∈ PyDict.keys (models m))).

(** The text of a payload in one of the three shapes the
    specification names: a plain string, a structured object with a
    text field (a message's [content] or a dict's ['text']), or a list
    of alternatives, of which the first is taken. *)
Definition payload_text (result : PyVal) : option pystr :=
  match result with
  | PStr s => Some s
  | PMessage (PStr s) => Some s
  | PDict items =>
      match PyDict.lookup (Py.lit "text") items with
      | Some (PStr s) => Some s
      | _ => None
      end
  | PList (PStr s :: _) => Some s
  | _ => None
  end.

Section WithHost.
Context `{PyHost}.

(** [_create_model]; [ModelProvider] has the single member [OLLAMA],
    so the later branches of the source are never taken. *)
Definition _create_model (cfg : KioskConfig) (provider : ModelProvider)
    (model_name : pystr) : Outcome Model :=
  if negb LANGCHAIN_AVAILABLE then
    Raise (Exception_ (Py.lit "LangChain not available"))
  else
    match provider with
    | OLLAMA =>
        OllamaLLM model_name (temperature cfg) (timeout cfg) (max_tokens cfg)
    end.

Definition model_key_of (provider : ModelProvider) (model_name : pystr)
  : pystr :=
  provider_value provider ++ Py.lit "_" ++ model_name.

(** The loop over [config.fallback_models] of [initialize_models]. *)
Fixpoint init_fallbacks (fbs : list (ModelProvider * pystr)) (m : t) : t :=
  match fbs with
  | [] => m
  | (provider, model_name) :: rest =>
      let model_key := model_key_of provider model_name in
      match _create_model (config m) provider model_name with
      | Return model =>
          let m1 := with_models m (PyDict.store model_key model (models m)) in
          let m2 := with_model_health m1
                      (<[model_key := {| healthy := true; last_error := None |}]>
                         (model_health m1)) in
          init_fallbacks rest m2
      | Raise e =>
          init_fallbacks rest
            (log WARNING
               (Py.lit "Failed to initialize fallback model " ++ model_name)
               [(Py.lit "error", str_exc e)] m)
      end
  end.

(** [__init__] with [initialize_models]: the manager, or the
    exception of the primary model's construction, re-raised after
    the CRITICAL line; and the logger as it is left. *)
Definition init (cfg : KioskConfig) (lg : AdvancedLogger.t)
  : Outcome t * AdvancedLogger.t :=
  match _create_model cfg (primary_model_provider cfg)
                      (primary_model_name cfg) with
  | Raise e =>
      (Raise e,
       AdvancedLogger.log CRITICAL (Py.lit "Failed to initialize AI models")
         [(Py.lit "error", str_exc e)] lg)
  | Return model =>
      let m0 := {| config := cfg; logger := lg; models := [];
                   current_model := model; model_health := ∅;
                   invocations := [] |} in
      let m1 := init_fallbacks (fallback_models cfg) m0 in
      let m2 := log INFO (Py.lit "AI models initialized successfully")
                  [(Py.lit "primary", primary_model_name cfg);
                   (Py.lit "fallbacks",
                    Py.str_of_int (Z.of_nat (length (models m1))))] m1 in
      (Return m2, logger m2)
  end.

(** "Handle different response formats". *)
Definition normalize (result : PyVal) : pystr :=
  match result with
  | PMessage content => Py.strip (py_str content)
  | PDict items =>
      match PyDict.lookup (Py.lit "text") items with
      | Some text => Py.strip (py_str text)
      | None => Py.strip (py_str result)
      end
  | PList (first :: _) => Py.strip (py_str first)
  | _ => Py.strip (py_str result)
  end.

(** The body of the [try] for one candidate. *)
Definition attempt_once (model_key : pystr) (model : Model)
    (prompt context : pystr) (m : t) : Outcome pystr * t :=
  let sent := sent_context m context in
  let m1 := with_invocations m
              (invocations m ++ [invocation_of sent prompt model_key]) in
  match model sent prompt with
  | Raise e => (Raise e, m1)
  | Return result =>
      let response := normalize result in
      if decide (model_key = primary) then (Return response, m1)
      else
        match model_health m1 !! model_key with
        | Some h =>
            (Return response,
             with_model_health m1
               (<[model_key := {| healthy := true;
                                  last_error := last_error h |}]>
                  (model_health m1)))
        | None => (Raise (KeyError model_key), m1)
        end
  end.

(** The [except] clause, up to the test for the last attempt. *)
Definition on_failure (attempt : nat) (model_key : pystr) (e : PyExc)
    (m : t) : t :=
  let error_msg := str_exc e in
  let m1 := log WARNING
              (Py.lit "Model " ++ model_key ++ Py.lit " failed")
              [(Py.lit "error", error_msg);
               (Py.lit "attempt", Py.str_of_int (Z.of_nat attempt + 1))] m in
  if decide (model_key = primary) then m1
  else with_model_health m1
         (<[model_key := {| healthy := false;
                            last_error := Some error_msg |}]>
            (model_health m1)).

(** The [for] loop over the enumerated candidates. *)
Fixpoint get_response_loop (prompt context : pystr)
    (attempts : list (nat * (pystr * Model))) (m : t)
  : Outcome (pystr * pystr) * t :=
  match attempts with
  | [] => (Return (unavailable_message, Py.lit "error"), m)
  | (attempt, (model_key, model)) :: rest =>
      match attempt_once model_key model prompt context m with
      | (Return response, m') => (Return (response, model_key), m')
      | (Raise e, m') =>
          let m'' := on_failure attempt model_key e m' in
          if decide (attempt = length (models m'')) then
            (Return (exhausted_message, Py.lit "error"), m'')
          else get_response_loop prompt context rest m''
      end
  end.

(** [enumerate(l)] *)
Definition enumerate {A} (l : list A) : list (nat * A) :=
  zip (seq 0 (length l)) l.

Definition get_response (prompt context : pystr) (m : t)
  : Outcome (pystr * pystr) * t :=
  get_response_loop prompt context
    (enumerate ((primary, current_model m) :: models m)) m.

(** A sequence of calls, each given as (prompt, context). *)
Definition run_calls (calls : list (pystr * pystr)) (m : t) : t :=
  fold_left (fun m call => snd (get_response call.1 call.2 m)) calls m.
End WithHost.
End MultiModelAIManager.

(** ** Computations over an object's state that may raise *)
Module Eff.
Definition M (S A : Type) : Type := S -> Outcome A * S.

Definition ret {S A} (a : A) : M S A := fun s => (Return a, s).

Definition raise {S A} (e : PyExc) : M S A := fun s => (Raise e, s).

Definition bind {S A B} (c : M S A) (k : A -> M S B) : M S B :=
  fun s =>
    match c s with
    | (Return a, s') => k a s'
    | (Raise e, s') => (Raise e, s')
    end.

Definition gets {S A} (f : S -> A) : M S A := fun s => (Return (f s), s).

Definition modify {S} (f : S -> S) : M S unit := fun s => (Return tt, f s).

(** [try: body / except Exception as e: handler(e)] *)
Definition try_except {S A} (body : M S A) (handler : PyExc -> M S A)
  : M S A :=
  fun s =>
    match body s with
    | (Return a, s') => (Return a, s')
    | (Raise e, s') => handler e s'
    end.

(** [try: body / finally: fin], for a [fin] that does not raise. *)
Definition try_finally {S A} (body : M S A) (fin : S -> S) : M S A :=
  fun s => let '(r, s') := body s in (r, fin s').
End Eff.

Notation "'let*' x := c 'in' k" := (Eff.bind c (fun x => k))
  (at level 10, x name, c at level 100, k at level 200).
Notation "'let*' ' p := c 'in' k" :=
  (Eff.bind c (fun x => match x with p => k end))
  (at level 10, p strict pattern, c at level 100, k at level 200).

(** ** [class UltraAdvancedKioskChatbot] and its collaborators *)
Module UltraAdvancedKioskChatbot.

(** The [response_time] entry of a metadata dict: the [int] 0 it is
    created with, or a difference of two [time.time()] readings. *)
Inductive PyNum := PInt (z : Z) | PFloat (f : float).

(** The [metadata] dict of one call. *)
Record Metadata := {
  cached : bool;
  model_used : pystr;
  response_time : PyNum;
  language : pystr;
  error : option pystr
}.

(** An element of [conversation_history].  Its ['metadata'] entry is
    the very dict that [process_query] returns, so it is a reference
    into the store [metadatas] below. *)
Record Exchange := {
  ex_timestamp : pystr;
  ex_question : pystr;
  ex_response : pystr;
  ex_metadata : nat
}.

(** [class UserSession] *)
Record UserSession := {
  id : pystr;
  start_time : Z;
  questions_count : Z;
  total_response_time : float;
  preferred_language : pystr;
  conversation_history : list Exchange;
  errors_encountered : Z
}.

(** A row of the [interactions] table. *)
Record Interaction := {
  i_session_id : pystr;
  i_timestamp : Z;
  i_question : pystr;
  i_response : pystr;
  i_response_time : PyNum;
  i_cached : bool;
  i_model_used : pystr
}.

(** What one call of [process_query] reads from the world: the clock
    at each place the code reads it, the translation service and
    whether the analytics database refuses the insert. *)
Record Env := {
  session_stamp : Z;        (* [int(time.time())] in [create_session] *)
  now_session : Z;          (* [datetime.now()] in [create_session] *)
  time_start : float;       (* [time.time()] on entry *)
  now_get : Z;              (* [datetime.now()] in [cache.get] *)
  time_hit : float;         (* [time.time()] on a cache hit *)
  now_set : Z;              (* [datetime.now()] in [cache.set] *)
  time_done : float;        (* [time.time()] in [metadata.update] *)
  now_append : Z;           (* [datetime.now()] for the history entry *)
  now_log : Z;              (* [datetime.now()] in [log_interaction] *)
  (* [GoogleTranslator(source, target).translate(text)] *)
  google_translate : pystr -> pystr -> pystr -> Outcome (option pystr);
  (* the exception of [conn.execute], if the insert fails *)
  db_failure : option PyExc
}.

Record PerformanceMetrics := {
  total_requests : Z;
  cache_hits : Z
}.

(** The orchestrator's fields.  The logger is the one inside
    [ai_manager] (the two objects share it).  [active_sessions] keeps
    the keys of the dict, in insertion order.  [metadatas] is the
    store of the metadata dicts handed out so far; a reference is an
    index into it.  [cache_ops] is not a field of the class: it
    records every call of [self.cache.get] and [self.cache.set], in
    order. *)
Record t := {
  config : KioskConfig;
  cache : IntelligentCache.t;
  analytics : list Interaction;
  ai_manager : MultiModelAIManager.t;
  translator : bool;
  active_sessions : list pystr;
  current_session : option UserSession;
  performance_metrics : PerformanceMetrics;
  metadatas : list Metadata;
  cache_ops : list IntelligentCache.op
}.

Definition with_cache (k : t) (c : IntelligentCache.t) : t :=
  {| config := config k; cache := c; analytics := analytics k;
     ai_manager := ai_manager k; translator := translator k;
     active_sessions := active_sessions k;
     current_session := current_session k;
     performance_metrics := performance_metrics k;
     metadatas := metadatas k; cache_ops := cache_ops k |}.

Definition with_analytics (k : t) (a : list Interaction) : t :=
  {| config := config k; cache := cache k; analytics := a;
     ai_manager := ai_manager k; translator := translator k;
     active_sessions := active_sessions k;
     current_session := current_session k;
     performance_metrics := performance_metrics k;
     metadatas := metadatas k; cache_ops := cache_ops k |}.

Definition with_ai_manager (k : t) (m : MultiModelAIManager.t) : t :=
  {| config := config k; cache := cache k; analytics := analytics k;
     ai_manager := m; translator := translator k;
     active_sessions := active_sessions k;
     current_session := current_session k;
     performance_metrics := performance_metrics k;
     metadatas := metadatas k; cache_ops := cache_ops k |}.

Definition with_active_sessions (k : t) (l : list pystr) : t :=
  {| config := config k; cache := cache k; analytics := analytics k;
     ai_manager := ai_manager k; translator := translator k;
     active_sessions := l;
     current_session := current_session k;
     performance_metrics := performance_metrics k;
     metadatas := metadatas k; cache_ops := cache_ops k |}.

Definition with_current_session (k : t) (s : option UserSession) : t :=
  {| config := config k; cache := cache k; analytics := analytics k;
     ai_manager := ai_manager k; translator := translator k;
     active_sessions := active_sessions k;
     current_session := s;
     performance_metrics := performance_metrics k;
     metadatas := metadatas k; cache_ops := cache_ops k |}.

Definition with_performance_metrics (k : t) (p : PerformanceMetrics) : t :=
  {| config := config k; cache := cache k; analytics := analytics k;
     ai_manager := ai_manager k; translator := translator k;
     active_sessions := active_sessions k;
     current_session := current_session k;
     performance_metrics := p;
     metadatas := metadatas k; cache_ops := cache_ops k |}.

Definition with_metadatas (k : t) (l : list Metadata) : t :=
  {| config := config k; cache := cache k; analytics := analytics k;
     ai_manager := ai_manager k; translator := translator k;
     active_sessions := active_sessions k;
     current_session := current_session k;
     performance_metrics := performance_metrics k;
     metadatas := l; cache_ops := cache_ops k |}.

Definition with_cache_ops (k : t) (l : list IntelligentCache.op) : t :=
  {| config := config k; cache := cache k; analytics := analytics k;
     ai_manager := ai_manager k; translator := translator k;
     active_sessions := active_sessions k;
     current_session := current_session k;
     performance_metrics := performance_metrics k;
     metadatas := metadatas k; cache_ops := l |}.

(** Two states of the manager that differ at most in the log. *)
Definition same_manager (m m' : MultiModelAIManager.t) : Prop :=
  MultiModelAIManager.config m' = MultiModelAIManager.config m /\
  MultiModelAIManager.models m' = MultiModelAIManager.models m /\
  MultiModelAIManager.current_model m' = MultiModelAIManager.current_model m /\
  MultiModelAIManager.model_health m' = MultiModelAIManager.model_health m /\
  MultiModelAIManager.invocations m' = MultiModelAIManager.invocations m.

Definition too_long_message : pystr :=
  Py.lit "Please keep your question shorter for better assistance.".

Definition inappropriate_message : pystr :=
  Py.lit "I can only help with appropriate questions. Please rephrase your request.".

Definition processing_error_message : pystr :=
  Py.lit "I encountered an error processing your request. Please try again.".

(** ["\n".join(parts)] *)
Fixpoint join_lines (parts : list pystr) : pystr :=
  match parts with
  | [] => []
  | [p] => p
  | p :: ps => p ++ [10%N] ++ join_lines ps
  end.

(** [l[-3:]] *)
Definition last3 {A} (l : list A) : list A := drop (length l - 3)%nat l.

Definition _format_conversation_context (session : UserSession) : pystr :=
  match conversation_history session with
  | [] => []
  | history =>
      join_lines
        (concat (List.map
           (fun exchange =>
              [Py.lit "User: " ++ ex_question exchange;
               Py.lit "Assistant: " ++ ex_response exchange])
           (last3 history)))
  end.

Section WithHost.
Context `{PyHost}.

Definition M := Eff.M t.

Definition log (level : LogLevel) (message : pystr)
    (kwargs : list (pystr * pystr)) : M unit :=
  Eff.modify (fun k =>
    with_ai_manager k (MultiModelAIManager.log level message kwargs (ai_manager k))).

Definition _is_inappropriate_content (k : t) (text : pystr) : bool :=
  if negb (enable_content_filtering (config k)) then false
  else re_search_inappropriate (str_lower text).

(** [AccessibilityEngine.translate_text] *)
Definition translate_text (env : Env) (k : t)
    (text target_language source_language : pystr) : option pystr :=
  if negb (translator k) then None
  else
    match google_translate env source_language target_language text with
    | Return result => result
    | Raise _ => None
    end.

(** [AdvancedAnalytics.log_interaction]: the insert is committed, or
    rolled back and its exception re-raised. *)
Definition log_interaction (env : Env) (session_id question response : pystr)
    (response_time : PyNum) (cached : bool) (model_used : pystr) : M unit :=
  match db_failure env with
  | Some e => Eff.raise e
  | None =>
      Eff.modify (fun k =>
        with_analytics k
          (analytics k ++
           [{| i_session_id := session_id; i_timestamp := now_log env;
               i_question := question; i_response := response;
               i_response_time := response_time; i_cached := cached;
               i_model_used := model_used |}]))
  end.

(** [create_session] *)
Definition create_session (env : Env) : M UserSession :=
  fun k =>
    let session_id :=
      Py.lit "session_" ++ Py.str_of_int (session_stamp env) ++ Py.lit "_"
      ++ Py.str_of_int (Z.of_nat (length (active_sessions k))) in
    let session :=
      {| id := session_id; start_time := now_session env;
         questions_count := 0; total_response_time := 0%float;
         preferred_language := default_language (config k);
         conversation_history := []; errors_encountered := 0 |} in
    let keys := if decide (session_id ∈ active_sessions k)
                then active_sessions k
                else active_sessions k ++ [session_id] in
    let k1 := with_current_session (with_active_sessions k keys)
                (Some session) in
    let '(_, k2) :=
      log INFO (Py.lit "New session created")
          [(Py.lit "session_id", session_id)] k1 in
    (Return session, k2).

(** Reading and updating the session object and a metadata dict. *)
Definition session_of (k : t) (fallback : UserSession) : UserSession :=
  default fallback (current_session k).

Definition update_session (f : UserSession -> UserSession) : M unit :=
  Eff.modify (fun k => with_current_session k (f <$> current_session k)).

Definition update_metadata (ref : nat) (f : Metadata -> Metadata) : M unit :=
  Eff.modify (fun k => with_metadatas k (alter f ref (metadatas k))).

(** [self.cache.get(...)] *)
Definition cache_get (env : Env) (query context : pystr) : M (option pystr) :=
  fun k =>
    let '(r, c) := IntelligentCache.get (now_get env) query context (cache k) in
    (r,
     with_cache_ops (with_cache k c)
       (cache_ops k ++ [IntelligentCache.Get (now_get env) query context])).

(** [self.cache.set(...)] *)
Definition cache_set (env : Env) (query response context : pystr) : M unit :=
  fun k =>
    let '(r, c) :=
      IntelligentCache.set (now_set env) query response context (cache k) in
    (r,
     with_cache_ops (with_cache k c)
       (cache_ops k ++
        [IntelligentCache.Set_ (now_set env) query response context])).

Definition ai_get_response (prompt context : pystr) : M (pystr * pystr) :=
  fun k =>
    let '(r, m) := MultiModelAIManager.get_response prompt context (ai_manager k) in
    (r, with_ai_manager k m).

(** The dict literal bound to [metadata] on entry. *)
Definition fresh_metadata (session : UserSession) : Metadata :=
  {| cached := false; model_used := Py.lit "unknown";
     response_time := PInt 0; language := preferred_language session;
     error := None |}.

(** Allocation of that dict: its reference is the next free index. *)
Definition new_metadata (md : Metadata) : M nat :=
  fun k => (Return (length (metadatas k)),
            with_metadatas k (metadatas k ++ [md])).

Definition read_metadata (ref : nat) (fallback : Metadata) : M Metadata :=
  Eff.gets (fun k => default fallback (metadatas k !! ref)).

Definition set_cached (b : bool) (md : Metadata) : Metadata :=
  {| cached := b; model_used := model_used md;
     response_time := response_time md; language := language md;
     error := error md |}.

Definition set_model_used (s : pystr) (md : Metadata) : Metadata :=
  {| cached := cached md; model_used := s;
     response_time := response_time md; language := language md;
     error := error md |}.

Definition set_response_time (r : PyNum) (md : Metadata) : Metadata :=
  {| cached := cached md; model_used := model_used md;
     response_time := r; language := language md;
     error := error md |}.

Definition set_error (e : option pystr) (md : Metadata) : Metadata :=
  {| cached := cached md; model_used := model_used md;
     response_time := response_time md; language := language md;
     error := e |}.

(** [session.questions_count += 1], [session.total_response_time += rt]
    and the [append] to [session.conversation_history]. *)
Definition record_turn (rt : float) (x : Exchange) (s : UserSession)
  : UserSession :=
  {| id := id s; start_time := start_time s;
     questions_count := questions_count s + 1;
     total_response_time := (total_response_time s + rt)%float;
     preferred_language := preferred_language s;
     conversation_history := conversation_history s ++ [x];
     errors_encountered := errors_encountered s |}.

(** [session.errors_encountered += 1] *)
Definition record_error (s : UserSession) : UserSession :=
  {| id := id s; start_time := start_time s;
     questions_count := questions_count s;
     total_response_time := total_response_time s;
     preferred_language := preferred_language s;
     conversation_history := conversation_history s;
     errors_encountered := errors_encountered s + 1 |}.

Definition bump_cache_hits (k : t) : t :=
  with_performance_metrics k
    {| total_requests := total_requests (performance_metrics k);
       cache_hits := cache_hits (performance_metrics k) + 1 |}.

Definition bump_total_requests (k : t) : t :=
  with_performance_metrics k
    {| total_requests := total_requests (performance_metrics k) + 1;
       cache_hits := cache_hits (performance_metrics k) |}.

(** "Post-process response": the translation into the session's
    language, kept when it is there and not empty. *)
Definition post_process (env : Env) (k : t) (session : UserSession)
    (response : pystr) : pystr :=
  let lang := preferred_language session in
  if decide (lang = Py.lit "en") then response
  else
    match translate_text env k response lang (Py.lit "en") with
    | Some (c :: translated) => c :: translated
    | _ => response
    end.

(** [process_query] from "Get AI response" to its last [return]:
    the path of a cache miss.  [rt] is the value stored under
    [metadata['response_time']], which the session update reads back. *)
Definition process_query_miss (env : Env) (user_input context : pystr)
    (session : UserSession) (metadata : nat) : M pystr :=
  let* ' (response, model_used) := ai_get_response user_input context in
  let* k := Eff.gets (fun k => k) in
  let response := post_process env k (session_of k session) response in
  let* _ := cache_set env user_input response context in
  let rt := (time_done env - time_start env)%float in
  let* _ := update_metadata metadata (set_model_used model_used) in
  let* _ := update_metadata metadata (set_response_time (PFloat rt)) in
  let* _ := update_session
              (record_turn rt
                 {| ex_timestamp := isoformat (now_append env);
                    ex_question := user_input;
                    ex_response := response;
                    ex_metadata := metadata |}) in
  let* _ :=
    if enable_analytics (config k) then
      let* k := Eff.gets (fun k => k) in
      let* md := read_metadata metadata (fresh_metadata session) in
      log_interaction env (id (session_of k session)) user_input response
        (response_time md) (cached md) model_used
    else Eff.ret tt in
  Eff.ret response.

(** The body of the [try] of [process_query].  [session] is the
    object bound on entry (it stays [self.current_session] for the
    whole call) and [metadata] the reference of the call's dict. *)
Definition process_query_try (env : Env) (user_input : pystr)
    (session : UserSession) (metadata : nat) : M pystr :=
  let* k := Eff.gets (fun k => k) in
  if max_input_length (config k) <? Z.of_nat (length user_input) then
    Eff.ret too_long_message
  else if _is_inappropriate_content k user_input then
    Eff.ret inappropriate_message
  else
    let context := _format_conversation_context (session_of k session) in
    let* cached_response := cache_get env user_input context in
    match cached_response with
    | Some (c :: cached_text) =>
        let* _ := update_metadata metadata (set_cached true) in
        let* _ := update_metadata metadata
                    (set_response_time
                       (PFloat (time_hit env - time_start env)%float)) in
        let* _ := Eff.modify bump_cache_hits in
        Eff.ret (c :: cached_text)
    | _ => process_query_miss env user_input context session metadata
    end.

(** The [except Exception as e] clause of [process_query]. *)
Definition process_query_except (session : UserSession) (metadata : nat)
    (e : PyExc) : M (pystr * nat) :=
  let* _ := update_session record_error in
  let* _ := update_metadata metadata (set_error (Some (str_exc e))) in
  let* k := Eff.gets (fun k => k) in
  let* _ := log ERROR (Py.lit "Query processing failed")
              [(Py.lit "session_id", id (session_of k session));
               (Py.lit "error", str_exc e)] in
  Eff.ret (processing_error_message, metadata).

(** [process_query] up to its [try]: the session the call works on
    and the reference of the call's metadata dict. *)
Definition process_query_enter (env : Env) : M (UserSession * nat) :=
  let* existing := Eff.gets current_session in
  let* session := match existing with
                  | Some s => Eff.ret s
                  | None => create_session env
                  end in
  let* metadata := new_metadata (fresh_metadata session) in
  Eff.ret (session, metadata).

(** [process_query]: the response and the reference of the call's
    metadata dict. *)
Definition process_query (env : Env) (user_input : pystr)
  : M (pystr * nat) :=
  let* ' (session, metadata) := process_query_enter env in
  Eff.try_finally
    (Eff.try_except
       (let* response := process_query_try env user_input session metadata in
        Eff.ret (response, metadata))
       (process_query_except session metadata))
    bump_total_requests.
End WithHost.
End UltraAdvancedKioskChatbot.

(** ** [class AccessibilityEngine]: the text cleaning of speech output *)
Module AccessibilityEngine.

(** [re.sub(r'[*_`]', '', text)] *)
Definition is_markdown (c : N) : bool :=
  ((c =? 42) || (c =? 95) || (c =? 96))%N.

Definition remove_markdown (text : pystr) : pystr :=
  List.filter (fun c => negb (is_markdown c)) text.

(** Whether [old] starts [s]. *)
Fixpoint starts_with (old s : pystr) : bool :=
  match old, s with
  | [], _ => true
  | o :: old', c :: s' => (o =? c)%N && starts_with old' s'
  | _ :: _, [] => false
  end.

(** [s.replace(old, new)] for a non-empty [old], scanning from the
    left; [skip] counts the characters of an occurrence still to be
    passed over. *)
Fixpoint replace_from (old new : pystr) (skip : nat) (s : pystr) : pystr :=
  match s with
  | [] => []
  | c :: s' =>
      match skip with
      | S n => replace_from old new n s'
      | O =>
          if starts_with old s
          then new ++ replace_from old new (length old - 1) s'
          else c :: replace_from old new 0 s'
      end
  end.

(** [s.replace(old, new)]; an empty [old] puts [new] before every
    character and at the end. *)
Definition str_replace (old new : pystr) (s : pystr) : pystr :=
  match old with
  | [] => new ++ concat (List.map (fun c => c :: new) s)
  | _ => replace_from old new 0 s
  end.

(** [s.split()]: the maximal runs of characters that are not
    whitespace; [word] is the run being read. *)
Fixpoint split_from (word : pystr) (s : pystr) : list pystr :=
  match s with
  | [] => match word with [] => [] | _ => [word] end
  | c :: s' =>
      if Py.is_space c then
        match word with
        | [] => split_from [] s'
        | _ => word :: split_from [] s'
        end
      else split_from (word ++ [c]) s'
  end.

Definition split (s : pystr) : list pystr := split_from [] s.

(** [' '.join(words)] *)
Fixpoint join_space (words : list pystr) : pystr :=
  match words with
  | [] => []
  | [w] => w
  | w :: ws => w ++ [32%N] ++ join_space ws
  end.

(** The dict [abbreviations], in its order. *)
Definition abbreviations : list (pystr * pystr) :=
  [(Py.lit "e.g.", Py.lit "for example");
   (Py.lit "i.e.", Py.lit "that is");
   (Py.lit "etc.", Py.lit "and so on");
   (Py.lit "vs.", Py.lit "versus");
   (Py.lit "Dr.", Py.lit "Doctor");
   (Py.lit "Mr.", Py.lit "Mister");
   (Py.lit "Mrs.", Py.lit "Misses");
   (Py.lit "Ms.", Py.lit "Miss")].

(** The loop [for abbrev, expansion in abbreviations.items()]. *)
Definition expand_abbreviations (table : list (pystr * pystr)) (text : pystr)
  : pystr :=
  fold_left (fun text ae => str_replace (fst ae) (snd ae) text) table text.

(** [_clean_text_for_speech] *)
Definition _clean_text_for_speech (text : pystr) : pystr :=
  let text := remove_markdown text in
  let text := expand_abbreviations abbreviations text in
  join_space (split text).
End AccessibilityEngine.

(** ** The orchestrator's session commands

    [change_language], [AdvancedAnalytics.log_session], and the two
    places that end a session and start the next: the session-limit
    test at the head of the loop of [run_interactive_session] and the
    clear command of [handle_special_commands]. *)
Module KioskDesk.
Import UltraAdvancedKioskChatbot.

(** A row of the [sessions] table; [id] is its primary key.
    [satisfaction] is [session.user_satisfaction], which no code
    assigns: it is always [None]. *)
Record SessionRow := {
  r_start_time : Z;
  r_end_time : Z;
  r_questions_count : Z;
  r_avg_response_time : float;
  r_language : pystr;
  r_satisfaction : option float;
  r_errors_count : Z
}.

(** The orchestrator together with what these commands touch besides:
    the [sessions] table of the analytics database and the messages
    handed to [_display_message], each with its style. *)
Record t := {
  kiosk : UltraAdvancedKioskChatbot.t;
  sessions : gmap pystr SessionRow;
  screen : list (pystr * pystr)
}.

Definition with_kiosk (d : t) (k : UltraAdvancedKioskChatbot.t) : t :=
  {| kiosk := k; sessions := sessions d; screen := screen d |}.

Definition with_sessions (d : t) (tbl : gmap pystr SessionRow) : t :=
  {| kiosk := kiosk d; sessions := tbl; screen := screen d |}.

Definition with_screen (d : t) (l : list (pystr * pystr)) : t :=
  {| kiosk := kiosk d; sessions := sessions d; screen := l |}.

(** A computation of the orchestrator, run on its part of the state. *)
Definition lift {A} (c : Eff.M UltraAdvancedKioskChatbot.t A) : Eff.M t A :=
  fun d => let '(r, k) := c (kiosk d) in (r, with_kiosk d k).

Definition _display_message (message style : pystr) : Eff.M t unit :=
  Eff.modify (fun d => with_screen d (screen d ++ [(message, style)])).

(** [[lang.value for lang in Language]] *)
Definition valid_languages : list pystr :=
  [Py.lit "en"; Py.lit "es"; Py.lit "fr"; Py.lit "de"; Py.lit "it";
   Py.lit "pt"; Py.lit "ru"; Py.lit "zh"; Py.lit "ja"; Py.lit "ko";
   Py.lit "ar"; Py.lit "hi"].

(** [', '.join(parts)] *)
Fixpoint join_comma (parts : list pystr) : pystr :=
  match parts with
  | [] => []
  | [p] => p
  | p :: ps => p ++ Py.lit ", " ++ join_comma ps
  end.

(** [str.upper] on the codes it is applied to here: they are among
    [valid_languages], all of them lowercase ASCII letters. *)
Definition ascii_upper (s : pystr) : pystr :=
  List.map (fun c => if ((97 <=? c) && (c <=? 122))%N then (c - 32)%N else c) s.

Definition set_language (code : pystr) (s : UserSession) : UserSession :=
  {| id := id s; start_time := start_time s;
     questions_count := questions_count s;
     total_response_time := total_response_time s;
     preferred_language := code;
     conversation_history := conversation_history s;
     errors_encountered := errors_encountered s |}.

(** [change_language] *)
Definition change_language (language_code : pystr) : Eff.M t bool :=
  let* current := Eff.gets (fun d => current_session (kiosk d)) in
  match current with
  | None => Eff.ret false
  | Some session =>
      if decide (language_code ∈ valid_languages) then
        let* _ := lift (Eff.modify (fun k =>
                    with_current_session k (Some (set_language language_code session)))) in
        let* _ := _display_message
                    (Py.lit "Language changed to: " ++ ascii_upper language_code)
                    (Py.lit "success") in
        let* _ := lift (log INFO (Py.lit "Language changed")
                          [(Py.lit "session_id", id session);
                           (Py.lit "language", language_code)]) in
        Eff.ret true
      else
        let* _ := _display_message
                    (Py.lit "Unsupported language: " ++ language_code
                     ++ Py.lit ". Supported: " ++ join_comma valid_languages)
                    (Py.lit "warning") in
        Eff.ret false
  end.

Section WithArith.
Context `{PyArith}.

(** [AdvancedAnalytics.log_session]: [INSERT OR REPLACE] of the
    session's row, committed, or rolled back with its exception
    re-raised.  [session_row] is the tuple of values of the insert;
    [now_log] is the [datetime.now()] of its [end_time]. *)
Definition session_row (env : Env) (session : UserSession) : SessionRow :=
  let avg_response_time :=
    (total_response_time session
     / float_of_int (Z.max 1 (questions_count session)))%float in
  {| r_start_time := start_time session;
     r_end_time := now_log env;
     r_questions_count := questions_count session;
     r_avg_response_time := avg_response_time;
     r_language := preferred_language session;
     r_satisfaction := None;
     r_errors_count := errors_encountered session |}.

Definition log_session (env : Env) (session : UserSession) : Eff.M t unit :=
  match db_failure env with
  | Some e => Eff.raise e
  | None =>
      Eff.modify (fun d =>
        with_sessions d (<[id session := session_row env session]> (sessions d)))
  end.

(** [del self.active_sessions[old_session_id]] *)
Definition del_active_session (old_session_id : pystr) : Eff.M t unit :=
  fun d =>
    if decide (old_session_id ∈ active_sessions (kiosk d)) then
      (Return tt,
       with_kiosk d
         (with_active_sessions (kiosk d)
            (List.filter (fun k => negb (bool_decide (k = old_session_id)))
               (active_sessions (kiosk d)))))
    else (Raise (KeyError old_session_id), d).

(** The message of the session-limit test, as the source file has it. *)
Definition fresh_session_message : pystr :=
  [63743%N; 252%N; 238%N; 209%N]
  ++ Py.lit " Starting fresh session for optimal performance...".

(** The message of the clear command, as the source file has it. *)
Definition new_session_message : pystr :=
  [63743%N; 252%N; 238%N; 209%N]
  ++ Py.lit " New session started with fresh conversation".

(** "Check for session limits", at the head of every round of the loop
    of [run_interactive_session]. *)
Definition session_limit_check (env : Env) : Eff.M t unit :=
  let* current := Eff.gets (fun d => current_session (kiosk d)) in
  match current with
  | None =>
      Eff.raise (Exception_
        (Py.lit "'NoneType' object has no attribute 'questions_count'"))
  | Some session =>
      let* cfg := Eff.gets (fun d => config (kiosk d)) in
      if max_conversation_turns cfg <=? questions_count session then
        let* _ := _display_message fresh_session_message (Py.lit "info") in
        let* _ := if enable_analytics cfg then log_session env session
                  else Eff.ret tt in
        let* _ := del_active_session (id session) in
        let* _ := lift (create_session env) in
        Eff.ret tt
      else Eff.ret tt
  end.

(** The branch "Clear/Reset commands" of [handle_special_commands]. *)
Definition clear_command (env : Env) : Eff.M t pystr :=
  let* current := Eff.gets (fun d => current_session (kiosk d)) in
  let* cfg := Eff.gets (fun d => config (kiosk d)) in
  let* _ :=
    match current with
    | Some session =>
        let* _ := if enable_analytics cfg then log_session env session
                  else Eff.ret tt in
        del_active_session (id session)
    | None => Eff.ret tt
    end in
  let* _ := lift (create_session env) in
  let* _ := _display_message new_session_message (Py.lit "success") in
  Eff.ret (Py.lit "cleared").
End WithArith.
End KioskDesk.

(** ** Sample hosts and data on which the statements are exercised *)
Module Sample.

(** A model that answers every prompt with the same value. *)
Definition answers (v : PyVal) : Model := fun _ _ => Return v.

(** A model whose every call raises. *)
Definition fails (msg : pystr) : Model := fun _ _ => Raise (Exception_ msg).

(** A host whose case folding is the identity and whose hash hands
    back the bytes it is given, on which
    every rendering is empty and every [OllamaLLM] is constructed;
    the model called ["down"] raises, any other echoes its name. *)
Definition host : PyHost :=
  {| str_lower := fun s => s;
     md5_hexdigest := fun s => s;
     repr_str := fun s => s;
     str_object := fun _ => [];
     min_empty_msg := Py.lit "min() arg is an empty sequence";
     re_search_inappropriate := fun _ => false;
     LANGCHAIN_AVAILABLE := true;
     OllamaLLM := fun name _ _ _ =>
       Return (if decide (name = Py.lit "down")
               then fails (Py.lit "connection refused")
               else answers (PStr name));
     isoformat := Py.str_of_int |}.

(** The same host with a content filter that finds a match in the
    text ["hack"] and in no other. *)
Definition filtering_host : PyHost :=
  {| str_lower := fun s => s;
     md5_hexdigest := fun s => s;
     repr_str := fun s => s;
     str_object := fun _ => [];
     min_empty_msg := Py.lit "min() arg is an empty sequence";
     re_search_inappropriate := fun s => bool_decide (s = Py.lit "hack");
     LANGCHAIN_AVAILABLE := true;
     OllamaLLM := fun name _ _ _ => Return (answers (PStr name));
     isoformat := Py.str_of_int |}.

(** The defaults of [KioskConfig], with the fallbacks given. *)
Definition config (fallbacks : list (ModelProvider * pystr)) : KioskConfig :=
  {| primary_model_provider := OLLAMA;
     primary_model_name := Py.lit "neural-chat";
     fallback_models := fallbacks;
     max_tokens := 200;
     temperature := 0x1.3333333333333p-2%float;  (* 0.3 *)
     timeout := 15%float;
     max_conversation_turns := 50;
     context_window_size := 1000;
     cache_ttl_hours := 24;
     default_language := Py.lit "en";
     enable_content_filtering := true;
     max_input_length := 500;
     enable_analytics := true |}.

(** A manager with the given primary and fallbacks, every fallback
    healthy, as [initialize_models] leaves it. *)
Definition manager (primary_model : Model) (fallbacks : list (pystr * Model))
  : MultiModelAIManager.t :=
  {| MultiModelAIManager.config := config [];
     MultiModelAIManager.logger := [];
     MultiModelAIManager.models := fallbacks;
     MultiModelAIManager.current_model := primary_model;
     MultiModelAIManager.model_health :=
       list_to_map
         ((fun k => (k, {| MultiModelAIManager.healthy := true;
                           MultiModelAIManager.last_error := None |}))
            <$> PyDict.keys fallbacks);
     MultiModelAIManager.invocations := [] |}.

(** Primary P and fallbacks F1, F2. *)
Definition P_F1_F2 (p f1 f2 : Model) : MultiModelAIManager.t :=
  manager p [(Py.lit "ollama_f1", f1); (Py.lit "ollama_f2", f2)].

(** A session in the given language, with no turn so far. *)
Definition session (lang : pystr) : UltraAdvancedKioskChatbot.UserSession :=
  {| UltraAdvancedKioskChatbot.id := Py.lit "session_1700000000_0";
     UltraAdvancedKioskChatbot.start_time := 0;
     UltraAdvancedKioskChatbot.questions_count := 0;
     UltraAdvancedKioskChatbot.total_response_time := 0%float;
     UltraAdvancedKioskChatbot.preferred_language := lang;
     UltraAdvancedKioskChatbot.conversation_history := [];
     UltraAdvancedKioskChatbot.errors_encountered := 0 |}.

(** An orchestrator as [__init__] leaves it, with the given primary
    model and no fallback, after [create_session] and a change of the
    session's language to [lang]. *)
Definition kiosk (lang : pystr) (primary_model : Model)
  : UltraAdvancedKioskChatbot.t :=
  {| UltraAdvancedKioskChatbot.config := config [];
     UltraAdvancedKioskChatbot.cache := IntelligentCache.init 24 1000;
     UltraAdvancedKioskChatbot.analytics := [];
     UltraAdvancedKioskChatbot.ai_manager := manager primary_model [];
     UltraAdvancedKioskChatbot.translator := true;
     UltraAdvancedKioskChatbot.active_sessions := [Py.lit "session_1700000000_0"];
     UltraAdvancedKioskChatbot.current_session := Some (session lang);
     UltraAdvancedKioskChatbot.performance_metrics :=
       {| UltraAdvancedKioskChatbot.total_requests := 0;
          UltraAdvancedKioskChatbot.cache_hits := 0 |};
     UltraAdvancedKioskChatbot.metadatas := [];
     UltraAdvancedKioskChatbot.cache_ops := [] |}.

(** A turn whose clock readings are all [now] (in seconds for
    [time.time()], in microseconds for [datetime.now()]), with the given
    translation service and database behaviour. *)
Definition env (now : Z)
    (translate : pystr -> pystr -> pystr -> Outcome (option pystr))
    (db : option PyExc) : UltraAdvancedKioskChatbot.Env :=
  {| UltraAdvancedKioskChatbot.session_stamp := now;
     UltraAdvancedKioskChatbot.now_session := now * 1000000;
     UltraAdvancedKioskChatbot.time_start := 0%float;
     UltraAdvancedKioskChatbot.now_get := now * 1000000;
     UltraAdvancedKioskChatbot.time_hit := 1%float;
     UltraAdvancedKioskChatbot.now_set := now * 1000000;
     UltraAdvancedKioskChatbot.time_done := 2%float;
     UltraAdvancedKioskChatbot.now_append := now * 1000000;
     UltraAdvancedKioskChatbot.now_log := now * 1000000;
     UltraAdvancedKioskChatbot.google_translate := translate;
     UltraAdvancedKioskChatbot.db_failure := db |}.

(** A translation service that renders every text as ["hola"]. *)
Definition to_hola : pystr -> pystr -> pystr -> Outcome (option pystr) :=
  fun _ _ _ => Return (Some (Py.lit "hola")).

(** Conversions that are exact on the small non-negative integers the
    samples use. *)
Definition arith : PyArith :=
  {| float_of_int := fun n => PrimFloat.of_uint63 (Uint63.of_Z n);
     int_truediv := fun a b =>
       (PrimFloat.of_uint63 (Uint63.of_Z a)
        / PrimFloat.of_uint63 (Uint63.of_Z b))%float |}.

(** An orchestrator with an empty [sessions] table and nothing
    displayed yet. *)
Definition desk (k : UltraAdvancedKioskChatbot.t) : KioskDesk.t :=
  {| KioskDesk.kiosk := k; KioskDesk.sessions := ∅; KioskDesk.screen := [] |}.
End Sample.

(** * Properties *)

(** ** Strings *)
Module PyFacts.
Import Py.

Lemma head_rev {A} (l : list A) : head (rev l) = last l.
Proof.
  induction l as [|x l IH]; [reflexivity|].
  simpl. rewrite head_app, IH. destruct l as [|a l]; [reflexivity|].
  change (last (x :: a :: l)) with (last (a :: l)).
  destruct (last (a :: l)) eqn:E; [reflexivity|].
  apply last_None in E. discriminate.
Qed.

Lemma last_rev {A} (l : list A) : last (rev l) = head l.
Proof. rewrite <- (rev_involutive l) at 2. symmetry. apply head_rev. Qed.

Lemma lstrip_head s c : head (lstrip s) = Some c -> is_space c = false.
Proof.
  induction s as [|x s IH]; simpl; [discriminate|].
  destruct (is_space x) eqn:E; [exact IH|].
  simpl. intros [= <-]. exact E.
Qed.

Lemma lstrip_fix s :
  (forall c, head s = Some c -> is_space c = false) -> lstrip s = s.
Proof.
  destruct s as [|x s]; [reflexivity|].
  intros Hh. simpl. rewrite (Hh x); reflexivity.
Qed.

Lemma lstrip_last s c : last (lstrip s) = Some c -> last s = Some c.
Proof.
  induction s as [|x s IH]; simpl; [discriminate|].
  destruct (is_space x); [|trivial].
  intros Hl. specialize (IH Hl). destruct s; [discriminate|exact IH].
Qed.

Lemma rstrip_last s c : last (rstrip s) = Some c -> is_space c = false.
Proof. unfold rstrip. rewrite last_rev. apply lstrip_head. Qed.

Lemma rstrip_head s c : head (rstrip s) = Some c -> head s = Some c.
Proof.
  unfold rstrip. rewrite head_rev. intros Hl.
  apply lstrip_last in Hl. now rewrite last_rev in Hl.
Qed.

Lemma rstrip_fix s :
  (forall c, last s = Some c -> is_space c = false) -> rstrip s = s.
Proof.
  intros Hl. unfold rstrip. rewrite lstrip_fix.
  - apply rev_involutive.
  - intros c. rewrite head_rev. apply Hl.
Qed.

(** [strip] leaves no whitespace at either end. *)
Lemma strip_trimmed s : trimmed (strip s).
Proof.
  split; intros c Hc; unfold strip in Hc.
  - apply rstrip_head in Hc. eapply lstrip_head, Hc.
  - eapply rstrip_last, Hc.
Qed.

(** A trimmed string is a fixed point of [strip]. *)
Lemma strip_fix s : trimmed s -> strip s = s.
Proof.
  intros [Hh Hl]. unfold strip. rewrite (lstrip_fix s Hh). now apply rstrip_fix.
Qed.

Lemma strip_idempotent s : strip (strip s) = strip s.
Proof. apply strip_fix, strip_trimmed. Qed.

Lemma lstrip_decompose s :
  exists pre, s = pre ++ lstrip s /\ Forall (fun c => is_space c = true) pre.
Proof.
  induction s as [|x s (pre & Hs & Hpre)]; simpl.
  - exists []. split; [reflexivity | constructor].
  - destruct (is_space x) eqn:E.
    + exists (x :: pre). split; [simpl; congruence | now constructor].
    + exists []. split; [reflexivity | constructor].
Qed.

Lemma rstrip_decompose s :
  exists post, s = rstrip s ++ post /\ Forall (fun c => is_space c = true) post.
Proof.
  destruct (lstrip_decompose (rev s)) as (pre & Hs & Hpre).
  exists (rev pre). split.
  - unfold rstrip. rewrite <- rev_app_distr, <- Hs. symmetry. apply rev_involutive.
  - apply Forall_forall. intros c Hc. apply list_elem_of_In, in_rev in Hc.
    rewrite Forall_forall in Hpre. apply Hpre. now apply list_elem_of_In.
Qed.

(** [strip] removes whitespace at the two ends and nothing else. *)
Lemma strip_decompose s :
  exists pre post,
    s = pre ++ strip s ++ post /\
    Forall (fun c => is_space c = true) pre /\
    Forall (fun c => is_space c = true) post.
Proof.
  destruct (lstrip_decompose s) as (pre & Hs & Hpre).
  destruct (rstrip_decompose (lstrip s)) as (post & Ht & Hpost).
  exists pre, post. unfold strip. rewrite <- Ht. auto.
Qed.
End PyFacts.

(** ** Insertion-ordered dictionaries *)
Module PyDictFacts.
Import PyDict.

Section Dict.
Context {V : Type}.
Implicit Type d : list (pystr * V).

Lemma lookup_None k d : lookup k d = None <-> k ∉ keys d.
Proof.
  unfold keys. induction d as [|[k' v] d IH]; simpl.
  - split; [intros _; apply not_elem_of_nil | reflexivity].
  - rewrite not_elem_of_cons. destruct (decide (k = k')); [|tauto].
    split; [discriminate | tauto].
Qed.

Lemma lookup_Some_keys k v d : lookup k d = Some v -> k ∈ keys d.
Proof.
  intros Hl. destruct (decide (k ∈ keys d)) as [|Hn]; [assumption|].
  apply lookup_None in Hn. congruence.
Qed.

Lemma keys_lookup k d : k ∈ keys d -> is_Some (lookup k d).
Proof.
  intros Hin. destruct (lookup k d) eqn:E; [eauto|].
  apply lookup_None in E. contradiction.
Qed.

Lemma lookup_store_eq k v d : lookup k (store k v d) = Some v.
Proof.
  induction d as [|[k' v'] d IH]; simpl.
  - now rewrite decide_True.
  - destruct (decide (k = k')); simpl.
    + now rewrite decide_True.
    + now rewrite decide_False.
Qed.

Lemma lookup_store_ne k k' v d :
  k <> k' -> lookup k' (store k v d) = lookup k' d.
Proof.
  intros Hne. induction d as [|[k0 v0] d IH]; simpl.
  - now rewrite decide_False by congruence.
  - destruct (decide (k = k0)) as [->|]; simpl.
    + now rewrite !decide_False by congruence.
    + now rewrite IH.
Qed.

Lemma lookup_del_eq k d : lookup k (del k d) = None.
Proof.
  induction d as [|[k' v'] d IH]; simpl; [reflexivity|].
  destruct (decide (k = k')); simpl; [assumption|].
  now rewrite decide_False.
Qed.

Lemma lookup_del_ne k k' d : k <> k' -> lookup k' (del k d) = lookup k' d.
Proof.
  intros Hne. induction d as [|[k0 v0] d IH]; simpl; [reflexivity|].
  destruct (decide (k = k0)) as [->|]; simpl.
  - now rewrite decide_False by congruence.
  - now rewrite IH.
Qed.

Lemma keys_store k v d :
  keys (store k v d) = if decide (k ∈ keys d) then keys d else keys d ++ [k].
Proof.
  unfold keys. induction d as [|[k' v'] d IH].
  - case_decide as Hin; [|reflexivity]. now apply elem_of_nil in Hin.
  - cbn [store]. destruct (decide (k = k')) as [->|Hne].
    + clear IH. cbn [fmap list_fmap fst].
      case_decide as Hn; [reflexivity|].
      exfalso. apply Hn, elem_of_cons. tauto.
    + cbn [fmap list_fmap fst] in *. rewrite IH.
      destruct (decide (k ∈ d.*1)) as [Hin|Hn];
        destruct (decide (k ∈ k' :: d.*1)) as [Hin'|Hn']; try reflexivity.
      * exfalso. apply Hn', elem_of_cons. tauto.
      * exfalso. apply elem_of_cons in Hin'. tauto.
Qed.

Lemma elem_of_keys_store k' k v d :
  k' ∈ keys (store k v d) <-> k' = k \/ k' ∈ keys d.
Proof.
  rewrite keys_store. case_decide as Hk.
  - split; [tauto|]. intros [->|?]; assumption.
  - rewrite elem_of_app, list_elem_of_singleton. tauto.
Qed.

Lemma elem_of_keys k v d : (k, v) ∈ d -> k ∈ keys d.
Proof. intros Hin. unfold keys. apply list_elem_of_fmap. now exists (k, v). Qed.

(** Under distinct keys, an item whose key occurs in the front part
    of a list lies in that part. *)
Lemma elem_of_app_keys k v d1 d2 :
  NoDup (keys (d1 ++ d2)) -> (k, v) ∈ d1 ++ d2 -> k ∈ keys d1 -> (k, v) ∈ d1.
Proof.
  unfold keys. rewrite fmap_app. intros Hnd Hin Hk.
  apply NoDup_app in Hnd as (_ & Hdisj & _).
  apply elem_of_app in Hin as [Hin|Hin]; [assumption|].
  exfalso. apply (Hdisj k Hk). now apply (elem_of_keys k v).
Qed.

Lemma del_notin k d : k ∉ keys d -> del k d = d.
Proof.
  unfold keys. induction d as [|[k' v'] d IH]; simpl; [reflexivity|].
  rewrite not_elem_of_cons. intros [Hne Hn].
  rewrite decide_False by assumption. now rewrite IH.
Qed.

Lemma keys_del_subseteq k d : keys (del k d) ⊆ keys d.
Proof.
  unfold keys. induction d as [|[k' v'] d IH]; simpl; [reflexivity|].
  destruct (decide (k = k')).
  - intros x Hx. apply elem_of_cons. right. now apply IH.
  - simpl. intros x. rewrite !elem_of_cons. intros [->|Hx]; [tauto|].
    right. now apply IH.
Qed.

Lemma wf_store k v d : wf d -> wf (store k v d).
Proof.
  unfold wf. rewrite keys_store. intros Hd.
  destruct (decide (k ∈ keys d)) as [|Hn]; [assumption|].
  apply NoDup_app. repeat split; [assumption| |apply NoDup_singleton].
  intros x Hx Hx'. apply list_elem_of_singleton in Hx'. now subst.
Qed.

Lemma wf_del k d : wf d -> wf (del k d).
Proof.
  unfold wf, keys. induction d as [|[k' v'] d IH]; simpl; [trivial|].
  rewrite NoDup_cons. intros [Hn Hd].
  destruct (decide (k = k')); [now apply IH|].
  simpl. apply NoDup_cons. split; [|now apply IH].
  intros Hin. apply Hn. now apply (keys_del_subseteq k d).
Qed.

Lemma length_store_le k v d : (length (store k v d) <= S (length d))%nat.
Proof.
  induction d as [|[k' v'] d IH]; simpl; [lia|].
  destruct (decide (k = k')); simpl; lia.
Qed.

Lemma length_del_le k d : (length (del k d) <= length d)%nat.
Proof.
  induction d as [|[k' v'] d IH]; simpl; [lia|].
  destruct (decide (k = k')); simpl; lia.
Qed.

(** Deleting a key that is present removes exactly one entry. *)
Lemma length_del k d :
  wf d -> k ∈ keys d -> S (length (del k d)) = length d.
Proof.
  unfold wf, keys. induction d as [|[k' v'] d IH]; simpl.
  - intros _ Hin. now apply elem_of_nil in Hin.
  - rewrite NoDup_cons, elem_of_cons. intros [Hn Hd] Hin.
    destruct (decide (k = k')) as [->|Hne].
    + now rewrite (del_notin k' d Hn).
    + simpl. f_equal. apply IH; [assumption|]. tauto.
Qed.
End Dict.

Lemma length_store_in {V} k (v : V) d :
  k ∈ keys d -> length (store k v d) = length d.
Proof.
  unfold keys. induction d as [|[k' v'] d IH]; cbn [store fmap list_fmap fst].
  - intros Hin. now apply elem_of_nil in Hin.
  - rewrite elem_of_cons. intros Hin.
    destruct (decide (k = k')); [reflexivity|].
    simpl. f_equal. apply IH. tauto.
Qed.

Lemma min_from_elem f best ks : min_from f best ks ∈ best :: ks.
Proof.
  revert best. induction ks as [|k ks IH]; intros best; simpl.
  - apply elem_of_cons. tauto.
  - destruct (f k <? f best).
    + apply elem_of_cons. right. apply IH.
    + specialize (IH best). rewrite !elem_of_cons in *. tauto.
Qed.

Lemma min_from_le_best f best ks : f (min_from f best ks) <= f best.
Proof.
  revert best. induction ks as [|k ks IH]; intros best; simpl; [lia|].
  destruct (f k <? f best) eqn:E; [|apply IH].
  apply Z.ltb_lt in E. specialize (IH k). lia.
Qed.

Lemma min_from_le f best ks x :
  x ∈ best :: ks -> f (min_from f best ks) <= f x.
Proof.
  revert best. induction ks as [|k ks IH]; intros best Hx; simpl.
  - apply list_elem_of_singleton in Hx. subst. lia.
  - apply elem_of_cons in Hx as [->|Hx].
    + destruct (f k <? f best) eqn:E; [|apply min_from_le_best].
      apply Z.ltb_lt in E. pose proof (min_from_le_best f k ks). lia.
    + apply elem_of_cons in Hx as [->|Hx]; destruct (f k <? f best) eqn:E.
      * apply min_from_le_best.
      * apply Z.ltb_ge in E. pose proof (min_from_le_best f best ks). lia.
      * apply IH, elem_of_cons. tauto.
      * apply IH, elem_of_cons. tauto.
Qed.
End PyDictFacts.

(** ** The response cache *)
Module CacheFacts.
Import IntelligentCache.

Section WithHost.
Context `{PyHost}.

(** [encode] returns the UTF-8 bytes exactly when the string has no
    surrogate, and raises otherwise. *)
Lemma encode_spec (s : pystr) :
  match Codec.encode s with
  | Return b =>
      Forall (fun c => Codec.is_surrogate c = false) s /\
      b = concat (List.map Codec.utf8 s)
  | Raise _ => Exists (fun c => Codec.is_surrogate c = true) s
  end.
Proof.
  induction s as [|a s IH]; [split; constructor|].
  unfold Codec.encode in *. cbn [Codec.span].
  destruct (Codec.is_surrogate a) eqn:Ea; cbn [negb drop].
  - now apply Exists_cons_hd.
  - destruct (drop _ s).
    + destruct IH as [IH _]. split; [now constructor | reflexivity].
    + now apply Exists_cons_tl.
Qed.

(** [_generate_key] raises exactly on a surrogate in the lowercased and
    stripped query or in the context. *)
Lemma generate_key_raises_iff (q ctx : pystr) :
  (exists e, _generate_key q ctx = Raise e) <->
  Exists (fun c => Codec.is_surrogate c = true) (Py.strip (str_lower q) ++ ctx).
Proof.
  unfold _generate_key.
  pose proof (encode_spec (Py.strip (str_lower q) ++ ctx)) as Hs.
  destruct (Codec.encode _) as [b|e]; split.
  - intros [e He]. discriminate.
  - intros Hex. destruct Hs as [Hall _]. apply Exists_exists in Hex as (c & Hin & Hc).
    rewrite Forall_forall in Hall. specialize (Hall c Hin). congruence.
  - intros _. exact Hs.
  - eauto.
Qed.

(** When the key cannot be computed, neither operation touches the
    cache. *)
Lemma get_raises now q ctx c e :
  _generate_key q ctx = Raise e -> get now q ctx c = (Raise e, c).
Proof. intros Hk. unfold get. now rewrite Hk. Qed.

Lemma set_raises now q r ctx c e :
  _generate_key q ctx = Raise e -> set now q r ctx c = (Raise e, c).
Proof. intros Hk. unfold set. now rewrite Hk. Qed.

(** A [get] that returns has computed its key. *)
Lemma get_returns_key now q ctx c found c1 :
  get now q ctx c = (Return found, c1) ->
  exists key, _generate_key q ctx = Return key.
Proof.
  unfold get. destruct (_generate_key q ctx) as [key|e]; [eauto | discriminate].
Qed.

Lemma get_max_size now q ctx c : max_size (snd (get now q ctx c)) = max_size c.
Proof.
  unfold get. destruct (_generate_key q ctx); [|reflexivity].
  destruct (PyDict.lookup _ _); [|reflexivity].
  destruct (_ <? _); reflexivity.
Qed.

Lemma set_max_size now q r ctx c : max_size (snd (set now q r ctx c)) = max_size c.
Proof.
  unfold set. destruct (_generate_key q ctx); [|reflexivity].
  destruct (_ <=? _); [|reflexivity].
  destruct (PyDict.py_min _ _); reflexivity.
Qed.

Lemma get_inv now q ctx c : inv c -> inv (snd (get now q ctx c)).
Proof.
  intros [Hwf Hlen]. unfold get.
  destruct (_generate_key q ctx) as [key|e]; [|now split].
  destruct (PyDict.lookup _ _) as [entry|] eqn:El; [|now split].
  destruct (_ <? _); split; simpl.
  - now apply PyDictFacts.wf_store.
  - rewrite PyDictFacts.length_store_in; [assumption|].
    eapply PyDictFacts.lookup_Some_keys, El.
  - now apply PyDictFacts.wf_del.
  - pose proof (PyDictFacts.length_del_le key (cache c)). lia.
Qed.

(** At capacity, with a capacity of at least one, [min] finds a key:
    one whose entry is the oldest. *)
Lemma oldest_exists c :
  1 <= max_size c -> max_size c <= Z.of_nat (length (cache c)) ->
  exists oldest_key entry,
    PyDict.py_min (PyDict.keys (cache c)) (timestamp_of (cache c))
      = Return oldest_key /\
    PyDict.lookup oldest_key (cache c) = Some entry /\
    (forall k e, PyDict.lookup k (cache c) = Some e ->
                 timestamp entry <= timestamp e).
Proof.
  intros Hmax Hcap.
  destruct (PyDict.keys (cache c)) as [|k0 ks] eqn:Ek.
  - unfold PyDict.keys in Ek. apply fmap_nil_inv in Ek.
    rewrite Ek in Hcap. simpl in Hcap. lia.
  - set (o := PyDict.min_from (timestamp_of (cache c)) k0 ks).
    assert (Ho : o ∈ PyDict.keys (cache c)).
    { rewrite Ek. apply PyDictFacts.min_from_elem. }
    destruct (PyDictFacts.keys_lookup _ _ Ho) as [entry He].
    exists o, entry. repeat split; [assumption|].
    intros k e Hk.
    assert (Hin : k ∈ k0 :: ks).
    { rewrite <- Ek. eapply PyDictFacts.lookup_Some_keys, Hk. }
    pose proof (PyDictFacts.min_from_le (timestamp_of (cache c)) k0 ks k Hin) as Hle.
    fold o in Hle. unfold timestamp_of in Hle.
    now rewrite He, Hk in Hle.
Qed.

Lemma set_inv now q r ctx c :
  1 <= max_size c -> inv c -> inv (snd (set now q r ctx c)).
Proof.
  intros Hmax [Hwf Hlen]. unfold set.
  destruct (_generate_key q ctx) as [key|e]; [|now split].
  destruct (max_size c <=? Z.of_nat (length (cache c))) eqn:Ecap.
  - apply Z.leb_le in Ecap.
    destruct (oldest_exists c Hmax Ecap) as (o & e & -> & Ho & _).
    split; simpl.
    + now apply PyDictFacts.wf_store, PyDictFacts.wf_del.
    + pose proof (PyDictFacts.length_del o (cache c) Hwf
                    (PyDictFacts.lookup_Some_keys _ _ _ Ho)).
      pose proof (PyDictFacts.length_store_le key
                    {| response := r; timestamp := now; hits := 0 |}
                    (PyDict.del o (cache c))).
      lia.
  - apply Z.leb_gt in Ecap. split; simpl.
    + now apply PyDictFacts.wf_store.
    + pose proof (PyDictFacts.length_store_le key
                    {| response := r; timestamp := now; hits := 0 |} (cache c)).
      lia.
Qed.

Lemma run_op_inv o c : 1 <= max_size c -> inv c -> inv (run_op o c).
Proof. destruct o; intros; simpl; [now apply get_inv | now apply set_inv]. Qed.

Lemma run_op_max_size o c : max_size (run_op o c) = max_size c.
Proof. destruct o; simpl; [apply get_max_size | apply set_max_size]. Qed.

Lemma run_ops_inv os c :
  1 <= max_size c -> inv c ->
  inv (run_ops os c) /\ max_size (run_ops os c) = max_size c.
Proof.
  revert c. induction os as [|o os IH]; intros c Hmax Hinv; [now split|].
  simpl. destruct (IH (run_op o c)) as [Hi Hm].
  - now rewrite run_op_max_size.
  - now apply run_op_inv.
  - split; [assumption|]. now rewrite Hm, run_op_max_size.
Qed.

Lemma init_inv ttl n : 0 <= n -> inv (init ttl n).
Proof. intros Hn. split; [apply NoDup_nil_2 | simpl; lia]. Qed.

(** C3.  A cache created with a capacity of at least one and driven
    through any sequence of [get] and [set] calls, whether they return
    or raise, never holds more than [max_size] entries.  Whenever it is
    at capacity, a [set] whose key can be computed deletes exactly one
    entry, one whose creation timestamp is the minimum over the cache,
    and then stores the new entry; a [set] whose key cannot be computed
    raises before that and leaves the cache as it is.  With
    [max_size = 2], three insertions under pairwise different keys at
    times 0, 1 and 2 leave exactly the second and the third entry. *)
Theorem C3_cache_capacity (ttl max : Z) (os : list op) :
  1 <= max ->
  let c := run_ops os (init ttl max) in
  Z.of_nat (length (cache c)) <= max /\
  (forall now query response context,
     max <= Z.of_nat (length (cache c)) ->
     match _generate_key query context with
     | Return key =>
         exists oldest_key entry,
           PyDict.lookup oldest_key (cache c) = Some entry /\
           (forall k e, PyDict.lookup k (cache c) = Some e ->
                        timestamp entry <= timestamp e) /\
           S (length (PyDict.del oldest_key (cache c))) = length (cache c) /\
           set now query response context c =
             (Return tt,
              with_cache c
                (PyDict.store key
                   {| response := response; timestamp := now; hits := 0 |}
                   (PyDict.del oldest_key (cache c))))
     | Raise e => set now query response context c = (Raise e, c)
     end) /\
  (max = 2 ->
   forall qa ra ca qb rb cb qc rc cc ka kb kc,
     _generate_key qa ca = Return ka ->
     _generate_key qb cb = Return kb ->
     _generate_key qc cc = Return kc ->
     ka <> kb -> ka <> kc -> kb <> kc ->
     cache (run_ops [Set_ 0 qa ra ca; Set_ 1 qb rb cb; Set_ 2 qc rc cc]
              (init ttl max)) =
       [(kb, {| response := rb; timestamp := 1; hits := 0 |});
        (kc, {| response := rc; timestamp := 2; hits := 0 |})]).
Proof.
  intros Hmax c.
  destruct (run_ops_inv os (init ttl max) Hmax) as [[Hwf Hlen] Hm].
  { apply init_inv. lia. }
  fold c in Hwf, Hlen, Hm. simpl in Hm.
  split; [now rewrite <- Hm|]. split.
  - intros now query response context Hcap. rewrite <- Hm in Hcap, Hmax.
    destruct (_generate_key query context) as [key|e] eqn:Ek;
      [|now apply set_raises].
    destruct (oldest_exists c Hmax Hcap) as (o & e & Hmin & Ho & Hle).
    exists o, e. repeat split; try assumption.
    + apply PyDictFacts.length_del; [assumption|].
      eapply PyDictFacts.lookup_Some_keys, Ho.
    + unfold set. apply Z.leb_le in Hcap. now rewrite Ek, Hcap, Hmin.
  - intros -> qa ra ca qb rb cb qc rc cc ka kb kc Ha Hb Hc Hab Hac Hbc.
    unfold run_ops. cbn [fold_left run_op].
    unfold IntelligentCache.set, init, with_cache, timestamp_of.
    rewrite Ha, Hb, Hc. cbv zeta. simpl.
    repeat (case_decide; simpl in *; try congruence).
Qed.

(** With a capacity of zero or less, [set] on the empty cache finds
    nothing to evict: [min] raises and nothing is stored. *)
Lemma set_without_capacity now query response context ttl max key :
  _generate_key query context = Return key ->
  max <= 0 ->
  set now query response context (init ttl max) =
    (Raise (ValueError min_empty_msg), init ttl max).
Proof.
  intros Hk Hmax. unfold set. rewrite Hk. simpl.
  change (Z.of_nat 0) with 0. apply Z.leb_le in Hmax. now rewrite Hmax.
Qed.

(** C4.  For an entry cached under the key of (query, context):
    once the time elapsed since its creation has reached the TTL,
    [get] returns [None] and deletes the entry, leaving the others;
    while the elapsed time is below the TTL, [get] returns the
    stored response and adds one to the entry's hit count.  The
    entry that a [set] has just stored carries the time of that
    [set], so it too is absent from the TTL on. *)
Theorem C4_cache_ttl (c : t) (now : Z) (query context key : pystr)
    (entry : CacheEntry) :
  _generate_key query context = Return key ->
  PyDict.lookup key (cache c) = Some entry ->
  let ttl := timedelta_hours (ttl_hours c) in
  let c' := snd (get now query context c) in
  (ttl <= now - timestamp entry ->
     fst (get now query context c) = Return None /\
     PyDict.lookup key (cache c') = None /\
     (forall k, k <> key ->
                PyDict.lookup k (cache c') = PyDict.lookup k (cache c))) /\
  (now - timestamp entry < ttl ->
     fst (get now query context c) = Return (Some (response entry)) /\
     PyDict.lookup key (cache c') =
       Some {| response := response entry; timestamp := timestamp entry;
               hits := hits entry + 1 |} /\
     (forall k, k <> key ->
                PyDict.lookup k (cache c') = PyDict.lookup k (cache c))) /\
  (forall c0 t0 r,
     set t0 query r context c0 = (Return tt, c) ->
     entry = {| response := r; timestamp := t0; hits := 0 |}).
Proof.
  intros Hk Hl ttl c'. subst c'. unfold get. rewrite Hk, Hl. fold ttl.
  split; [|split].
  - intros Hold. apply Z.ltb_ge in Hold. rewrite Hold. simpl.
    split; [reflexivity|]. split; [apply PyDictFacts.lookup_del_eq|].
    intros k Hne. apply PyDictFacts.lookup_del_ne. congruence.
  - intros Hyoung. apply Z.ltb_lt in Hyoung. rewrite Hyoung. simpl.
    split; [reflexivity|]. split; [apply PyDictFacts.lookup_store_eq|].
    intros k Hne. apply PyDictFacts.lookup_store_ne. congruence.
  - intros c0 t0 r Hset. unfold set in Hset. rewrite Hk in Hset.
    destruct (_ <=? _) in Hset.
    + destruct (PyDict.py_min _ _) in Hset; [|discriminate].
      injection Hset as <-. simpl in Hl.
      rewrite PyDictFacts.lookup_store_eq in Hl. congruence.
    + injection Hset as <-. simpl in Hl.
      rewrite PyDictFacts.lookup_store_eq in Hl. congruence.
Qed.
End WithHost.

Lemma C3_cache_capacity_witness :
  1 <= 2 /\
  cache (@run_ops Sample.host
           [Set_ 0 (Py.lit "A") (Py.lit "first") [];
            Set_ 1 (Py.lit "B") (Py.lit "second") [];
            Set_ 2 (Py.lit "C") (Py.lit "third") []]
           (init 24 2)) =
    [(Py.lit "B", {| response := Py.lit "second"; timestamp := 1; hits := 0 |});
     (Py.lit "C", {| response := Py.lit "third"; timestamp := 2; hits := 0 |})].
Proof.
  split; [lia|].
  apply (proj2 (proj2 (@C3_cache_capacity Sample.host 24 2 [] ltac:(lia)))
           eq_refl (Py.lit "A") (Py.lit "first") [] (Py.lit "B")
           (Py.lit "second") [] (Py.lit "C") (Py.lit "third") []
           (Py.lit "A") (Py.lit "B") (Py.lit "C") eq_refl eq_refl eq_refl);
    vm_compute; discriminate.
Defined.

Lemma C4_cache_ttl_witness :
  let c := snd (@set Sample.host 0 (Py.lit "hours") (Py.lit "9 to 5") []
                  (init 1 10)) in
  fst (@get Sample.host 3600000000 (Py.lit "hours") [] c) = Return None /\
  fst (@get Sample.host 3599999999 (Py.lit "hours") [] c)
    = Return (Some (Py.lit "9 to 5")).
Proof.
  intros c. split.
  - apply (proj1 (@C4_cache_ttl Sample.host c 3600000000 (Py.lit "hours") []
                    (Py.lit "hours")
                    {| response := Py.lit "9 to 5"; timestamp := 0; hits := 0 |}
                    eq_refl eq_refl)).
    vm_compute. discriminate.
  - apply (proj1 (proj2 (@C4_cache_ttl Sample.host c 3599999999 (Py.lit "hours") []
                    (Py.lit "hours")
                    {| response := Py.lit "9 to 5"; timestamp := 0; hits := 0 |}
                    eq_refl eq_refl))).
    reflexivity.
Defined.
End CacheFacts.

(** ** The failover dispatcher *)
Module DispatcherFacts.
Import MultiModelAIManager.

Section WithHost.
Context `{PyHost}.

Lemma on_failure_fields attempt key e m :
  config (on_failure attempt key e m) = config m /\
  models (on_failure attempt key e m) = models m /\
  current_model (on_failure attempt key e m) = current_model m /\
  invocations (on_failure attempt key e m) = invocations m.
Proof. unfold on_failure. case_decide; repeat split. Qed.

Lemma on_failure_health attempt key e m :
  model_health (on_failure attempt key e m) =
    if decide (key = primary) then model_health m
    else <[key := {| healthy := false; last_error := Some (str_exc e) |}]>
           (model_health m).
Proof. unfold on_failure. case_decide; reflexivity. Qed.

(** A candidate that raises: the [try] body records the call and
    hands the exception to the [except] clause. *)
Lemma attempt_once_raises key model prompt context m e :
  model (sent_context m context) prompt = Raise e ->
  attempt_once key model prompt context m =
    (Raise e,
     with_invocations m
       (invocations m ++ [invocation_of (sent_context m context) prompt key])).
Proof. intros Hr. unfold attempt_once. now rewrite Hr. Qed.

(** The loop walks past candidates that raise, as long as none of
    them is the last of the list. *)
Lemma loop_skip_failed prompt context failed :
  forall rest i m,
    Forall (raises (sent_context m context) prompt) failed ->
    (i + length failed <= length (models m))%nat ->
    exists m1,
      get_response_loop prompt context
        (zip (seq i (length (failed ++ rest))) (failed ++ rest)) m
      = get_response_loop prompt context
          (zip (seq (i + length failed) (length rest)) rest) m1 /\
      config m1 = config m /\ models m1 = models m /\
      current_model m1 = current_model m /\
      invocations m1 =
        invocations m ++
        (invocation_of (sent_context m context) prompt <$> PyDict.keys failed) /\
      (forall k, k ∉ PyDict.keys failed ->
                 model_health m1 !! k = model_health m !! k) /\
      model_health m1 !! primary = model_health m !! primary /\
      (NoDup (PyDict.keys failed) ->
       forall k mdl e,
         (k, mdl) ∈ failed -> k <> primary ->
         mdl (sent_context m context) prompt = Raise e ->
         model_health m1 !! k =
           Some {| healthy := false; last_error := Some (str_exc e) |}).
Proof.
  induction failed as [|[k mdl] failed IH]; intros rest i m Hf Hlen.
  - exists m. simpl. rewrite Nat.add_0_r, app_nil_r.
    repeat split; try reflexivity.
    intros _ k mdl e Hin. now apply elem_of_nil in Hin.
  - apply Forall_cons in Hf as [[e He] Hf]. simpl in He.
    set (m0 := with_invocations m
                 (invocations m ++
                  [invocation_of (sent_context m context) prompt k])).
    set (m' := on_failure i k e m0).
    destruct (on_failure_fields i k e m0) as (Hc & Hm & Hcm & Hi).
    fold m' in Hc, Hm, Hcm, Hi.
    assert (Hsent : sent_context m' context = sent_context m context).
    { unfold sent_context. now rewrite Hc. }
    destruct (IH rest (S i) m') as (m1 & Hloop & Hc1 & Hm1 & Hcm1 & Hi1 & Hh1 & Hp1 & Hf1).
    { now rewrite Hsent. }
    { rewrite Hm. simpl in *. lia. }
    exists m1. split.
    { cbn [app length seq zip zip_with get_response_loop].
      rewrite (attempt_once_raises k mdl prompt context m e He).
      fold m0. fold m'.
      rewrite decide_False by (rewrite Hm; simpl in *; lia).
      rewrite Hloop. simpl. now rewrite Nat.add_succ_r. }
    rewrite Hc1, Hm1, Hcm1, Hi1, Hc, Hm, Hcm, Hi, Hsent.
    repeat split; try reflexivity.
    + unfold PyDict.keys. simpl. now rewrite <- app_assoc.
    + intros k' Hk'. unfold PyDict.keys in Hk'. cbn [fmap list_fmap fst] in Hk'.
      apply not_elem_of_cons in Hk' as [Hne Hk'].
      rewrite (Hh1 k' Hk'). unfold m'. rewrite on_failure_health.
      case_decide; [reflexivity|]. now apply lookup_insert_ne.
    + rewrite Hp1. unfold m'. rewrite on_failure_health.
      case_decide as Hkp; [reflexivity|]. now apply lookup_insert_ne.
    + intros Hnd k' mdl' e' Hin Hne He'.
      unfold PyDict.keys in Hnd. cbn [fmap list_fmap fst] in Hnd.
      apply NoDup_cons in Hnd as [Hk Hnd].
      apply elem_of_cons in Hin as [[= -> ->]|Hin].
      * rewrite (Hh1 k Hk). unfold m'. rewrite on_failure_health.
        rewrite decide_False by assumption.
        rewrite lookup_insert_eq. congruence.
      * apply (Hf1 Hnd k' mdl' e' Hin Hne). now rewrite Hsent.
Qed.

(** Every candidate list either raises throughout or has a first
    candidate that returns. *)
Lemma first_success_or_all_fail sent prompt (l : list (pystr * Model)) :
  Forall (raises sent prompt) l \/
  exists failed key model later result,
    l = failed ++ (key, model) :: later /\
    Forall (raises sent prompt) failed /\
    model sent prompt = Return result.
Proof.
  induction l as [|[k mdl] l IH]; [left; constructor|].
  destruct (mdl sent prompt) as [result|e] eqn:E.
  - right. exists [], k, mdl, l, result. repeat split; [constructor | assumption].
  - destruct IH as [IH|(failed & key & model & later & result & -> & Hf & Hr)].
    + left. constructor; [now exists e | assumption].
    + right. exists ((k, mdl) :: failed), key, model, later, result.
      repeat split; [|assumption]. constructor; [now exists e | assumption].
Qed.

Lemma loop_returns prompt context attempts :
  forall m, exists r, fst (get_response_loop prompt context attempts m) = Return r.
Proof.
  induction attempts as [|[attempt [key model]] attempts IH]; intros m; simpl.
  - eauto.
  - destruct (attempt_once key model prompt context m) as [[response|e] m'].
    + eauto.
    + case_decide; [eauto | apply IH].
Qed.

(** [get_response] always returns a pair; no exception leaves it. *)
Lemma get_response_returns prompt context m :
  exists r, fst (get_response prompt context m) = Return r.
Proof. apply loop_returns. Qed.

Lemma keys_app {V} (l1 l2 : list (pystr * V)) :
  PyDict.keys (l1 ++ l2) = PyDict.keys l1 ++ PyDict.keys l2.
Proof. unfold PyDict.keys. apply fmap_app. Qed.

Lemma wf_candidates m :
  wf m -> NoDup (PyDict.keys ((primary, current_model m) :: models m)).
Proof. intros (Hnd & Hp & _). apply NoDup_cons. now split. Qed.

(** The first candidate that returns ends the loop: its normalized
    payload is returned under its key; the candidates before it, and
    no others, were invoked, once each and in order. *)
Lemma get_response_first_success prompt context m failed key model later result :
  wf m ->
  (primary, current_model m) :: models m = failed ++ (key, model) :: later ->
  Forall (raises (sent_context m context) prompt) failed ->
  model (sent_context m context) prompt = Return result ->
  exists m',
    get_response prompt context m = (Return (normalize result, key), m') /\
    config m' = config m /\ models m' = models m /\
    current_model m' = current_model m /\
    invocations m' =
      invocations m ++
      (invocation_of (sent_context m context) prompt
         <$> (PyDict.keys failed ++ [key])) /\
    (forall k, k ∉ PyDict.keys failed -> k <> key ->
               model_health m' !! k = model_health m !! k) /\
    model_health m' !! primary = model_health m !! primary /\
    (forall k mdl e,
       (k, mdl) ∈ failed -> k <> primary ->
       mdl (sent_context m context) prompt = Raise e ->
       model_health m' !! k =
         Some {| healthy := false; last_error := Some (str_exc e) |}) /\
    (key <> primary ->
     exists h, model_health m !! key = Some h /\
               model_health m' !! key =
                 Some {| healthy := true; last_error := last_error h |}).
Proof.
  intros Hwf Hl Hf Hr.
  pose proof (wf_candidates m Hwf) as Hnd. rewrite Hl, keys_app in Hnd.
  apply NoDup_app in Hnd as (Hndf & Hdisj & Hndl).
  assert (Hkf : key ∉ PyDict.keys failed).
  { intros Hin. apply (Hdisj key Hin). unfold PyDict.keys. simpl.
    apply elem_of_cons. now left. }
  assert (Hlen : (0 + length failed <= length (models m))%nat).
  { apply (f_equal length) in Hl. rewrite length_app in Hl. simpl in Hl. lia. }
  destruct (loop_skip_failed prompt context failed ((key, model) :: later) 0 m Hf Hlen)
    as (m1 & Hloop & Hc1 & Hm1 & Hcm1 & Hi1 & Hh1 & Hp1 & Hf1).
  assert (Hsent : sent_context m1 context = sent_context m context).
  { unfold sent_context. now rewrite Hc1. }
  unfold get_response, enumerate. rewrite Hl, Hloop.
  cbn [length seq zip zip_with get_response_loop]. unfold attempt_once.
  rewrite Hsent, Hr.
  destruct (decide (key = primary)) as [->|Hkp].
  - eexists. split; [reflexivity|]. simpl.
    rewrite Hc1, Hm1, Hcm1, Hi1.
    repeat split; try reflexivity.
    + now rewrite fmap_app, app_assoc.
    + intros k Hk _. now apply Hh1.
    + assumption.
    + intros k mdl e Hin Hne He. now apply (Hf1 Hndf k mdl e).
    + congruence.
  - assert (Hdom : key ∈ dom (model_health m)).
    { destruct Hwf as (_ & _ & Hd). apply Hd.
      assert (Hin : key ∈ PyDict.keys ((primary, current_model m) :: models m)).
      { rewrite Hl, keys_app. apply elem_of_app. right.
        unfold PyDict.keys. simpl. apply elem_of_cons. now left. }
      unfold PyDict.keys in Hin. cbn [fmap list_fmap fst] in Hin.
      apply elem_of_cons in Hin as [?|Hin]; [contradiction | exact Hin]. }
    apply elem_of_dom in Hdom as [h Hh].
    simpl. rewrite (Hh1 key Hkf), Hh.
    eexists. split; [reflexivity|]. simpl.
    rewrite Hc1, Hm1, Hcm1, Hi1.
    repeat split; try reflexivity.
    + now rewrite fmap_app, app_assoc.
    + intros k Hk Hne. rewrite lookup_insert_ne by congruence. now apply Hh1.
    + rewrite lookup_insert_ne by assumption. assumption.
    + intros k mdl e Hin Hne He.
      rewrite lookup_insert_ne.
      * now apply (Hf1 Hndf k mdl e).
      * intros ->. apply Hkf. unfold PyDict.keys.
        apply list_elem_of_fmap. now exists (k, mdl).
    + intros _. exists h. split; [reflexivity|]. apply lookup_insert_eq.
Qed.

(** When every candidate raises, the last one ends the loop with the
    fixed message; all candidates were invoked, once each and in
    order. *)
Lemma get_response_exhausted prompt context m :
  Forall (raises (sent_context m context) prompt)
    ((primary, current_model m) :: models m) ->
  exists m',
    get_response prompt context m =
      (Return (exhausted_message, Py.lit "error"), m') /\
    config m' = config m /\ models m' = models m /\
    current_model m' = current_model m /\
    invocations m' =
      invocations m ++
      (invocation_of (sent_context m context) prompt
         <$> (primary :: PyDict.keys (models m))) /\
    (forall k, k ∉ PyDict.keys (models m) ->
               model_health m' !! k = model_health m !! k) /\
    (wf m ->
     forall k mdl e,
       (k, mdl) ∈ models m ->
       mdl (sent_context m context) prompt = Raise e ->
       model_health m' !! k =
         Some {| healthy := false; last_error := Some (str_exc e) |}).
Proof.
  intros Hall.
  destruct (exists_last (l := (primary, current_model m) :: models m))
    as (failed & [k mdl] & Hl); [discriminate|].
  rewrite Hl in Hall. apply Forall_app in Hall as [Hf Hlast].
  apply Forall_singleton in Hlast as [e He]. simpl in He.
  assert (Hlen : length failed = length (models m)).
  { apply (f_equal length) in Hl. rewrite length_app in Hl. simpl in Hl. lia. }
  destruct (loop_skip_failed prompt context failed [(k, mdl)] 0 m Hf)
    as (m1 & Hloop & Hc1 & Hm1 & Hcm1 & Hi1 & Hh1 & Hp1 & Hf1); [simpl; lia|].
  assert (Hsent : sent_context m1 context = sent_context m context).
  { unfold sent_context. now rewrite Hc1. }
  set (m0 := with_invocations m1
               (invocations m1 ++
                [invocation_of (sent_context m context) prompt k])).
  destruct (on_failure_fields (length failed) k e m0) as (Hc & Hm & Hcm & Hi).
  exists (on_failure (length failed) k e m0). split.
  { unfold get_response, enumerate. rewrite Hl, Hloop.
    cbn [length seq zip zip_with get_response_loop].
    rewrite (attempt_once_raises k mdl prompt context m1 e)
      by now rewrite Hsent.
    rewrite Hsent. fold m0. simpl.
    rewrite decide_True; [reflexivity|].
    rewrite Hm. simpl. now rewrite Hm1. }
  assert (Hkeys : primary :: PyDict.keys (models m) = PyDict.keys failed ++ [k]).
  { change (primary :: PyDict.keys (models m))
      with (PyDict.keys ((primary, current_model m) :: models m)).
    now rewrite Hl, keys_app. }
  rewrite Hkeys, Hc, Hm, Hcm, Hi. unfold m0 at 4. cbn [invocations with_invocations].
  rewrite Hi1. unfold m0. cbn [config models current_model with_invocations].
  rewrite Hc1, Hm1, Hcm1.
  repeat split; try reflexivity.
  - now rewrite fmap_app, app_assoc.
  - intros k' Hk'. rewrite on_failure_health. simpl.
    assert (Hk'' : k' = primary \/ ((k' ∉ PyDict.keys failed) /\ k' <> k)).
    { destruct (decide (k' = primary)) as [|Hne]; [now left|]. right.
      assert (Hn : k' ∉ primary :: PyDict.keys (models m)).
      { apply not_elem_of_cons. now split. }
      rewrite Hkeys in Hn. apply not_elem_of_app in Hn as [Hn1 Hn2].
      split; [assumption|]. intros ->. apply Hn2, elem_of_cons. now left. }
    destruct Hk'' as [->|[Hn1 Hn2]].
    + case_decide; [assumption|]. now rewrite lookup_insert_ne.
    + case_decide; [now apply Hh1|].
      rewrite lookup_insert_ne by congruence. now apply Hh1.
  - intros Hwf k' mdl' e' Hin He'.
    pose proof (wf_candidates m Hwf) as Hnd.
    change (PyDict.keys ((primary, current_model m) :: models m))
      with (primary :: PyDict.keys (models m)) in Hnd.
    assert (Hne : k' <> primary).
    { intros ->. destruct Hwf as (_ & Hp & _). apply Hp.
      unfold PyDict.keys. apply list_elem_of_fmap. now exists (primary, mdl'). }
    rewrite Hkeys in Hnd. apply NoDup_app in Hnd as (Hndf & Hdisj & _).
    assert (Hin' : (k', mdl') ∈ failed ++ [(k, mdl)]).
    { rewrite <- Hl. apply elem_of_cons. now right. }
    rewrite on_failure_health. simpl.
    apply elem_of_app in Hin' as [Hin'|Hin'].
    + assert (Hkk : k' <> k).
      { intros ->. apply (Hdisj k); [|apply elem_of_cons; now left].
        unfold PyDict.keys. apply list_elem_of_fmap. now exists (k, mdl'). }
      case_decide.
      * now apply (Hf1 Hndf k' mdl' e').
      * rewrite lookup_insert_ne by congruence. now apply (Hf1 Hndf k' mdl' e').
    + apply list_elem_of_singleton in Hin'. injection Hin' as -> ->.
      rewrite decide_False by assumption.
      rewrite lookup_insert_eq. congruence.
Qed.

(** C1.  When the primary and the fallbacks before some fallback
    raise and that fallback returns, [get_response] returns its
    normalized response paired with its key; the candidates invoked
    are the primary, the failed fallbacks in configured order and
    the succeeding one, each once and none after it; every failed
    fallback is recorded unhealthy with the text of its exception,
    and the succeeding fallback is recorded healthy. *)
Theorem C1_failover_order (prompt context : pystr) (m : t)
    (failed : list (pystr * Model)) (key : pystr) (model : Model)
    (later : list (pystr * Model)) (e0 : PyExc) (result : PyVal) :
  wf m ->
  models m = failed ++ (key, model) :: later ->
  current_model m (sent_context m context) prompt = Raise e0 ->
  Forall (raises (sent_context m context) prompt) failed ->
  model (sent_context m context) prompt = Return result ->
  exists m',
    get_response prompt context m = (Return (normalize result, key), m') /\
    invocations m' =
      invocations m ++
      (invocation_of (sent_context m context) prompt
         <$> (primary :: PyDict.keys failed ++ [key])) /\
    NoDup (primary :: PyDict.keys failed ++ [key]) /\
    (forall k mdl e,
       (k, mdl) ∈ failed ->
       mdl (sent_context m context) prompt = Raise e ->
       model_health m' !! k =
         Some {| healthy := false; last_error := Some (str_exc e) |}) /\
    (exists h, model_health m' !! key = Some h /\ healthy h = true).
Proof.
  intros Hwf Hl He0 Hf Hr.
  assert (Hl' : (primary, current_model m) :: models m
                = ((primary, current_model m) :: failed) ++ (key, model) :: later).
  { now rewrite Hl. }
  assert (Hf' : Forall (raises (sent_context m context) prompt)
                  ((primary, current_model m) :: failed)).
  { constructor; [now exists e0 | assumption]. }
  destruct (get_response_first_success prompt context m _ key model later result
              Hwf Hl' Hf' Hr)
    as (m' & Hg & _ & _ & _ & Hi & _ & _ & Hfail & Hkey).
  pose proof (wf_candidates m Hwf) as Hnd.
  assert (Hkp : forall k mdl, (k, mdl) ∈ models m -> k <> primary).
  { intros k mdl Hin ->. destruct Hwf as (_ & Hp & _). apply Hp.
    unfold PyDict.keys. apply list_elem_of_fmap. now exists (primary, mdl). }
  exists m'. repeat split.
  - exact Hg.
  - exact Hi.
  - rewrite Hl' in Hnd. rewrite keys_app in Hnd.
    apply NoDup_app in Hnd as (Hn1 & Hn2 & Hn3).
    change (primary :: PyDict.keys failed ++ [key])
      with (PyDict.keys ((primary, current_model m) :: failed) ++ [key]).
    apply NoDup_app. repeat split; [assumption| |apply NoDup_singleton].
    intros x Hx Hx'. apply list_elem_of_singleton in Hx'. subst x.
    apply (Hn2 key Hx). unfold PyDict.keys. simpl. apply elem_of_cons. now left.
  - intros k mdl e Hin He. apply (Hfail k mdl e).
    + apply elem_of_cons. now right.
    + apply (Hkp k mdl). rewrite Hl. apply elem_of_app. now left.
    + exact He.
  - destruct Hkey as (h & _ & Hh).
    + apply (Hkp key model). rewrite Hl. apply elem_of_app. right.
      apply elem_of_cons. now left.
    + eexists. split; [exact Hh | reflexivity].
Qed.

(** C2.  When the primary and every fallback raise, whatever the
    number of fallbacks, [get_response] returns the fixed message
    paired with ["error"]; and for every input it returns a pair, so
    no exception leaves it. *)
Theorem C2_exhaustion (prompt context : pystr) (m : t) :
  Forall (raises (sent_context m context) prompt)
    ((primary, current_model m) :: models m) ->
  fst (get_response prompt context m) =
    Return (Py.lit "I'm experiencing technical difficulties. Please try again in a moment.",
            Py.lit "error") /\
  (forall prompt' context' m',
     exists r, fst (get_response prompt' context' m') = Return r).
Proof.
  intros Hall. split.
  - destruct (get_response_exhausted prompt context m Hall) as (m' & -> & _).
    reflexivity.
  - intros. apply get_response_returns.
Qed.

Lemma normalize_payload_text result text :
  payload_text result = Some text -> normalize result = Py.strip text.
Proof.
  destruct result as [s|[s| | | |]|items|[|[s| | | |] items]|]; simpl;
    try discriminate; try (intros [= ->]; reflexivity).
  destruct (PyDict.lookup _ items) as [[s| | | |]|]; try discriminate.
  now intros [= ->].
Qed.

(** C9.  Whichever candidate is the first to return, if its raw
    result is a plain string, an object with a text field or a list
    of alternatives, [get_response] returns the payload's text with
    the whitespace at its two ends removed and nothing else
    changed. *)
Theorem C9_response_normalization (prompt context : pystr) (m : t)
    (failed : list (pystr * Model)) (key : pystr) (model : Model)
    (later : list (pystr * Model)) (result : PyVal) (text : pystr) :
  wf m ->
  (primary, current_model m) :: models m = failed ++ (key, model) :: later ->
  Forall (raises (sent_context m context) prompt) failed ->
  model (sent_context m context) prompt = Return result ->
  payload_text result = Some text ->
  exists response,
    fst (get_response prompt context m) = Return (response, key) /\
    response = Py.strip text /\
    Py.trimmed response /\
    (exists pre post,
       text = pre ++ response ++ post /\
       Forall (fun c => Py.is_space c = true) pre /\
       Forall (fun c => Py.is_space c = true) post).
Proof.
  intros Hwf Hl Hf Hr Ht.
  destruct (get_response_first_success prompt context m failed key model later
              result Hwf Hl Hf Hr) as (m' & -> & _).
  exists (Py.strip text). simpl.
  rewrite (normalize_payload_text result text Ht).
  repeat split.
  - apply PyFacts.strip_trimmed.
  - apply PyFacts.strip_trimmed.
  - apply PyFacts.strip_decompose.
Qed.
End WithHost.

Section WithHost.
Context `{PyHost}.

Lemma model_key_not_primary provider name : model_key_of provider name <> primary.
Proof.
  destruct provider. unfold model_key_of, primary. intros Heq.
  vm_compute in Heq. discriminate.
Qed.

Lemma init_fallbacks_spec fbs :
  forall m,
    wf m ->
    wf (init_fallbacks fbs m) /\
    config (init_fallbacks fbs m) = config m /\
    current_model (init_fallbacks fbs m) = current_model m /\
    invocations (init_fallbacks fbs m) = invocations m /\
    (forall k,
       k ∈ PyDict.keys (models (init_fallbacks fbs m)) <->
       k ∈ PyDict.keys (models m) \/
       exists provider name model,
         (provider, name) ∈ fbs /\
         _create_model (config m) provider name = Return model /\
         k = model_key_of provider name).
Proof.
  induction fbs as [|[provider name] fbs IH]; intros m Hwf.
  - simpl. refine (conj Hwf (conj eq_refl (conj eq_refl (conj eq_refl _)))).
    intros k. split; [now left|].
    intros [?|(? & ? & ? & Hin & _)]; [assumption|].
    now apply elem_of_nil in Hin.
  - cbn [init_fallbacks].
    destruct (_create_model (config m) provider name) as [model|e] eqn:Ec.
    + set (key := model_key_of provider name).
      set (m2 := with_model_health _ _).
      assert (Hwf2 : wf m2).
      { destruct Hwf as (Hnd & Hp & Hd). repeat split; simpl.
        - now apply PyDictFacts.wf_store.
        - intros Hin. apply PyDictFacts.elem_of_keys_store in Hin as [Heq|Hin].
          + symmetry in Heq. now apply model_key_not_primary in Heq.
          + contradiction.
        - rewrite dom_insert_L, elem_of_union, elem_of_singleton.
          rewrite PyDictFacts.elem_of_keys_store, Hd. tauto.
        - rewrite dom_insert_L, elem_of_union, elem_of_singleton.
          rewrite PyDictFacts.elem_of_keys_store, Hd. tauto. }
      destruct (IH m2 Hwf2) as (Hw & Hc & Hcm & Hi & Hk).
      refine (conj Hw (conj Hc (conj Hcm (conj Hi _)))).
      intros k. split.
      * intros Hin. apply Hk in Hin as [Hin|(p & n & mdl & Hin & Hcr & ->)].
        -- simpl in Hin. apply PyDictFacts.elem_of_keys_store in Hin as [->|Hin].
           ++ right. exists provider, name, model. repeat split; try assumption.
              apply elem_of_cons. now left.
           ++ now left.
        -- right. exists p, n, mdl. repeat split; try assumption.
           apply elem_of_cons. now right.
      * intros [Hin|(p & n & mdl & Hin & Hcr & ->)]; apply Hk.
        -- left. simpl. apply PyDictFacts.elem_of_keys_store. now right.
        -- apply elem_of_cons in Hin as [[= -> ->]|Hin].
           ++ left. simpl. apply PyDictFacts.elem_of_keys_store. now left.
           ++ right. exists p, n, mdl. repeat split; assumption.
    + set (m2 := log _ _ _ m).
      assert (Hwf2 : wf m2) by exact Hwf.
      destruct (IH m2 Hwf2) as (Hw & Hc & Hcm & Hi & Hk).
      refine (conj Hw (conj Hc (conj Hcm (conj Hi _)))).
      intros k. split.
      * intros Hin. apply Hk in Hin as [Hin|(p & n & mdl & Hin & Hcr & ->)].
        -- now left.
        -- right. exists p, n, mdl. repeat split; try assumption.
           apply elem_of_cons. now right.
      * intros [Hin|(p & n & mdl & Hin & Hcr & ->)]; apply Hk.
        -- now left.
        -- apply elem_of_cons in Hin as [[= -> ->]|Hin].
           ++ simpl in Hcr. congruence.
           ++ right. exists p, n, mdl. repeat split; assumption.
Qed.

(** What [__init__] leaves: a well-formed manager whose fallbacks
    are the configured ones that could be constructed. *)
Lemma init_spec cfg lg m0 :
  fst (init cfg lg) = Return m0 ->
  wf m0 /\ config m0 = cfg /\ invocations m0 = [] /\
  (forall k,
     k ∈ PyDict.keys (models m0) <->
     exists provider name model,
       (provider, name) ∈ fallback_models cfg /\
       _create_model cfg provider name = Return model /\
       k = model_key_of provider name).
Proof.
  unfold init.
  destruct (_create_model cfg _ _) as [model|e]; [|discriminate].
  set (m := {| config := cfg; logger := lg; models := [];
               current_model := model; model_health := ∅;
               invocations := [] |}).
  cbn [fst]. intros [= <-].
  assert (Hwf : wf m).
  { repeat split; simpl.
    - constructor.
    - apply not_elem_of_nil.
    - rewrite dom_empty_L. intros Hk. now apply not_elem_of_empty in Hk.
    - intros Hk. now apply elem_of_nil in Hk. }
  destruct (init_fallbacks_spec (fallback_models cfg) m Hwf)
    as (Hw & Hc & Hcm & Hi & Hk).
  refine (conj Hw (conj Hc (conj Hi _))).
  intros k. split.
  - intros Hin. apply Hk in Hin as [Hin|Hin]; [|exact Hin].
    now apply elem_of_nil in Hin.
  - intros Hex. apply Hk. now right.
Qed.

(** One call of [get_response] on a well-formed manager: which
    records of the health tracker it writes, and how. *)
Lemma get_response_spec prompt context m :
  wf m ->
  let m' := snd (get_response prompt context m) in
  let sent := sent_context m context in
  config m' = config m /\ models m' = models m /\
  current_model m' = current_model m /\
  exists attempted,
    invocations m' = invocations m ++ (invocation_of sent prompt <$> attempted) /\
    (forall k, k ∈ attempted -> k = primary \/ k ∈ PyDict.keys (models m)) /\
    (forall k, k ∉ attempted -> model_health m' !! k = model_health m !! k) /\
    model_health m' !! primary = model_health m !! primary /\
    (forall k mdl,
       (k, mdl) ∈ models m -> k ∈ attempted ->
       match mdl sent prompt with
       | Raise e =>
           model_health m' !! k =
             Some {| healthy := false; last_error := Some (str_exc e) |}
       | Return _ =>
           exists h, model_health m !! k = Some h /\
                     model_health m' !! k =
                       Some {| healthy := true; last_error := last_error h |}
       end).
Proof.
  intros Hwf m' sent. subst m'.
  pose proof (wf_candidates m Hwf) as Hnd.
  assert (Hkp : forall k mdl, (k, mdl) ∈ models m -> k <> primary).
  { intros k mdl Hin ->. destruct Hwf as (_ & Hp & _). apply Hp.
    now apply (PyDictFacts.elem_of_keys primary mdl). }
  destruct (first_success_or_all_fail sent prompt
              ((primary, current_model m) :: models m))
    as [Hall|(failed & key & model & later & result & Hl & Hf & Hr)].
  - destruct (get_response_exhausted prompt context m Hall)
      as (m' & -> & Hc & Hm & Hcm & Hi & Hh & Hrec).
    cbn [snd]. refine (conj Hc (conj Hm (conj Hcm _))).
    exists (primary :: PyDict.keys (models m)).
    split; [exact Hi|]. split; [|split; [|split]].
    + intros k Hk. apply elem_of_cons in Hk. exact Hk.
    + intros k Hk. apply not_elem_of_cons in Hk as [_ Hk]. now apply Hh.
    + apply Hh. now destruct Hwf as (_ & Hp & _).
    + intros k mdl Hin _.
      apply Forall_cons in Hall as [_ Hall].
      rewrite Forall_forall in Hall. destruct (Hall _ Hin) as [e He].
      simpl in He. fold sent in He. rewrite He. now apply (Hrec Hwf k mdl e).
  - destruct (get_response_first_success prompt context m failed key model
                later result Hwf Hl Hf Hr)
      as (m' & -> & Hc & Hm & Hcm & Hi & Hh & Hp & Hfail & Hkey).
    cbn [snd]. refine (conj Hc (conj Hm (conj Hcm _))).
    exists (PyDict.keys failed ++ [key]).
    split; [exact Hi|]. split; [|split; [|split]].
    + intros k Hk.
      assert (Hin : k ∈ PyDict.keys ((primary, current_model m) :: models m)).
      { rewrite Hl, keys_app. apply elem_of_app in Hk as [Hk|Hk].
        - apply elem_of_app. now left.
        - apply list_elem_of_singleton in Hk. subst k.
          apply elem_of_app. right. apply elem_of_cons. now left. }
      unfold PyDict.keys in Hin. cbn [fmap list_fmap fst] in Hin.
      apply elem_of_cons in Hin. exact Hin.
    + intros k Hk. apply not_elem_of_app in Hk as [Hk1 Hk2].
      apply Hh; [assumption|]. intros ->. apply Hk2, elem_of_cons. now left.
    + exact Hp.
    + intros k mdl Hin Hk.
      assert (Hin' : (k, mdl) ∈ (failed ++ [(key, model)]) ++ later).
      { rewrite <- app_assoc. simpl. rewrite <- Hl. apply elem_of_cons. now right. }
      assert (Hnd' : NoDup (PyDict.keys ((failed ++ [(key, model)]) ++ later))).
      { rewrite <- app_assoc. simpl. now rewrite <- Hl. }
      assert (Hk' : k ∈ PyDict.keys (failed ++ [(key, model)])).
      { now rewrite keys_app. }
      pose proof (PyDictFacts.elem_of_app_keys k mdl _ _ Hnd' Hin' Hk') as Hin2.
      apply elem_of_app in Hin2 as [Hin2|Hin2].
      * rewrite Forall_forall in Hf. destruct (Hf _ Hin2) as [e He].
        simpl in He. fold sent in He. rewrite He.
        now apply (Hfail k mdl e Hin2 (Hkp k mdl Hin)).
      * apply list_elem_of_singleton in Hin2. injection Hin2 as -> ->.
        fold sent in Hr. rewrite Hr. apply Hkey. now apply (Hkp key model).
Qed.

(** [get_response] keeps the manager well-formed and the key set of
    the health tracker unchanged. *)
Lemma get_response_dom prompt context m :
  wf m ->
  dom (model_health (snd (get_response prompt context m))) = dom (model_health m) /\
  wf (snd (get_response prompt context m)).
Proof.
  intros Hwf.
  destruct (get_response_spec prompt context m Hwf)
    as (Hc & Hm & Hcm & attempted & Hi & Hsub & Hun & Hp & Hrec).
  assert (Hdom : dom (model_health (snd (get_response prompt context m)))
                 = dom (model_health m)).
  { apply set_eq. intros k. rewrite !elem_of_dom.
    destruct (decide (k ∈ attempted)) as [Hk|Hk]; [|now rewrite Hun].
    destruct (Hsub k Hk) as [->|Hkm]; [now rewrite Hp|].
    assert (Hd : is_Some (model_health m !! k)).
    { apply elem_of_dom. now apply Hwf. }
    apply list_elem_of_fmap in Hkm as ([k' mdl] & -> & Hin).
    specialize (Hrec k' mdl Hin Hk). simpl.
    destruct (mdl _ prompt).
    - destruct Hrec as (h & _ & ->). split; eauto.
    - rewrite Hrec. split; eauto. }
  split; [exact Hdom|].
  destruct Hwf as (Hnd & Hpn & Hd).
  unfold wf. rewrite Hm, Hdom. auto.
Qed.

Lemma run_calls_dom calls :
  forall m,
    wf m ->
    wf (run_calls calls m) /\
    dom (model_health (run_calls calls m)) = dom (model_health m) /\
    models (run_calls calls m) = models m.
Proof.
  induction calls as [|[prompt context] calls IH]; intros m Hwf;
    [exact (conj Hwf (conj eq_refl eq_refl))|].
  destruct (get_response_dom prompt context m Hwf) as [Hd Hw].
  destruct (get_response_spec prompt context m Hwf) as (_ & Hm & _).
  destruct (IH _ Hw) as (Hw' & Hd' & Hm').
  simpl. refine (conj Hw' (conj _ _)).
  - now rewrite Hd', Hd.
  - now rewrite Hm', Hm.
Qed.

(** C10.  After [__init__] the health tracker has a record for
    exactly the keys of the configured fallbacks that could be
    constructed, and none for the primary.  Through any sequence of
    [get_response] calls its key set stays what it was; a call
    leaves the record of every fallback it did not invoke as it
    was, and writes the record of every fallback it invoked:
    unhealthy with the exception's text if the invocation raised,
    healthy otherwise. *)
Theorem C10_health_keys (cfg : KioskConfig) (lg : AdvancedLogger.t) (m0 : t)
    (calls : list (pystr * pystr)) (prompt context : pystr) :
  fst (init cfg lg) = Return m0 ->
  let m := run_calls calls m0 in
  let m' := snd (get_response prompt context m) in
  (forall k,
     k ∈ dom (model_health m0) <->
     exists provider name model,
       (provider, name) ∈ fallback_models cfg /\
       _create_model cfg provider name = Return model /\
       k = model_key_of provider name) /\
  (primary ∉ dom (model_health m0)) /\
  dom (model_health m) = dom (model_health m0) /\
  dom (model_health m') = dom (model_health m0) /\
  exists attempted,
    invocations m' =
      invocations m ++
      (invocation_of (sent_context m context) prompt <$> attempted) /\
    (forall k, k ∉ attempted -> model_health m' !! k = model_health m !! k) /\
    model_health m' !! primary = None /\
    (forall k mdl,
       (k, mdl) ∈ models m -> k ∈ attempted ->
       match mdl (sent_context m context) prompt with
       | Raise e =>
           model_health m' !! k =
             Some {| healthy := false; last_error := Some (str_exc e) |}
       | Return _ =>
           exists h, model_health m !! k = Some h /\
                     model_health m' !! k =
                       Some {| healthy := true; last_error := last_error h |}
       end).
Proof.
  intros Hinit m m'.
  destruct (init_spec cfg lg m0 Hinit) as (Hwf0 & _ & _ & Hkeys).
  destruct (run_calls_dom calls m0 Hwf0) as (Hwf & Hd & Hm). fold m in Hwf, Hd, Hm.
  destruct (get_response_dom prompt context m Hwf) as [Hd' _]. fold m' in Hd'.
  destruct (get_response_spec prompt context m Hwf)
    as (_ & _ & _ & attempted & Hi & _ & Hun & Hp & Hrec).
  fold m' in Hi, Hun, Hp, Hrec.
  assert (Hp0 : primary ∉ dom (model_health m0)).
  { destruct Hwf0 as (_ & Hpn & Hdk). intros Hin. now apply Hpn, Hdk. }
  split; [|split; [exact Hp0|split; [exact Hd|split; [now rewrite Hd', Hd|]]]].
  - intros k. destruct Hwf0 as (_ & _ & Hdk). rewrite Hdk. apply Hkeys.
  - exists attempted. refine (conj Hi (conj Hun (conj _ Hrec))).
    rewrite Hp. apply not_elem_of_dom. now rewrite Hd.
Qed.
End WithHost.

Lemma sample_manager_wf p fallbacks :
  NoDup (PyDict.keys fallbacks) ->
  primary ∉ PyDict.keys fallbacks ->
  wf (Sample.manager p fallbacks).
Proof.
  intros Hnd Hp. repeat split; try assumption; simpl.
  - rewrite dom_list_to_map_L, elem_of_list_to_set, <- list_fmap_compose.
    intros Hk. apply list_elem_of_fmap in Hk as (k' & -> & Hk). exact Hk.
  - intros Hk. rewrite dom_list_to_map_L, elem_of_list_to_set, <- list_fmap_compose.
    apply list_elem_of_fmap. now exists k.
Qed.

Lemma sample_P_F1_F2_wf p f1 f2 : wf (Sample.P_F1_F2 p f1 f2).
Proof.
  apply sample_manager_wf.
  - apply (bool_decide_unpack _). vm_compute. exact I.
  - apply (bool_decide_unpack _). vm_compute. exact I.
Qed.

(** Primary and F1 raise, F2 answers. *)
Lemma C1_failover_order_witness :
  let m := Sample.P_F1_F2 (Sample.fails (Py.lit "P down"))
             (Sample.fails (Py.lit "F1 down"))
             (Sample.answers (PStr (Py.lit " from F2 "))) in
  exists m',
    @get_response Sample.host (Py.lit "hello") [] m =
      (Return (Py.lit "from F2", Py.lit "ollama_f2"), m') /\
    invocations m' =
      invocation_of [] (Py.lit "hello")
        <$> [primary; Py.lit "ollama_f1"; Py.lit "ollama_f2"] /\
    model_health m' !! Py.lit "ollama_f1" =
      Some {| healthy := false; last_error := Some (Py.lit "F1 down") |} /\
    (exists h, model_health m' !! Py.lit "ollama_f2" = Some h /\ healthy h = true).
Proof.
  intros m.
  destruct (@C1_failover_order Sample.host (Py.lit "hello") [] m
              [(Py.lit "ollama_f1", Sample.fails (Py.lit "F1 down"))]
              (Py.lit "ollama_f2") (Sample.answers (PStr (Py.lit " from F2 ")))
              [] (Exception_ (Py.lit "P down")) (PStr (Py.lit " from F2 ")))
    as (m' & Hg & Hi & _ & Hf & Hh).
  - apply sample_P_F1_F2_wf.
  - reflexivity.
  - reflexivity.
  - repeat constructor. eexists. reflexivity.
  - reflexivity.
  - exists m'. repeat split.
    + exact Hg.
    + exact Hi.
    + apply (Hf (Py.lit "ollama_f1") (Sample.fails (Py.lit "F1 down"))
                (Exception_ (Py.lit "F1 down"))).
      * apply elem_of_cons. now left.
      * reflexivity.
    + exact Hh.
Defined.

(** Exhaustion with no fallback at all. *)
Lemma C2_exhaustion_witness :
  fst (@get_response Sample.host (Py.lit "hello") []
         (Sample.manager (Sample.fails (Py.lit "P down")) [])) =
    Return (exhausted_message, Py.lit "error").
Proof.
  apply (@C2_exhaustion Sample.host (Py.lit "hello") []
           (Sample.manager (Sample.fails (Py.lit "P down")) [])).
  repeat constructor. eexists. reflexivity.
Defined.

(** The primary answers with a list of alternatives. *)
Lemma C9_response_normalization_witness :
  exists response,
    fst (@get_response Sample.host (Py.lit "hello") []
           (Sample.manager
              (Sample.answers (PList [PStr (Py.lit "  first  "); PStr (Py.lit "second")]))
              [])) = Return (response, primary) /\
    response = Py.lit "first".
Proof.
  destruct (@C9_response_normalization Sample.host (Py.lit "hello") []
              (Sample.manager
                 (Sample.answers (PList [PStr (Py.lit "  first  "); PStr (Py.lit "second")]))
                 [])
              [] primary
              (Sample.answers (PList [PStr (Py.lit "  first  "); PStr (Py.lit "second")]))
              [] (PList [PStr (Py.lit "  first  "); PStr (Py.lit "second")])
              (Py.lit "  first  "))
    as (response & Hg & Hr & _).
  - apply sample_manager_wf; [constructor | apply not_elem_of_nil].
  - reflexivity.
  - constructor.
  - reflexivity.
  - reflexivity.
  - exists response. split; [exact Hg|]. rewrite Hr. reflexivity.
Defined.

(** Two configured fallbacks; the first one raises on every call. *)
Lemma C10_health_keys_witness :
  exists m0,
    fst (@init Sample.host
           (Sample.config [(OLLAMA, Py.lit "down"); (OLLAMA, Py.lit "mistral")]) [])
      = Return m0 /\
    let m := @run_calls Sample.host [(Py.lit "one", []); (Py.lit "two", [])] m0 in
    dom (model_health (snd (@get_response Sample.host (Py.lit "three") [] m)))
      = dom (model_health m0).
Proof.
  eexists. split; [reflexivity|]. intros m.
  apply (@C10_health_keys Sample.host
           (Sample.config [(OLLAMA, Py.lit "down"); (OLLAMA, Py.lit "mistral")])
           [] _ [(Py.lit "one", []); (Py.lit "two", [])] (Py.lit "three") []
           eq_refl).
Defined.
End DispatcherFacts.

(** ** The per-turn orchestrator *)
Module OrchestratorFacts.
Import UltraAdvancedKioskChatbot.

Section WithHost.
Context `{PyHost}.

(** Before its [try], [process_query] makes sure there is a session and
    allocates the metadata dict; it touches neither the cache nor the
    models. *)
Lemma enter_spec env k :
  exists session metadata k0,
    process_query_enter env k = (Return (session, metadata), k0) /\
    current_session k0 = Some session /\
    (forall s, current_session k = Some s -> session = s) /\
    metadata = length (metadatas k) /\
    metadatas k0 = metadatas k ++ [fresh_metadata session] /\
    config k0 = config k /\ cache k0 = cache k /\
    cache_ops k0 = cache_ops k /\ analytics k0 = analytics k /\
    translator k0 = translator k /\
    performance_metrics k0 = performance_metrics k /\
    same_manager (ai_manager k) (ai_manager k0).
Proof.
  unfold process_query_enter, Eff.bind, Eff.gets, Eff.ret, new_metadata.
  destruct (current_session k) as [s|] eqn:Es.
  - exists s, (length (metadatas k)), (with_metadatas k (metadatas k ++ [fresh_metadata s])).
    simpl. rewrite Es. repeat split; congruence.
  - unfold create_session, log, Eff.modify. simpl.
    eexists _, _, _. split; [reflexivity|]. simpl.
    repeat split; try reflexivity. intros s. discriminate.
Qed.

(** [process_query], once the session and the metadata dict are there:
    the [try] with its [except] clause, then the [finally] clause. *)
Lemma process_query_unfold env user_input k session metadata k0 :
  process_query_enter env k = (Return (session, metadata), k0) ->
  process_query env user_input k =
    Eff.try_finally
      (Eff.try_except
         (let* response := process_query_try env user_input session metadata in
          Eff.ret (response, metadata))
         (process_query_except session metadata))
      bump_total_requests k0.
Proof. intros He. unfold process_query, Eff.bind at 1. now rewrite He. Qed.

(** A [try] body that returns: its response is the result. *)
Lemma process_query_returns env user_input k session metadata k0 response k1 :
  process_query_enter env k = (Return (session, metadata), k0) ->
  process_query_try env user_input session metadata k0 = (Return response, k1) ->
  process_query env user_input k =
    (Return (response, metadata), bump_total_requests k1).
Proof.
  intros He Hb. rewrite (process_query_unfold _ _ _ _ _ _ He).
  unfold Eff.try_finally, Eff.try_except, Eff.bind. now rewrite Hb.
Qed.

(** A [try] body that raises: the [except] clause takes over. *)
Lemma process_query_raises env user_input k session metadata k0 e k1 :
  process_query_enter env k = (Return (session, metadata), k0) ->
  process_query_try env user_input session metadata k0 = (Raise e, k1) ->
  process_query env user_input k =
    (Return (processing_error_message, metadata),
     bump_total_requests (snd (process_query_except session metadata e k1))).
Proof.
  intros He Hb. rewrite (process_query_unfold _ _ _ _ _ _ He).
  unfold Eff.try_finally, Eff.try_except, Eff.bind. now rewrite Hb.
Qed.

Lemma hit_path env user_input session metadata k0 c text c1 :
  (max_input_length (config k0) <? Z.of_nat (length user_input)) = false ->
  _is_inappropriate_content k0 user_input = false ->
  current_session k0 = Some session ->
  IntelligentCache.get (now_get env) user_input
    (_format_conversation_context session) (cache k0)
    = (Return (Some (c :: text)), c1) ->
  exists k1,
    process_query_try env user_input session metadata k0 = (Return (c :: text), k1) /\
    current_session k1 = Some session /\
    analytics k1 = analytics k0 /\
    metadatas k1 =
      alter (set_response_time (PFloat (time_hit env - time_start env)%float)) metadata
        (alter (set_cached true) metadata (metadatas k0)) /\
    cache k1 = c1 /\
    ai_manager k1 = ai_manager k0 /\
    cache_ops k1 =
      cache_ops k0 ++
      [IntelligentCache.Get (now_get env) user_input (_format_conversation_context session)].
Proof.
  intros Hlen Hfil Hs Hget.
  unfold process_query_try, Eff.bind, Eff.gets. cbn beta iota.
  rewrite Hlen, Hfil. unfold session_of. rewrite Hs. cbn [default from_option Datatypes.id].
  unfold cache_get. rewrite Hget.
  eexists. split; [reflexivity|]. simpl. repeat split; try reflexivity. exact Hs.
Qed.

(** A turn whose cache lookup raises: the exception leaves the [try]
    body at once, with nothing changed but the record of the call. *)
Lemma lookup_raise_path env user_input session metadata k0 e c1 :
  (max_input_length (config k0) <? Z.of_nat (length user_input)) = false ->
  _is_inappropriate_content k0 user_input = false ->
  current_session k0 = Some session ->
  IntelligentCache.get (now_get env) user_input
    (_format_conversation_context session) (cache k0) = (Raise e, c1) ->
  exists k1,
    process_query_try env user_input session metadata k0 = (Raise e, k1) /\
    current_session k1 = Some session /\
    analytics k1 = analytics k0 /\
    metadatas k1 = metadatas k0 /\
    cache k1 = cache k0 /\
    ai_manager k1 = ai_manager k0 /\
    performance_metrics k1 = performance_metrics k0 /\
    cache_ops k1 =
      cache_ops k0 ++
      [IntelligentCache.Get (now_get env) user_input (_format_conversation_context session)].
Proof.
  intros Hlen Hfil Hs Hget.
  assert (Hc1 : c1 = cache k0).
  { unfold IntelligentCache.get in Hget.
    destruct (IntelligentCache._generate_key _ _); [|congruence].
    destruct (PyDict.lookup _ _); [|discriminate].
    destruct (_ - _ <? _); discriminate. }
  unfold process_query_try, Eff.bind, Eff.gets. cbn beta iota.
  rewrite Hlen, Hfil. unfold session_of. rewrite Hs. cbn [default from_option Datatypes.id].
  unfold cache_get. rewrite Hget.
  eexists. split; [reflexivity|]. simpl. subst c1. repeat split; try reflexivity.
  exact Hs.
Qed.

Lemma post_process_translator env k k' session response :
  translator k' = translator k ->
  post_process env k' session response = post_process env k session response.
Proof. intros Ht. unfold post_process, translate_text. now rewrite Ht. Qed.

Lemma miss_path env user_input session metadata k0 found c1 r model_used mgr1 sr c2 :
  (max_input_length (config k0) <? Z.of_nat (length user_input)) = false ->
  _is_inappropriate_content k0 user_input = false ->
  current_session k0 = Some session ->
  let context := _format_conversation_context session in
  IntelligentCache.get (now_get env) user_input context (cache k0)
    = (Return found, c1) ->
  match found with Some (_ :: _) => False | _ => True end ->
  MultiModelAIManager.get_response user_input context (ai_manager k0)
    = (Return (r, model_used), mgr1) ->
  let response := post_process env k0 session r in
  IntelligentCache.set (now_set env) user_input response context c1 = (sr, c2) ->
  let rt := (time_done env - time_start env)%float in
  let exchange := {| ex_timestamp := isoformat (now_append env);
                     ex_question := user_input; ex_response := response;
                     ex_metadata := metadata |} in
  let metadatas1 :=
    alter (set_response_time (PFloat rt)) metadata
      (alter (set_model_used model_used) metadata (metadatas k0)) in
  let md := default (fresh_metadata session) (metadatas1 !! metadata) in
  let row := {| i_session_id := id session; i_timestamp := now_log env;
                i_question := user_input; i_response := response;
                i_response_time := response_time md; i_cached := cached md;
                i_model_used := model_used |} in
  exists k1,
    process_query_try env user_input session metadata k0 =
      (match sr with
       | Raise e => Raise e
       | Return _ =>
           if enable_analytics (config k0) then
             match db_failure env with
             | Some e => Raise e
             | None => Return response
             end
           else Return response
       end, k1) /\
    cache k1 = c2 /\ ai_manager k1 = mgr1 /\
    cache_ops k1 =
      cache_ops k0 ++
      [IntelligentCache.Get (now_get env) user_input context;
       IntelligentCache.Set_ (now_set env) user_input response context] /\
    config k1 = config k0 /\
    performance_metrics k1 = performance_metrics k0 /\
    match sr with
    | Raise _ =>
        current_session k1 = Some session /\
        analytics k1 = analytics k0 /\ metadatas k1 = metadatas k0
    | Return _ =>
        current_session k1 = Some (record_turn rt exchange session) /\
        metadatas k1 = metadatas1 /\
        analytics k1 =
          if enable_analytics (config k0) then
            match db_failure env with
            | Some _ => analytics k0
            | None => analytics k0 ++ [row]
            end
          else analytics k0
    end.
Proof.
  intros Hlen Hfil Hs context Hget Hmiss Hresp response Hset rt exchange metadatas1 md row.
  set (ka := with_cache_ops (with_cache k0 c1)
               (cache_ops k0 ++ [IntelligentCache.Get (now_get env) user_input context])).
  assert (Hbody : process_query_try env user_input session metadata k0 =
                  process_query_miss env user_input context session metadata ka).
  { unfold process_query_try, Eff.bind at 1, Eff.gets at 1. cbn beta iota.
    rewrite Hlen, Hfil. unfold session_of. rewrite Hs.
    cbn [default from_option Datatypes.id]. fold context.
    unfold Eff.bind at 1, cache_get. rewrite Hget. fold ka.
    destruct found as [[|c t]|]; [reflexivity | contradiction | reflexivity]. }
  rewrite Hbody.
  unfold process_query_miss, Eff.bind at 1, ai_get_response.
  change (ai_manager ka) with (ai_manager k0). rewrite Hresp.
  unfold Eff.bind at 1, Eff.gets at 1. cbn beta iota.
  set (kb := with_ai_manager ka mgr1).
  unfold session_of. change (current_session kb) with (current_session k0).
  rewrite Hs. cbn [default from_option Datatypes.id].
  rewrite (post_process_translator env k0 kb session r eq_refl). fold response.
  unfold Eff.bind at 1, cache_set. change (cache kb) with c1. rewrite Hset.
  change (config kb) with (config k0).
  destruct sr as [[]|e].
  - unfold Eff.bind, update_metadata, update_session, Eff.modify, Eff.ret,
      read_metadata, Eff.gets, log_interaction, Eff.raise.
    cbn beta iota.
    destruct (enable_analytics (config k0)); [destruct (db_failure env)|];
      (eexists; split; [reflexivity|]; simpl; rewrite ?Hs;
       repeat split; try reflexivity; now rewrite <- app_assoc).
  - eexists. split; [reflexivity|]. simpl. rewrite ?Hs.
    repeat split; try reflexivity. now rewrite <- app_assoc.
Qed.

(** A capacity of at least one is enough for [set] to return, and the
    entry it stores is then found under the key. *)
Lemma set_returns now query response context c key :
  IntelligentCache._generate_key query context = Return key ->
  1 <= IntelligentCache.max_size c ->
  exists c2,
    IntelligentCache.set now query response context c = (Return tt, c2) /\
    PyDict.lookup key (IntelligentCache.cache c2) =
      Some {| IntelligentCache.response := response;
              IntelligentCache.timestamp := now;
              IntelligentCache.hits := 0 |}.
Proof.
  intros Hk Hmax. unfold IntelligentCache.set. rewrite Hk.
  destruct (_ <=? _) eqn:Ecap.
  - apply Z.leb_le in Ecap.
    destruct (CacheFacts.oldest_exists c Hmax Ecap) as (o & e & -> & _).
    eexists. split; [reflexivity|]. simpl. apply PyDictFacts.lookup_store_eq.
  - eexists. split; [reflexivity|]. simpl. apply PyDictFacts.lookup_store_eq.
Qed.

Lemma get_max_size_eq now query context c found c1 :
  IntelligentCache.get now query context c = (found, c1) ->
  IntelligentCache.max_size c1 = IntelligentCache.max_size c.
Proof.
  intros Hg. pose proof (CacheFacts.get_max_size now query context c) as Hm.
  now rewrite Hg in Hm.
Qed.

(** Whatever the [try] body does, it leaves a session in place with its
    error counter as it was, and the call's metadata dict in the
    store. *)
Lemma try_keeps_session env user_input session metadata k0 out k1 md0 :
  current_session k0 = Some session ->
  metadatas k0 !! metadata = Some md0 ->
  process_query_try env user_input session metadata k0 = (out, k1) ->
  (exists s1, current_session k1 = Some s1 /\
              errors_encountered s1 = errors_encountered session) /\
  (exists md1, metadatas k1 !! metadata = Some md1) /\
  performance_metrics k1 =
    match out with
    | Return _ => performance_metrics k1
    | Raise _ => performance_metrics k0
    end.
Proof.
  intros Hs Hmd.
  destruct (max_input_length (config k0) <? Z.of_nat (length user_input)) eqn:Hlen.
  { unfold process_query_try, Eff.bind, Eff.gets, Eff.ret. cbn beta iota.
    rewrite Hlen. intros [= <- <-].
    split; [exists session; now split|]. split; [eauto | reflexivity]. }
  destruct (_is_inappropriate_content k0 user_input) eqn:Hfil.
  { unfold process_query_try, Eff.bind, Eff.gets, Eff.ret. cbn beta iota.
    rewrite Hlen, Hfil. intros [= <- <-].
    split; [exists session; now split|]. split; [eauto | reflexivity]. }
  destruct (IntelligentCache.get (now_get env) user_input
              (_format_conversation_context session) (cache k0))
    as [[found|e] c1] eqn:Hget.
  2:{ destruct (lookup_raise_path env user_input session metadata k0 e c1
                  Hlen Hfil Hs Hget) as (k & -> & Hs1 & _ & Hm1 & _ & _ & Hpm & _).
      intros [= <- <-]. split; [exists session; now split|].
      split; [rewrite Hm1; eauto | exact Hpm]. }
  assert (Hcase : (exists c text, found = Some (c :: text)) \/
                  match found with Some (_ :: _) => False | _ => True end).
  { destruct found as [[|c text]|]; eauto. }
  destruct Hcase as [(c & text & ->)|Hmiss].
  - destruct (hit_path env user_input session metadata k0 c text c1 Hlen Hfil Hs Hget)
      as (k & -> & Hs1 & _ & Hm1 & _).
    intros [= <- <-]. split; [exists session; now split|]. split; [|reflexivity].
    rewrite Hm1, !list_lookup_alter_eq, Hmd. simpl. eauto.
  - destruct (MultiModelAIManager.get_response user_input
                (_format_conversation_context session) (ai_manager k0))
      as [gr mgr1] eqn:Hresp.
    destruct (DispatcherFacts.get_response_returns user_input
                (_format_conversation_context session) (ai_manager k0))
      as [[r model_used] Hr].
    rewrite Hresp in Hr. simpl in Hr. subst gr.
    destruct (IntelligentCache.set (now_set env) user_input
                (post_process env k0 session r)
                (_format_conversation_context session) c1) as [sr c2] eqn:Hset.
    destruct (miss_path env user_input session metadata k0 found c1 r model_used
                mgr1 sr c2 Hlen Hfil Hs Hget Hmiss Hresp Hset)
      as (k & -> & _ & _ & _ & _ & Hpm & Hrest).
    intros [= <- <-]. destruct sr as [[]|e].
    + destruct Hrest as (Hs1 & Hm1 & _).
      split; [eexists; split; [exact Hs1 | reflexivity]|]. split.
      * rewrite Hm1, !list_lookup_alter_eq, Hmd. simpl. eauto.
      * destruct (enable_analytics (config k0)); [destruct (db_failure env)|];
          congruence.
    + destruct Hrest as (Hs1 & _ & Hm1).
      split; [exists session; now split|]. split; [rewrite Hm1; eauto | exact Hpm].
Qed.

(** C7.  An input longer than [max_input_length] is answered with the
    fixed message; the call makes no [cache.get], no [cache.set] and no
    model invocation, and leaves the cache and the health tracker as
    they were. *)
Theorem C7_input_too_long (env : Env) (user_input : pystr) (k : t) :
  max_input_length (config k) < Z.of_nat (length user_input) ->
  exists metadata k',
    process_query env user_input k =
      (Return (Py.lit "Please keep your question shorter for better assistance.",
               metadata), k') /\
    cache_ops k' = cache_ops k /\
    cache k' = cache k /\
    MultiModelAIManager.invocations (ai_manager k') =
      MultiModelAIManager.invocations (ai_manager k) /\
    MultiModelAIManager.model_health (ai_manager k') =
      MultiModelAIManager.model_health (ai_manager k).
Proof.
  intros Hlen.
  destruct (enter_spec env k)
    as (session & metadata & k0 & He & _ & _ & _ & _ & Hc & Hca & Hco & _ & _ & _ & Hm).
  assert (Hb : process_query_try env user_input session metadata k0 =
               (Return too_long_message, k0)).
  { unfold process_query_try, Eff.bind, Eff.gets, Eff.ret. cbn beta iota.
    rewrite Hc. apply Z.ltb_lt in Hlen. now rewrite Hlen. }
  exists metadata, (bump_total_requests k0). split.
  - apply (process_query_returns _ _ _ _ _ _ _ _ He Hb).
  - destruct Hm as (_ & _ & _ & Hh & Hi). simpl. auto.
Qed.

(** C8.  [process_query] always returns a pair.  When its [try] body
    raises, it returns the fixed message, the session's
    [errors_encountered] is one more than on entry, the call's metadata
    dict carries the text of the exception, and the request is
    counted. *)
Theorem C8_error_boundary (env : Env) (user_input : pystr) (k : t) :
  (exists result, fst (process_query env user_input k) = Return result) /\
  (forall session metadata k0 e k1,
     process_query_enter env k = (Return (session, metadata), k0) ->
     process_query_try env user_input session metadata k0 = (Raise e, k1) ->
     let k' := snd (process_query env user_input k) in
     fst (process_query env user_input k) =
       Return (Py.lit "I encountered an error processing your request. Please try again.",
               metadata) /\
     errors_encountered <$> current_session k' =
       Some (errors_encountered session + 1) /\
     error <$> (metadatas k' !! metadata) = Some (Some (str_exc e)) /\
     total_requests (performance_metrics k') =
       total_requests (performance_metrics k) + 1).
Proof.
  destruct (enter_spec env k)
    as (session & metadata & k0 & He & Hs & _ & Hmd & Hmds & _ & _ & _ & _ & _ & Hpm & _).
  split.
  - destruct (process_query_try env user_input session metadata k0)
      as [[response|e] k1] eqn:Hb.
    + rewrite (process_query_returns _ _ _ _ _ _ _ _ He Hb). eauto.
    + rewrite (process_query_raises _ _ _ _ _ _ _ _ He Hb). eauto.
  - intros session' metadata' k0' e k1 He' Hb k'.
    rewrite He in He'. injection He' as <- <- <-.
    assert (Hmd0 : metadatas k0 !! metadata = Some (fresh_metadata session)).
    { rewrite Hmds, Hmd. apply list_lookup_middle. reflexivity. }
    destruct (try_keeps_session _ _ _ _ _ _ _ _ Hs Hmd0 Hb)
      as ((s1 & Hs1 & Herr) & (md1 & Hmd1) & Hpm1).
    subst k'. rewrite (process_query_raises _ _ _ _ _ _ _ _ He Hb).
    unfold process_query_except, update_session, update_metadata, log,
      Eff.bind, Eff.modify, Eff.gets, Eff.ret.
    simpl. rewrite Hs1. simpl. rewrite list_lookup_alter_eq, Hmd1. simpl.
    rewrite Herr, Hpm1, Hpm. repeat split.
Qed.

(** C5 (amended).  On a cache miss (the lookup returns, with nothing
    or with an empty text) in a session whose language is not ["en"],
    on a cache of capacity at least one,
    when the translation returns a non-empty text, the response stored
    in the cache under the original key is that translated text, not
    the dispatcher's response.  The turn returns the same translated
    text, except when analytics is enabled and the insert of the
    interaction fails: then the turn returns the fixed error message,
    while the cache still holds the translated text. *)
Theorem C5_cached_response (env : Env) (user_input : pystr) (k : t)
    (session : UserSession) (metadata : nat) (k0 : t) (found : option pystr)
    (c1 : IntelligentCache.t) (r model_used : pystr)
    (mgr1 : MultiModelAIManager.t) (c : N) (translated : pystr) :
  process_query_enter env k = (Return (session, metadata), k0) ->
  (max_input_length (config k) <? Z.of_nat (length user_input)) = false ->
  _is_inappropriate_content k user_input = false ->
  let context := _format_conversation_context session in
  IntelligentCache.get (now_get env) user_input context (cache k)
    = (Return found, c1) ->
  match found with Some (_ :: _) => False | _ => True end ->
  MultiModelAIManager.get_response user_input context (ai_manager k0)
    = (Return (r, model_used), mgr1) ->
  preferred_language session <> Py.lit "en" ->
  translate_text env k r (preferred_language session) (Py.lit "en")
    = Some (c :: translated) ->
  1 <= IntelligentCache.max_size (cache k) ->
  let k' := snd (process_query env user_input k) in
  (exists key,
     IntelligentCache._generate_key user_input context = Return key /\
     PyDict.lookup key (IntelligentCache.cache (cache k')) =
       Some {| IntelligentCache.response := c :: translated;
               IntelligentCache.timestamp := now_set env;
               IntelligentCache.hits := 0 |}) /\
  fst (process_query env user_input k) =
    (if enable_analytics (config k) then
       match db_failure env with
       | Some _ =>
           Return (Py.lit "I encountered an error processing your request. Please try again.",
                   metadata)
       | None => Return (c :: translated, metadata)
       end
     else Return (c :: translated, metadata)).
Proof.
  intros He Hlen Hfil context Hget Hmiss Hresp Hlang Htr Hmax k'.
  destruct (enter_spec env k)
    as (session' & metadata' & k0' & He' & Hs & _ & _ & _ & Hc & Hca & _ & _ & Ht & _ & _).
  rewrite He in He'. injection He' as <- <- <-.
  assert (Hpp : post_process env k0 session r = c :: translated).
  { rewrite (post_process_translator env k k0 session r Ht).
    unfold post_process. rewrite decide_False by assumption. now rewrite Htr. }
  assert (Hlen0 : (max_input_length (config k0) <? Z.of_nat (length user_input)) = false)
    by now rewrite Hc.
  assert (Hfil0 : _is_inappropriate_content k0 user_input = false).
  { unfold _is_inappropriate_content in *. now rewrite Hc. }
  rewrite <- Hca in Hget, Hmax.
  destruct (CacheFacts.get_returns_key _ _ _ _ _ _ Hget) as [key Hkey].
  destruct (set_returns (now_set env) user_input (c :: translated) context c1 key Hkey)
    as (c2 & Hset & Hlk).
  { now rewrite (get_max_size_eq _ _ _ _ _ _ Hget). }
  rewrite <- Hpp in Hset.
  destruct (miss_path env user_input session metadata k0 found c1 r model_used
              mgr1 (Return tt) c2 Hlen0 Hfil0 Hs Hget Hmiss Hresp Hset)
    as (k1 & Hb & Hc2 & _).
  rewrite Hpp in Hb. rewrite Hc in Hb. subst k'.
  destruct (enable_analytics (config k)); [destruct (db_failure env) as [e|]|].
  - rewrite (process_query_raises _ _ _ _ _ _ _ _ He Hb). simpl.
    rewrite Hc2. split; [eauto | reflexivity].
  - rewrite (process_query_returns _ _ _ _ _ _ _ _ He Hb). simpl.
    rewrite Hc2. split; [eauto | reflexivity].
  - rewrite (process_query_returns _ _ _ _ _ _ _ _ He Hb). simpl.
    rewrite Hc2. split; [eauto | reflexivity].
Qed.

(** C6 (amended).  For a turn that passes the length check and the
    content filter, on a cache of capacity at least one:
    - if the cache answers it, the cached text is returned with
      [cached = True] in the metadata, and the session (history and
      counters) and the analytics are left as they were;
    - if the cache lookup returns nothing, or an empty text, the turn,
      with the post-processed response of the dispatcher, is appended to
      the history, [questions_count] grows by one and
      [total_response_time] by the response time; the interaction is
      logged when analytics is enabled and the insert succeeds, and not
      logged when analytics is disabled;
    - if the cache lookup raises, which it does when the key of the
      question cannot be computed, the turn returns the fixed error
      message: nothing is appended, counted or logged, and only
      [errors_encountered] grows. *)
Theorem C6_turn_bookkeeping (env : Env) (user_input : pystr) (k : t)
    (session : UserSession) (metadata : nat) (k0 : t)
    (found : Outcome (option pystr)) (c1 : IntelligentCache.t) :
  process_query_enter env k = (Return (session, metadata), k0) ->
  (max_input_length (config k) <? Z.of_nat (length user_input)) = false ->
  _is_inappropriate_content k user_input = false ->
  1 <= IntelligentCache.max_size (cache k) ->
  let context := _format_conversation_context session in
  IntelligentCache.get (now_get env) user_input context (cache k) = (found, c1) ->
  let result := fst (process_query env user_input k) in
  let k' := snd (process_query env user_input k) in
  match found with
  | Return (Some (c :: text)) =>
      result = Return (c :: text, metadata) /\
      cached <$> (metadatas k' !! metadata) = Some true /\
      current_session k' = Some session /\
      analytics k' = analytics k
  | Return _ =>
      exists r model_used s',
        fst (MultiModelAIManager.get_response user_input context (ai_manager k0))
          = Return (r, model_used) /\
        let response := post_process env k session r in
        let rt := (time_done env - time_start env)%float in
        current_session k' = Some s' /\
        conversation_history s' =
          conversation_history session ++
          [{| ex_timestamp := isoformat (now_append env);
              ex_question := user_input; ex_response := response;
              ex_metadata := metadata |}] /\
        questions_count s' = questions_count session + 1 /\
        total_response_time s' = (total_response_time session + rt)%float /\
        (enable_analytics (config k) = true -> db_failure env = None ->
         result = Return (response, metadata) /\
         analytics k' =
           analytics k ++
           [{| i_session_id := id session; i_timestamp := now_log env;
               i_question := user_input; i_response := response;
               i_response_time := PFloat rt; i_cached := false;
               i_model_used := model_used |}]) /\
        (enable_analytics (config k) = false ->
         result = Return (response, metadata) /\
         analytics k' = analytics k)
  | Raise e =>
      result =
        Return (Py.lit "I encountered an error processing your request. Please try again.",
                metadata) /\
      current_session k' = Some (record_error session) /\
      analytics k' = analytics k /\
      cache k' = cache k /\
      error <$> (metadatas k' !! metadata) = Some (Some (str_exc e))
  end.
Proof.
  intros He Hlen Hfil Hmax context Hget result k'.
  destruct (enter_spec env k)
    as (session' & metadata' & k0' & He' & Hs & _ & Hmd & Hmds & Hc & Hca & _ & Han & Ht & _ & _).
  rewrite He in He'. injection He' as <- <- <-.
  assert (Hlen0 : (max_input_length (config k0) <? Z.of_nat (length user_input)) = false)
    by now rewrite Hc.
  assert (Hfil0 : _is_inappropriate_content k0 user_input = false).
  { unfold _is_inappropriate_content in *. now rewrite Hc. }
  assert (Hmd0 : metadatas k0 !! metadata = Some (fresh_metadata session)).
  { rewrite Hmds, Hmd. apply list_lookup_middle. reflexivity. }
  rewrite <- Hca in Hget, Hmax.
  destruct found as [found|e].
  2:{ destruct (lookup_raise_path env user_input session metadata k0 e c1
                  Hlen0 Hfil0 Hs Hget)
        as (k1 & Hb & Hs1 & Ha1 & Hm1 & Hc1 & _).
      subst result k'. rewrite (process_query_raises _ _ _ _ _ _ _ _ He Hb).
      unfold process_query_except, update_session, update_metadata, log,
        Eff.bind, Eff.modify, Eff.gets, Eff.ret.
      simpl. rewrite Hs1, Ha1, Hm1, Hc1, Han, Hca, list_lookup_alter_eq, Hmd0.
      repeat split. }
  assert (Hcase : (exists c text, found = Some (c :: text)) \/
                  match found with Some (_ :: _) => False | _ => True end).
  { destruct found as [[|c text]|]; eauto. }
  destruct Hcase as [(c & text & ->)|Hmiss].
  - destruct (hit_path env user_input session metadata k0 c text c1 Hlen0 Hfil0 Hs Hget)
      as (k1 & Hb & Hs1 & Ha1 & Hm1 & _).
    subst result k'. rewrite (process_query_returns _ _ _ _ _ _ _ _ He Hb). simpl.
    rewrite Hm1, !list_lookup_alter_eq, Hmd0, Hs1, Ha1, Han. repeat split.
  - destruct (MultiModelAIManager.get_response user_input context (ai_manager k0))
      as [gr mgr1] eqn:Hresp.
    destruct (DispatcherFacts.get_response_returns user_input context (ai_manager k0))
      as [[r model_used] Hr].
    rewrite Hresp in Hr. simpl in Hr. subst gr.
    destruct (CacheFacts.get_returns_key _ _ _ _ _ _ Hget) as [key Hkey].
    destruct (set_returns (now_set env) user_input (post_process env k0 session r)
                context c1 key Hkey) as (c2 & Hset & _).
    { now rewrite (get_max_size_eq _ _ _ _ _ _ Hget). }
    destruct (miss_path env user_input session metadata k0 found c1 r model_used
                mgr1 (Return tt) c2 Hlen0 Hfil0 Hs Hget Hmiss Hresp Hset)
      as (k1 & Hb & _ & _ & _ & _ & _ & Hs1 & Hm1 & Ha1).
    rewrite (post_process_translator env k k0 session r Ht) in Hb, Hs1, Ha1.
    rewrite Hc in Hb, Ha1. rewrite Han in Ha1.
    rewrite !list_lookup_alter_eq, Hmd0 in Ha1. simpl in Ha1.
    subst result k'.
    destruct found as [[|c text]|]; try contradiction;
      (cbn [fst]; exists r, model_used;
       destruct (enable_analytics (config k)); [destruct (db_failure env) as [e|]|];
       [ rewrite (process_query_raises _ _ _ _ _ _ _ _ He Hb);
         unfold process_query_except, update_session, update_metadata, log,
           Eff.bind, Eff.modify, Eff.gets, Eff.ret;
         simpl; rewrite Hs1; simpl
       | rewrite (process_query_returns _ _ _ _ _ _ _ _ He Hb); simpl;
         rewrite Hs1, Ha1
       | rewrite (process_query_returns _ _ _ _ _ _ _ _ He Hb); simpl;
         rewrite Hs1, Ha1 ];
       (eexists; split; [reflexivity|]; split; [reflexivity|]; simpl;
        repeat split; discriminate)).
Qed.
End WithHost.

(** A question of 501 characters against the default limit of 500. *)
Lemma C7_input_too_long_witness :
  exists metadata k',
    @process_query Sample.host (Sample.env 1700000000 Sample.to_hola None)
      (replicate 501 97%N)
      (Sample.kiosk (Py.lit "en") (Sample.answers (PStr (Py.lit "hello")))) =
      (Return (too_long_message, metadata), k') /\
    cache_ops k' = [] /\
    MultiModelAIManager.invocations (ai_manager k') = [].
Proof.
  destruct (@C7_input_too_long Sample.host
              (Sample.env 1700000000 Sample.to_hola None) (replicate 501 97%N)
              (Sample.kiosk (Py.lit "en") (Sample.answers (PStr (Py.lit "hello")))))
    as (metadata & k' & Hr & Hops & _ & Hinv & _).
  - vm_compute. reflexivity.
  - exists metadata, k'. repeat split; assumption.
Defined.

(** The analytics database refuses the insert. *)
Lemma C8_error_boundary_witness :
  let env := Sample.env 1700000000 Sample.to_hola
               (Some (Exception_ (Py.lit "database is locked"))) in
  let k := Sample.kiosk (Py.lit "en") (Sample.answers (PStr (Py.lit "hello"))) in
  fst (@process_query Sample.host env (Py.lit "hi") k) =
    Return (processing_error_message, 0%nat) /\
  errors_encountered <$> current_session (snd (@process_query Sample.host env (Py.lit "hi") k))
    = Some 1.
Proof.
  intros env k.
  assert (He : process_query_enter env k =
               (Return (Sample.session (Py.lit "en"), 0%nat),
                snd (process_query_enter env k)))
    by (vm_compute; reflexivity).
  destruct (proj2 (@C8_error_boundary Sample.host env (Py.lit "hi") k)
              (Sample.session (Py.lit "en")) 0%nat
              (snd (process_query_enter env k))
              (Exception_ (Py.lit "database is locked"))
              (snd (@process_query_try Sample.host env (Py.lit "hi")
                      (Sample.session (Py.lit "en")) 0%nat
                      (snd (process_query_enter env k))))
              He ltac:(vm_compute; reflexivity))
    as (Hr & Herr & _).
  split; [exact Hr | exact Herr].
Defined.

(** A Spanish session: the dispatcher answers ["hello"], the
    translation service renders it as ["hola"], and it is ["hola"] that
    the cache holds afterwards. *)
Lemma C5_counterexample :
  let env := Sample.env 1700000000 Sample.to_hola None in
  let k := Sample.kiosk (Py.lit "es") (Sample.answers (PStr (Py.lit "hello"))) in
  let k' := snd (@process_query Sample.host env (Py.lit "hi") k) in
  fst (@IntelligentCache.get Sample.host (now_get env) (Py.lit "hi") [] (cache k))
    = Return None /\
  preferred_language <$> current_session k = Some (Py.lit "es") /\
  default_language (config k) = Py.lit "en" /\
  fst (@MultiModelAIManager.get_response Sample.host (Py.lit "hi") [] (ai_manager k))
    = Return (Py.lit "hello", Py.lit "primary") /\
  translate_text env k (Py.lit "hello") (Py.lit "es") (Py.lit "en")
    = Some (Py.lit "hola") /\
  @IntelligentCache._generate_key Sample.host (Py.lit "hi") []
    = Return (Py.lit "hi") /\
  IntelligentCache.response <$>
    PyDict.lookup (Py.lit "hi") (IntelligentCache.cache (cache k'))
    = Some (Py.lit "hola") /\
  IntelligentCache.response <$>
    PyDict.lookup (Py.lit "hi") (IntelligentCache.cache (cache k'))
    <> Some (Py.lit "hello").
Proof.
  vm_compute. repeat split; discriminate.
Qed.

Lemma C5_cached_response_witness :
  let env := Sample.env 1700000000 Sample.to_hola None in
  let k := Sample.kiosk (Py.lit "es") (Sample.answers (PStr (Py.lit "hello"))) in
  (exists key,
     @IntelligentCache._generate_key Sample.host (Py.lit "hi") [] = Return key /\
     PyDict.lookup key
       (IntelligentCache.cache (cache (snd (@process_query Sample.host env (Py.lit "hi") k)))) =
       Some {| IntelligentCache.response := Py.lit "hola";
               IntelligentCache.timestamp := 1700000000000000;
               IntelligentCache.hits := 0 |}) /\
  fst (@process_query Sample.host env (Py.lit "hi") k)
    = Return (Py.lit "hola", 0%nat).
Proof.
  intros env k.
  apply (@C5_cached_response Sample.host env (Py.lit "hi") k
           (Sample.session (Py.lit "es")) 0%nat (snd (process_query_enter env k))
           None (cache k) (Py.lit "hello") (Py.lit "primary")
           (snd (@MultiModelAIManager.get_response Sample.host (Py.lit "hi") []
                   (ai_manager k)))
           104%N (Py.lit "ola")).
  - vm_compute. reflexivity.
  - vm_compute. reflexivity.
  - vm_compute. reflexivity.
  - vm_compute. reflexivity.
  - exact I.
  - vm_compute. reflexivity.
  - vm_compute. discriminate.
  - vm_compute. reflexivity.
  - vm_compute. discriminate.
Defined.

(** The same question asked in two sessions: the second turn is
    answered from the cache, and neither the history, nor the counters,
    nor the analytics record it. *)
Lemma C6_counterexample :
  let model := Sample.answers (PStr (Py.lit "hello")) in
  let k1 := snd (@process_query Sample.host
                   (Sample.env 1700000000 Sample.to_hola None) (Py.lit "hi")
                   (Sample.kiosk (Py.lit "en") model)) in
  let k2 := snd (create_session (Sample.env 1700000100 Sample.to_hola None) k1) in
  let env := Sample.env 1700000200 Sample.to_hola None in
  let turn := @process_query Sample.host env (Py.lit "hi") k2 in
  (max_input_length (config k2) <? Z.of_nat (length (Py.lit "hi"))) = false /\
  @_is_inappropriate_content Sample.host k2 (Py.lit "hi") = false /\
  fst turn = Return (Py.lit "hello", 1%nat) /\
  cached <$> (metadatas (snd turn) !! 1%nat) = Some true /\
  conversation_history <$> current_session (snd turn) = Some [] /\
  questions_count <$> current_session (snd turn) = Some 0 /\
  total_response_time <$> current_session (snd turn) = Some 0%float /\
  enable_analytics (config k2) = true /\
  analytics (snd turn) = analytics k2.
Proof.
  vm_compute. repeat split.
Qed.

Lemma C6_turn_bookkeeping_witness :
  let env := Sample.env 1700000000 Sample.to_hola None in
  let k := Sample.kiosk (Py.lit "en") (Sample.answers (PStr (Py.lit "hello"))) in
  exists s',
    current_session (snd (@process_query Sample.host env (Py.lit "hi") k)) = Some s' /\
    questions_count s' = 1 /\
    length (conversation_history s') = 1%nat.
Proof.
  intros env k.
  destruct (@C6_turn_bookkeeping Sample.host env (Py.lit "hi") k
              (Sample.session (Py.lit "en")) 0%nat (snd (process_query_enter env k))
              (Return None) (cache k)
              ltac:(vm_compute; reflexivity) ltac:(vm_compute; reflexivity)
              ltac:(vm_compute; reflexivity) ltac:(vm_compute; discriminate)
              ltac:(vm_compute; reflexivity))
    as (r & model_used & s' & _ & Hs & Hh & Hq & _).
  exists s'. rewrite Hh, Hq. repeat split. exact Hs.
Defined.

(** A question made of one lone surrogate, as the JSON text of a socket
    message can carry it: the key cannot be computed, so the lookup
    raises; the turn ends in the fixed message with Python's text of
    the exception in its metadata, and nothing is cached or appended. *)
Lemma lone_surrogate_turn :
  let env := Sample.env 1700000000 Sample.to_hola None in
  let k := Sample.kiosk (Py.lit "en") (Sample.answers (PStr (Py.lit "hello"))) in
  let turn := @process_query Sample.host env [55357%N] k in
  fst turn = Return (processing_error_message, 0%nat) /\
  error <$> (metadatas (snd turn) !! 0%nat) =
    Some (Some (Py.lit "'utf-8' codec can't encode character '\ud83d' in position 0: surrogates not allowed")) /\
  cache (snd turn) = cache k /\
  conversation_history <$> current_session (snd turn) = Some [] /\
  errors_encountered <$> current_session (snd turn) = Some 1 /\
  MultiModelAIManager.invocations (ai_manager (snd turn)) = [].
Proof. vm_compute. repeat split. Qed.
End OrchestratorFacts.

(** ** More on the response cache *)
Module CacheExtras.
Import IntelligentCache.

Lemma fold_add_shift (l : list Z) (a : Z) : fold_left Z.add l a = a + py_sum l.
Proof.
  unfold py_sum. revert a. induction l as [|x l IH]; intros a.
  - simpl. lia.
  - cbn [fold_left]. rewrite (IH (a + x)), (IH (0 + x)). lia.
Qed.

Lemma py_sum_cons (x : Z) (l : list Z) : py_sum (x :: l) = x + py_sum l.
Proof. unfold py_sum at 1. simpl. apply fold_add_shift. Qed.

Local Abbreviation hits_of d := (List.map (fun kv => hits (snd kv)) d).

Lemma sum_store_existing k e e' d :
  PyDict.lookup k d = Some e ->
  py_sum (hits_of (PyDict.store k e' d)) = py_sum (hits_of d) - hits e + hits e'.
Proof.
  induction d as [|[k0 e0] d IH]; simpl; [discriminate|].
  destruct (decide (k = k0)) as [->|Hne].
  - intros [= ->]. simpl. rewrite !py_sum_cons. simpl. lia.
  - intros Hl. simpl. rewrite !py_sum_cons, (IH Hl). simpl. lia.
Qed.

Lemma sum_del_existing k e d :
  PyDict.wf d -> PyDict.lookup k d = Some e ->
  py_sum (hits_of (PyDict.del k d)) = py_sum (hits_of d) - hits e.
Proof.
  unfold PyDict.wf, PyDict.keys.
  induction d as [|[k0 e0] d IH]; simpl; [discriminate|].
  rewrite NoDup_cons. intros [Hn Hd].
  destruct (decide (k = k0)) as [->|Hne].
  - intros [= ->]. rewrite (PyDictFacts.del_notin k0 d Hn).
    simpl. rewrite py_sum_cons. simpl. lia.
  - intros Hl. simpl. rewrite !py_sum_cons, (IH Hd Hl). simpl. lia.
Qed.

Lemma keys_del {V} k (d : list (pystr * V)) :
  PyDict.keys (PyDict.del k d) =
    List.filter (fun k' => negb (bool_decide (k = k'))) (PyDict.keys d).
Proof.
  unfold PyDict.keys. induction d as [|[k0 v0] d IH]; [reflexivity|].
  cbn [PyDict.del]. destruct (decide (k = k0)) as [->|Hne];
    cbn [fmap list_fmap fst List.filter] in *.
  - rewrite bool_decide_eq_true_2 by reflexivity. exact IH.
  - rewrite bool_decide_eq_false_2 by assumption. cbn [negb]. now rewrite IH.
Qed.

Lemma keys_store_congr {V} k (v : V) d1 d2 :
  PyDict.keys d1 = PyDict.keys d2 ->
  PyDict.keys (PyDict.store k v d1) = PyDict.keys (PyDict.store k v d2).
Proof. intros Hk. rewrite !PyDictFacts.keys_store. now rewrite Hk. Qed.

Lemma keys_del_congr {V} k (d1 d2 : list (pystr * V)) :
  PyDict.keys d1 = PyDict.keys d2 ->
  PyDict.keys (PyDict.del k d1) = PyDict.keys (PyDict.del k d2).
Proof. intros Hk. rewrite !keys_del. now rewrite Hk. Qed.

Lemma min_from_ext f g best ks :
  (forall k, f k = g k) -> PyDict.min_from f best ks = PyDict.min_from g best ks.
Proof.
  intros Hfg. revert best. induction ks as [|k ks IH]; intros best; simpl; [reflexivity|].
  rewrite !Hfg. destruct (g k <? g best); apply IH.
Qed.

Section WithHost.
Context `{PyHost}.

Lemma set_ttl_hours now q r ctx c :
  ttl_hours (snd (set now q r ctx c)) = ttl_hours c.
Proof.
  unfold set. destruct (_generate_key q ctx); [|reflexivity].
  destruct (_ <=? _); [|reflexivity].
  destruct (PyDict.py_min _ _); reflexivity.
Qed.

(** X1.  Two queries that agree once lowercased and stripped share their
    cache entry: when the key of one can be computed, it is the key of
    the other; what [set] stores for one, [get] returns for the other,
    within the TTL and for a capacity of at least one, and the hit is
    counted. *)
Theorem set_then_get_normalized (c : t) (t0 now : Z) (q1 q2 r ctx key : pystr) :
  Py.strip (str_lower q1) = Py.strip (str_lower q2) ->
  _generate_key q1 ctx = Return key ->
  1 <= max_size c ->
  now - t0 < timedelta_hours (ttl_hours c) ->
  let c1 := snd (set t0 q1 r ctx c) in
  _generate_key q2 ctx = Return key /\
  fst (set t0 q1 r ctx c) = Return tt /\
  fst (get now q2 ctx c1) = Return (Some r) /\
  PyDict.lookup key (cache (snd (get now q2 ctx c1))) =
    Some {| response := r; timestamp := t0; hits := 1 |}.
Proof.
  intros Hq Hkey Hmax Httl c1.
  assert (Hk : _generate_key q2 ctx = Return key).
  { rewrite <- Hkey. unfold _generate_key. now rewrite Hq. }
  split; [exact Hk|].
  pose proof (set_ttl_hours t0 q1 r ctx c) as Hts.
  destruct (OrchestratorFacts.set_returns t0 q1 r ctx c key Hkey Hmax)
    as (c2 & Hset & Hl).
  subst c1. rewrite Hset in Hts |- *. cbn [fst snd] in Hts |- *.
  unfold get. rewrite Hk, Hl. cbn [timestamp response hits]. rewrite Hts.
  apply Z.ltb_lt in Httl. rewrite Httl. cbn [fst snd cache with_cache].
  repeat split. apply PyDictFacts.lookup_store_eq.
Qed.

(** X2.  A hit does not shelter an entry from eviction: the keys that the
    next [set] leaves in the cache are the same whether or not the hit
    took place.  Eviction goes by creation time, not by use. *)
Theorem hit_does_not_protect (c : t) (now : Z) (q ctx : pystr) (r : pystr)
    (t1 : Z) (q' r' ctx' : pystr) :
  fst (get now q ctx c) = Return (Some r) ->
  PyDict.keys (cache (snd (set t1 q' r' ctx' (snd (get now q ctx c))))) =
  PyDict.keys (cache (snd (set t1 q' r' ctx' c))).
Proof.
  unfold get. destruct (_generate_key q ctx) as [key|]; [|discriminate].
  destruct (PyDict.lookup key (cache c)) as [e|] eqn:El; [|discriminate].
  destruct (_ <? _); [|discriminate]. intros _. cbn [snd].
  set (e' := {| response := response e; timestamp := timestamp e;
                hits := hits e + 1 |}).
  assert (Hin : key ∈ PyDict.keys (cache c)) by (eapply PyDictFacts.lookup_Some_keys, El).
  assert (Hkeys : PyDict.keys (PyDict.store key e' (cache c)) = PyDict.keys (cache c)).
  { rewrite PyDictFacts.keys_store. now rewrite decide_True. }
  assert (Hts : forall k, timestamp_of (PyDict.store key e' (cache c)) k
                          = timestamp_of (cache c) k).
  { intros k. unfold timestamp_of. destruct (decide (key = k)) as [<-|Hne].
    - now rewrite PyDictFacts.lookup_store_eq, El.
    - now rewrite PyDictFacts.lookup_store_ne. }
  unfold set. destruct (_generate_key q' ctx') as [key'|]; [|exact Hkeys].
  cbn [cache max_size with_cache].
  rewrite (PyDictFacts.length_store_in key e' (cache c) Hin), Hkeys.
  destruct (max_size c <=? Z.of_nat (length (cache c))).
  - destruct (PyDict.keys (cache c)) as [|k0 ks] eqn:Ek;
      [now apply elem_of_nil in Hin|].
    cbn [PyDict.py_min]. rewrite (min_from_ext _ _ k0 ks Hts).
    cbn [snd cache with_cache].
    apply keys_store_congr, keys_del_congr. now rewrite Hkeys.
  - cbn [snd cache with_cache]. now apply keys_store_congr.
Qed.

(** X3.  Storing again under a key that is already cached, while the cache
    is full, still evicts the oldest entry: when that is an entry under
    another key, it is gone and the cache ends one entry short of what
    it held. *)
Theorem set_existing_at_capacity (c : t) (now : Z) (q r ctx key : pystr)
    (oldest : pystr) :
  PyDict.wf (cache c) ->
  max_size c <= Z.of_nat (length (cache c)) ->
  _generate_key q ctx = Return key ->
  is_Some (PyDict.lookup key (cache c)) ->
  PyDict.py_min (PyDict.keys (cache c)) (timestamp_of (cache c)) = Return oldest ->
  oldest <> key ->
  let c' := snd (set now q r ctx c) in
  S (length (cache c')) = length (cache c) /\
  PyDict.lookup oldest (cache c') = None /\
  PyDict.lookup key (cache c') =
    Some {| response := r; timestamp := now; hits := 0 |}.
Proof.
  intros Hwf Hcap Hkey [e He] Hmin Hne c'. subst c'. unfold set.
  apply Z.leb_le in Hcap. rewrite Hkey, Hcap, Hmin. cbn [snd cache with_cache].
  assert (Ho : oldest ∈ PyDict.keys (cache c)).
  { destruct (PyDict.keys (cache c)) as [|k0 ks] eqn:Ek; [discriminate|].
    injection Hmin as <-. apply PyDictFacts.min_from_elem. }
  assert (Hk : key ∈ PyDict.keys (PyDict.del oldest (cache c))).
  { eapply PyDictFacts.lookup_Some_keys.
    rewrite PyDictFacts.lookup_del_ne by assumption. exact He. }
  split; [|split].
  - rewrite (PyDictFacts.length_store_in _ _ _ Hk).
    now apply PyDictFacts.length_del.
  - rewrite PyDictFacts.lookup_store_ne by congruence.
    apply PyDictFacts.lookup_del_eq.
  - apply PyDictFacts.lookup_store_eq.
Qed.

Section WithArith.
Context `{PyArith}.

(** X4.  [get_stats] returns for every cache, the empty one included (its
    divisor is at least one).  Against the statistics before a [get]:
    a hit leaves [size] and adds one to [total_hits]; a lookup of an
    absent key changes neither, and nor does a lookup whose key cannot
    be computed; a lookup that finds an expired entry takes that entry
    and its hits out of both. *)
Theorem get_stats_accounting (c : t) (now : Z) (q ctx : pystr) :
  PyDict.wf (cache c) ->
  exists s s',
    get_stats c = Return s /\
    get_stats (snd (get now q ctx c)) = Return s' /\
    size s = Z.of_nat (length (cache c)) /\
    match _generate_key q ctx with
    | Raise _ => size s' = size s /\ total_hits s' = total_hits s
    | Return key =>
        match PyDict.lookup key (cache c) with
        | None => size s' = size s /\ total_hits s' = total_hits s
        | Some e =>
            if now - timestamp e <? timedelta_hours (ttl_hours c)
            then size s' = size s /\ total_hits s' = total_hits s + 1
            else size s' = size s - 1 /\ total_hits s' = total_hits s - hits e
        end
    end.
Proof.
  intros Hwf.
  assert (Hret : forall c0, exists rate,
            get_stats c0 =
              Return {| size := Z.of_nat (length (cache c0));
                        total_hits := py_sum (hits_of (cache c0));
                        hit_rate := rate |}).
  { intros c0. unfold get_stats, py_truediv.
    destruct (Z.max 1 (Z.of_nat (length (cache c0))) =? 0) eqn:E.
    - apply Z.eqb_eq in E. lia.
    - eauto. }
  destruct (Hret c) as [rate ->].
  destruct (Hret (snd (get now q ctx c))) as [rate' ->].
  eexists _, _. split; [reflexivity|]. split; [reflexivity|].
  split; [reflexivity|]. cbn [size total_hits].
  unfold get. destruct (_generate_key q ctx) as [key|]; [|now split].
  destruct (PyDict.lookup _ _) as [e|] eqn:El; [|now split].
  destruct (_ <? _); cbn [snd cache with_cache].
  - split.
    + rewrite PyDictFacts.length_store_in; [reflexivity|].
      eapply PyDictFacts.lookup_Some_keys, El.
    + rewrite (sum_store_existing _ e _ _ El). simpl. lia.
  - split.
    + pose proof (PyDictFacts.length_del _ _ Hwf
                    (PyDictFacts.lookup_Some_keys _ _ _ El)). lia.
    + now rewrite (sum_del_existing _ e _ Hwf El).
Qed.
End WithArith.
End WithHost.

Lemma set_existing_at_capacity_witness :
  let c := @run_ops Sample.host
             [Set_ 0 (Py.lit "a") (Py.lit "ra") []; Set_ 1 (Py.lit "b") (Py.lit "rb") []]
             (init 24 2) in
  length (cache (snd (@set Sample.host 2 (Py.lit "b") (Py.lit "rb2") [] c))) = 1%nat.
Proof.
  intros c.
  destruct (@set_existing_at_capacity Sample.host c 2 (Py.lit "b") (Py.lit "rb2") []
              (Py.lit "b") (Py.lit "a")) as (Hlen & _).
  - apply (bool_decide_unpack _). vm_compute. exact I.
  - vm_compute. discriminate.
  - vm_compute. reflexivity.
  - eexists. vm_compute. reflexivity.
  - vm_compute. reflexivity.
  - vm_compute. discriminate.
  - apply Nat.succ_inj. etransitivity; [exact Hlen | reflexivity].
Defined.

Lemma hit_does_not_protect_witness :
  let c := @run_ops Sample.host
             [Set_ 0 (Py.lit "a") (Py.lit "ra") []; Set_ 1 (Py.lit "b") (Py.lit "rb") []]
             (init 24 2) in
  PyDict.keys (cache (snd (@set Sample.host 3 (Py.lit "c") (Py.lit "rc") []
                             (snd (@get Sample.host 2 (Py.lit "a") [] c))))) =
    [Py.lit "b"; Py.lit "c"].
Proof.
  intros c.
  rewrite (@hit_does_not_protect Sample.host c 2 (Py.lit "a") [] (Py.lit "ra")
             3 (Py.lit "c") (Py.lit "rc") []).
  - vm_compute. reflexivity.
  - vm_compute. reflexivity.
Defined.

Lemma get_stats_accounting_witness :
  exists s,
    @get_stats Sample.arith
      (snd (@get Sample.host 2 (Py.lit "a") []
              (snd (@set Sample.host 0 (Py.lit "a") (Py.lit "ra") [] (init 24 2)))))
      = Return s /\
    size s = 1 /\ total_hits s = 1.
Proof.
  destruct (@get_stats_accounting Sample.host Sample.arith
              (snd (@set Sample.host 0 (Py.lit "a") (Py.lit "ra") [] (init 24 2)))
              2 (Py.lit "a") [])
    as (s & s' & Hs & Hs' & Hsize & Hcase).
  - apply (bool_decide_unpack _). vm_compute. exact I.
  - exists s'. split; [exact Hs'|].
    vm_compute in Hs. injection Hs as <-.
    vm_compute in Hcase. exact Hcase.
Defined.

Lemma set_then_get_normalized_witness :
  fst (@get Sample.host 5 (Py.lit " hello ") []
         (snd (@set Sample.host 0 (Py.lit "hello") (Py.lit "hi there") []
                 (init 24 2)))) = Return (Some (Py.lit "hi there")).
Proof.
  apply (@set_then_get_normalized Sample.host (init 24 2) 0 5 (Py.lit "hello")
           (Py.lit " hello ") (Py.lit "hi there") [] (Py.lit "hello")).
  - vm_compute. reflexivity.
  - vm_compute. reflexivity.
  - vm_compute. discriminate.
  - vm_compute. reflexivity.
Defined.
End CacheExtras.

(** ** More on the failover dispatcher *)
Module DispatcherExtras.
Import MultiModelAIManager.

Lemma slice_to_prefix n s : Py.slice_to n s `prefix_of` s.
Proof. unfold Py.slice_to. destruct (0 <=? n); apply prefix_take. Qed.

Lemma slice_to_length n s :
  0 <= n -> Z.of_nat (length (Py.slice_to n s)) <= n.
Proof.
  intros Hn. unfold Py.slice_to. apply Z.leb_le in Hn as Hb. rewrite Hb.
  rewrite length_take. lia.
Qed.

Lemma fixed_messages_trimmed :
  Py.trimmed exhausted_message /\ Py.trimmed unavailable_message.
Proof.
  split; split; intros c Hc; vm_compute in Hc; injection Hc as <-; reflexivity.
Qed.

Section WithHost.
Context `{PyHost}.

Lemma attempt_once_fields key model prompt context m :
  let m' := snd (attempt_once key model prompt context m) in
  config m' = config m /\ models m' = models m /\
  current_model m' = current_model m /\
  invocations m' =
    invocations m ++ [invocation_of (sent_context m context) prompt key].
Proof.
  unfold attempt_once. destruct (model _ prompt); [|now repeat split].
  case_decide; [now repeat split|].
  destruct (model_health _ !! key); now repeat split.
Qed.

Lemma loop_invocations prompt context attempts :
  forall m,
    let m' := snd (get_response_loop prompt context attempts m) in
    config m' = config m /\
    exists new,
      invocations m' = invocations m ++ new /\
      (length new <= length attempts)%nat /\
      Forall (fun i => inv_question i = prompt /\
                       inv_context i = sent_context m context) new.
Proof.
  induction attempts as [|[attempt [key model]] attempts IH]; intros m; simpl.
  - split; [reflexivity|]. exists []. rewrite app_nil_r.
    split; [reflexivity|]. split; [reflexivity | constructor].
  - destruct (attempt_once_fields key model prompt context m) as (Hc & _ & _ & Hi).
    destruct (attempt_once key model prompt context m) as [[response|e] m1];
      cbn [snd] in *.
    + split; [exact Hc|]. eexists. split; [exact Hi|]. split; [simpl; lia|].
      repeat constructor.
    + destruct (DispatcherFacts.on_failure_fields attempt key e m1)
        as (Hc2 & _ & _ & Hi2).
      case_decide.
      * cbn [snd]. split; [congruence|]. eexists. split; [rewrite Hi2; exact Hi|].
        split; [simpl; lia|]. repeat constructor.
      * destruct (IH (on_failure attempt key e m1)) as (Hc3 & new & Hi3 & Hlen & Hall).
        split; [congruence|].
        exists (invocation_of (sent_context m context) prompt key :: new).
        split; [|split].
        -- rewrite Hi3, Hi2, Hi, <- app_assoc. reflexivity.
        -- simpl. lia.
        -- constructor; [now split|].
           assert (Hs : sent_context (on_failure attempt key e m1) context
                        = sent_context m context).
           { unfold sent_context. congruence. }
           now rewrite Hs in Hall.
Qed.

(** X5.  Every call of [get_response] invokes at most one model per
    candidate, always with the prompt as it is and with a prefix of the
    context; unless the configured window is negative, that prefix is
    no longer than the window. *)
Theorem invocations_within_window (prompt context : pystr) (m : t) :
  exists new,
    invocations (snd (get_response prompt context m)) = invocations m ++ new /\
    (length new <= S (length (models m)))%nat /\
    Forall (fun i =>
              inv_question i = prompt /\
              inv_context i `prefix_of` context /\
              (context_window_size (config m) < 0 \/
               Z.of_nat (length (inv_context i))
                 <= context_window_size (config m))) new.
Proof.
  destruct (loop_invocations prompt context
              (enumerate ((primary, current_model m) :: models m)) m)
    as (_ & new & Hi & Hlen & Hall).
  exists new. split; [exact Hi|]. split.
  - unfold enumerate in Hlen. rewrite length_zip, length_seq in Hlen.
    simpl in Hlen. lia.
  - eapply Forall_impl; [exact Hall|]. intros i [Hq Hc]. rewrite Hc.
    repeat split; [assumption | apply slice_to_prefix |].
    destruct (Z.lt_ge_cases (context_window_size (config m)) 0) as [Hn|Hn];
      [now left | right; now apply slice_to_length].
Qed.

Lemma loop_trimmed prompt context attempts :
  forall m,
    match fst (get_response_loop prompt context attempts m) with
    | Return (response, _) => Py.trimmed response
    | Raise _ => False
    end.
Proof.
  induction attempts as [|[attempt [key model]] attempts IH]; intros m; simpl.
  - apply fixed_messages_trimmed.
  - destruct (attempt_once key model prompt context m) as [[response|e] m1] eqn:Ea.
    + simpl. unfold attempt_once in Ea.
      destruct (model _ prompt) as [result|]; [|discriminate].
      assert (Hr : response = normalize result).
      { case_decide; [congruence|].
        destruct (model_health _ !! key); congruence. }
      subst response. unfold normalize.
      destruct result as [s|content|items|[|first items]|r];
        try apply PyFacts.strip_trimmed.
      destruct (PyDict.lookup _ items); apply PyFacts.strip_trimmed.
    + case_decide; [apply fixed_messages_trimmed | apply IH].
Qed.

(** X6.  Whatever the models do, [get_response] returns, and the text it
    returns, a model's answer or one of its two fixed messages, has no
    whitespace at either end. *)
Theorem get_response_trimmed (prompt context : pystr) (m : t) :
  exists response key,
    fst (get_response prompt context m) = Return (response, key) /\
    Py.trimmed response.
Proof.
  pose proof (loop_trimmed prompt context
                (enumerate ((primary, current_model m) :: models m)) m) as Ht.
  unfold get_response.
  destruct (fst (get_response_loop _ _ _ _)) as [[response key]|e]; [eauto|contradiction].
Qed.

(** X7.  The health records are never consulted: two managers with the
    same models that differ in what the tracker holds give the same
    answer and invoke the same candidates.  A fallback marked unhealthy
    is tried like any other. *)
Theorem health_never_consulted (prompt context : pystr) (m1 m2 : t) :
  wf m1 -> wf m2 ->
  config m2 = config m1 -> models m2 = models m1 ->
  current_model m2 = current_model m1 ->
  fst (get_response prompt context m2) = fst (get_response prompt context m1) /\
  drop (length (invocations m2)) (invocations (snd (get_response prompt context m2)))
  = drop (length (invocations m1)) (invocations (snd (get_response prompt context m1))).
Proof.
  intros Hwf1 Hwf2 Hc Hm Hcm.
  assert (Hs : sent_context m2 context = sent_context m1 context).
  { unfold sent_context. now rewrite Hc. }
  destruct (DispatcherFacts.first_success_or_all_fail (sent_context m1 context) prompt
              ((primary, current_model m1) :: models m1))
    as [Hall|(failed & key & model & later & result & Hl & Hf & Hr)].
  - destruct (DispatcherFacts.get_response_exhausted prompt context m1 Hall)
      as (m1' & -> & _ & _ & _ & Hi1 & _).
    assert (Hall2 : Forall (raises (sent_context m2 context) prompt)
                      ((primary, current_model m2) :: models m2)).
    { now rewrite Hs, Hm, Hcm. }
    destruct (DispatcherFacts.get_response_exhausted prompt context m2 Hall2)
      as (m2' & -> & _ & _ & _ & Hi2 & _).
    cbn [fst snd]. split; [reflexivity|].
    rewrite Hi1, Hi2, !drop_app_length, Hs, Hm. reflexivity.
  - destruct (DispatcherFacts.get_response_first_success prompt context m1 failed
                key model later result Hwf1 Hl Hf Hr)
      as (m1' & -> & _ & _ & _ & Hi1 & _).
    assert (Hl2 : (primary, current_model m2) :: models m2
                  = failed ++ (key, model) :: later) by now rewrite Hm, Hcm.
    rewrite <- Hs in Hf, Hr.
    destruct (DispatcherFacts.get_response_first_success prompt context m2 failed
                key model later result Hwf2 Hl2 Hf Hr)
      as (m2' & -> & _ & _ & _ & Hi2 & _).
    cbn [fst snd]. split; [reflexivity|].
    rewrite Hi1, Hi2, !drop_app_length, Hs. reflexivity.
Qed.

(** X8.  Initialization fails only with the primary model: if the primary
    cannot be constructed, [__init__] re-raises its exception after one
    CRITICAL line; otherwise it succeeds whatever happens to the
    fallbacks, keeping at most one model per configured fallback.
    Without langchain nothing can be constructed. *)
Theorem init_fails_only_with_primary (cfg : KioskConfig) (lg : AdvancedLogger.t) :
  match _create_model cfg (primary_model_provider cfg) (primary_model_name cfg) with
  | Raise e =>
      init cfg lg =
        (Raise e,
         lg ++ [(CRITICAL,
                 Py.lit "Failed to initialize AI models | error=" ++ str_exc e)])
  | Return model =>
      exists m,
        fst (init cfg lg) = Return m /\
        current_model m = model /\
        (length (models m) <= length (fallback_models cfg))%nat
  end /\
  (LANGCHAIN_AVAILABLE = true \/
   fst (init cfg lg) = Raise (Exception_ (Py.lit "LangChain not available"))).
Proof.
  assert (Hlen : forall fbs m,
            (length (models (init_fallbacks fbs m))
             <= length (models m) + length fbs)%nat /\
            current_model (init_fallbacks fbs m) = current_model m).
  { induction fbs as [|[provider name] fbs IH]; intros m; simpl; [split; [lia|reflexivity]|].
    destruct (_create_model (config m) provider name).
    - destruct (IH (with_model_health
                      (with_models m (PyDict.store (model_key_of provider name) a (models m)))
                      (<[model_key_of provider name :=
                           {| healthy := true; last_error := None |}]>
                         (model_health m)))) as [Hl Hc].
      simpl in Hl, Hc.
      pose proof (PyDictFacts.length_store_le (model_key_of provider name) a (models m)).
      split; [lia | exact Hc].
    - destruct (IH (log WARNING
                      (Py.lit "Failed to initialize fallback model " ++ name)
                      [(Py.lit "error", str_exc e)] m)) as [Hl Hc].
      simpl in Hl, Hc. split; [lia | exact Hc]. }
  split.
  - unfold init.
    destruct (_create_model cfg (primary_model_provider cfg) (primary_model_name cfg))
      as [model|e].
    + eexists. split; [reflexivity|]. simpl.
      match goal with |- context [init_fallbacks ?f ?m] =>
        destruct (Hlen f m) as [Hl Hc] end.
      simpl in Hl, Hc. split; [exact Hc | lia].
    + reflexivity.
  - destruct LANGCHAIN_AVAILABLE eqn:Hlc; [now left | right].
    unfold init, _create_model at 1. now rewrite Hlc.
Qed.
Lemma model_key_not_error provider name :
  model_key_of provider name <> Py.lit "error".
Proof.
  destruct provider. unfold model_key_of. intros Heq.
  vm_compute in Heq. discriminate.
Qed.

(** X9.  On a manager built by [__init__], whatever calls it has served,
    the model key [error] is returned exactly when every candidate
    raised; the key of an answering model is never [error], so the
    key tells a caller the answer is the fixed apology. *)
Theorem error_key_iff_exhausted (cfg : KioskConfig) (lg : AdvancedLogger.t)
    (m0 : t) (calls : list (pystr * pystr)) (prompt context : pystr) :
  fst (init cfg lg) = Return m0 ->
  let m := run_calls calls m0 in
  forall response key,
    fst (get_response prompt context m) = Return (response, key) ->
    (key = Py.lit "error" <->
     Forall (raises (sent_context m context) prompt)
       ((primary, current_model m) :: models m)) /\
    (key = Py.lit "error" -> response = exhausted_message).
Proof.
  intros Hinit m response key Hret.
  destruct (DispatcherFacts.init_spec cfg lg m0 Hinit) as (Hwf0 & _ & _ & Hkeys).
  destruct (DispatcherFacts.run_calls_dom calls m0 Hwf0) as (Hwf & _ & Hm).
  fold m in Hwf, Hm.
  destruct (DispatcherFacts.first_success_or_all_fail (sent_context m context) prompt
              ((primary, current_model m) :: models m))
    as [Hall|(failed & k & model & later & result & Hl & Hf & Hr)].
  - destruct (DispatcherFacts.get_response_exhausted prompt context m Hall)
      as (m' & Hg & _).
    rewrite Hg in Hret. injection Hret as <- <-. now repeat split.
  - destruct (DispatcherFacts.get_response_first_success prompt context m failed
                k model later result Hwf Hl Hf Hr) as (m' & Hg & _).
    rewrite Hg in Hret. injection Hret as <- <-.
    assert (Hne : k <> Py.lit "error").
    { assert (Hin : k ∈ PyDict.keys ((primary, current_model m) :: models m)).
      { rewrite Hl, DispatcherFacts.keys_app. apply elem_of_app. right.
        apply elem_of_cons. now left. }
      apply elem_of_cons in Hin as [->|Hin]; [vm_compute; discriminate|].
      rewrite Hm in Hin. apply Hkeys in Hin as (p & n & _ & _ & _ & ->).
      apply model_key_not_error. }
    split; [|intros Hk; contradiction].
    split; [intros Hk; contradiction|].
    intros Hall. exfalso. rewrite Hl in Hall.
    apply Forall_app in Hall as [_ Hall]. apply Forall_cons in Hall as [[e He] _].
    simpl in He. congruence.
Qed.
End WithHost.

Lemma health_never_consulted_witness :
  let healthy_one :=
    Sample.P_F1_F2 (Sample.fails (Py.lit "P down"))
      (Sample.answers (PStr (Py.lit "from F1")))
      (Sample.answers (PStr (Py.lit "from F2"))) in
  let marked :=
    with_model_health healthy_one
      (<[Py.lit "ollama_f1" :=
           {| healthy := false; last_error := Some (Py.lit "timed out") |}]>
         (model_health healthy_one)) in
  fst (@get_response Sample.host (Py.lit "hello") [] marked) =
    Return (Py.lit "from F1", Py.lit "ollama_f1").
Proof.
  intros healthy_one marked.
  rewrite (proj1 (@health_never_consulted Sample.host (Py.lit "hello") []
                    healthy_one marked
                    (DispatcherFacts.sample_P_F1_F2_wf _ _ _)
                    ltac:(repeat split;
                          [ apply (bool_decide_unpack _); vm_compute; exact I
                          | apply (bool_decide_unpack _); vm_compute; exact I
                          | intros Hk; apply elem_of_dom in Hk;
                            destruct (DispatcherFacts.sample_P_F1_F2_wf
                                        (Sample.fails (Py.lit "P down"))
                                        (Sample.answers (PStr (Py.lit "from F1")))
                                        (Sample.answers (PStr (Py.lit "from F2"))))
                              as (_ & _ & Hd);
                            apply Hd, elem_of_dom;
                            cbn [model_health marked with_model_health] in Hk;
                            destruct (decide (k = Py.lit "ollama_f1")) as [->|Hne];
                            [ vm_compute; eauto
                            | now rewrite lookup_insert_ne in Hk by congruence ]
                          | intros Hk;
                            destruct (DispatcherFacts.sample_P_F1_F2_wf
                                        (Sample.fails (Py.lit "P down"))
                                        (Sample.answers (PStr (Py.lit "from F1")))
                                        (Sample.answers (PStr (Py.lit "from F2"))))
                              as (_ & _ & Hd);
                            apply Hd in Hk; apply elem_of_dom in Hk;
                            apply elem_of_dom;
                            cbn [model_health marked with_model_health];
                            destruct (decide (k = Py.lit "ollama_f1")) as [->|Hne];
                            [ rewrite lookup_insert_eq; eauto
                            | now rewrite lookup_insert_ne by congruence ] ])
                    eq_refl eq_refl eq_refl)).
  vm_compute. reflexivity.
Defined.
Lemma error_key_iff_exhausted_witness :
  exists m0 response,
    fst (@init Sample.host (Sample.config [(OLLAMA, Py.lit "mistral")]) [])
      = Return m0 /\
    fst (@get_response Sample.host (Py.lit "hello") [] m0)
      = Return (response, Py.lit "primary") /\
    ~ Forall (raises (sent_context m0 []) (Py.lit "hello"))
        ((primary, current_model m0) :: models m0).
Proof.
  eexists. eexists. split; [reflexivity|]. split; [reflexivity|].
  intros Hall.
  apply (@error_key_iff_exhausted Sample.host
           (Sample.config [(OLLAMA, Py.lit "mistral")]) [] _ []
           (Py.lit "hello") [] eq_refl _ _ eq_refl) in Hall.
  vm_compute in Hall. discriminate.
Defined.
End DispatcherExtras.

(** ** More on the orchestrator's turn *)
Module OrchestratorExtras.
Import UltraAdvancedKioskChatbot.

Section WithHost.
Context `{PyHost}.

(** The counters of a turn answered from the cache. *)
Lemma hit_metrics env user_input session metadata k0 c text c1 :
  (max_input_length (config k0) <? Z.of_nat (length user_input)) = false ->
  _is_inappropriate_content k0 user_input = false ->
  current_session k0 = Some session ->
  IntelligentCache.get (now_get env) user_input
    (_format_conversation_context session) (cache k0)
    = (Return (Some (c :: text)), c1) ->
  performance_metrics
    (snd (process_query_try env user_input session metadata k0)) =
    {| total_requests := total_requests (performance_metrics k0);
       cache_hits := cache_hits (performance_metrics k0) + 1 |}.
Proof.
  intros Hlen Hfil Hs Hget.
  unfold process_query_try, Eff.bind, Eff.gets. cbn beta iota.
  rewrite Hlen, Hfil. unfold session_of. rewrite Hs.
  cbn [default from_option Datatypes.id].
  unfold cache_get. rewrite Hget. reflexivity.
Qed.

(** A turn refused by one of the two checks leaves the state as it is. *)
Lemma refused_path env user_input session metadata k0 :
  (max_input_length (config k0) <? Z.of_nat (length user_input)) = true \/
  _is_inappropriate_content k0 user_input = true ->
  exists message,
    process_query_try env user_input session metadata k0 = (Return message, k0).
Proof.
  unfold process_query_try, Eff.bind, Eff.gets, Eff.ret. cbn beta iota.
  destruct (_ <? _); [eauto|]. intros [Hl | Hf]; [discriminate | rewrite Hf; eauto].
Qed.

(** What the [except] clause changes. *)
Lemma except_spec session metadata e k1 :
  let k2 := snd (process_query_except session metadata e k1) in
  current_session k2 = record_error <$> current_session k1 /\
  metadatas k2 = alter (set_error (Some (str_exc e))) metadata (metadatas k1) /\
  performance_metrics k2 = performance_metrics k1 /\
  cache k2 = cache k1 /\ cache_ops k2 = cache_ops k1 /\
  analytics k2 = analytics k1 /\ config k2 = config k1 /\
  same_manager (ai_manager k1) (ai_manager k2).
Proof.
  unfold process_query_except, update_session, update_metadata, log,
    Eff.bind, Eff.modify, Eff.gets, Eff.ret. simpl.
  repeat split.
Qed.

(** Every path through the [try] body: the requests counter and the
    other metadata dicts stay as they are, and the cache-hit counter
    moves exactly when the call's dict is marked as cached. *)
Lemma try_frame env user_input session metadata k0 out k1 :
  current_session k0 = Some session ->
  metadatas k0 !! metadata = Some (fresh_metadata session) ->
  process_query_try env user_input session metadata k0 = (out, k1) ->
  total_requests (performance_metrics k1) = total_requests (performance_metrics k0) /\
  length (metadatas k1) = length (metadatas k0) /\
  (forall i, i <> metadata -> metadatas k1 !! i = metadatas k0 !! i) /\
  exists md1,
    metadatas k1 !! metadata = Some md1 /\
    error md1 = None /\ language md1 = preferred_language session /\
    cache_hits (performance_metrics k1) =
      cache_hits (performance_metrics k0) + (if cached md1 then 1 else 0).
Proof.
  intros Hs Hmd Htry.
  destruct (max_input_length (config k0) <? Z.of_nat (length user_input)) eqn:Hlen.
  { destruct (refused_path env user_input session metadata k0 (or_introl Hlen))
      as [msg Hr].
    rewrite Hr in Htry. injection Htry as <- <-.
    repeat split; try reflexivity. eexists. split; [exact Hmd|]. simpl.
    repeat split. lia. }
  destruct (_is_inappropriate_content k0 user_input) eqn:Hfil.
  { destruct (refused_path env user_input session metadata k0 (or_intror Hfil))
      as [msg Hr].
    rewrite Hr in Htry. injection Htry as <- <-.
    repeat split; try reflexivity. eexists. split; [exact Hmd|]. simpl.
    repeat split. lia. }
  destruct (IntelligentCache.get (now_get env) user_input
              (_format_conversation_context session) (cache k0))
    as [[found|e] c1] eqn:Hget.
  2:{ destruct (OrchestratorFacts.lookup_raise_path env user_input session metadata
                  k0 e c1 Hlen Hfil Hs Hget)
        as (k & Hb & _ & _ & Hm1 & _ & _ & Hpm & _).
      rewrite Htry in Hb. injection Hb as _ Hk. subst k. rewrite Hpm, Hm1.
      repeat split; try reflexivity. eexists. split; [exact Hmd|]. simpl.
      repeat split. lia. }
  assert (Hcase : (exists c text, found = Some (c :: text)) \/
                  match found with Some (_ :: _) => False | _ => True end).
  { destruct found as [[|c text]|]; eauto. }
  destruct Hcase as [(c & text & ->)|Hmiss].
  - pose proof (hit_metrics env user_input session metadata k0 c text c1
                  Hlen Hfil Hs Hget) as Hpm.
    destruct (OrchestratorFacts.hit_path env user_input session metadata k0 c text c1
                Hlen Hfil Hs Hget) as (k & Hb & _ & _ & Hm1 & _).
    rewrite Htry in Hb, Hpm. injection Hb as Ho Hk. subst out k. cbn [snd] in Hpm.
    rewrite Hpm, Hm1. cbn [total_requests cache_hits].
    split; [reflexivity|]. split; [now rewrite !length_alter|]. split.
    + intros i Hi. now rewrite !list_lookup_alter_ne by congruence.
    + eexists. split; [rewrite !list_lookup_alter_eq, Hmd; reflexivity|].
      simpl. repeat split.
  - destruct (MultiModelAIManager.get_response user_input
                (_format_conversation_context session) (ai_manager k0))
      as [gr mgr1] eqn:Hresp.
    destruct (DispatcherFacts.get_response_returns user_input
                (_format_conversation_context session) (ai_manager k0))
      as [[r model_used] Hr].
    rewrite Hresp in Hr. simpl in Hr. subst gr.
    destruct (IntelligentCache.set (now_set env) user_input
                (post_process env k0 session r)
                (_format_conversation_context session) c1) as [sr c2] eqn:Hset.
    destruct (OrchestratorFacts.miss_path env user_input session metadata k0 found c1
                r model_used mgr1 sr c2 Hlen Hfil Hs Hget Hmiss Hresp Hset)
      as (k & Hb & _ & _ & _ & _ & Hpm & Hrest).
    rewrite Htry in Hb. injection Hb as _ Hk. subst k. rewrite Hpm.
    split; [reflexivity|].
    destruct sr as [[]|e].
    + destruct Hrest as (_ & -> & _).
      split; [now rewrite !length_alter|]. split.
      * intros i Hi. now rewrite !list_lookup_alter_ne by congruence.
      * eexists. split; [rewrite !list_lookup_alter_eq, Hmd; reflexivity|].
        simpl. repeat split. lia.
    + destruct Hrest as (_ & _ & ->).
      split; [reflexivity|]. split; [reflexivity|].
      eexists. split; [exact Hmd|]. simpl. repeat split. lia.
Qed.

(** X10.  Every call of [process_query] is counted as a request, whatever
    path it takes, and it counts as a cache hit exactly when the
    metadata it returns says [cached]. *)
Theorem every_call_counted (env : Env) (user_input : pystr) (k : t) :
  let k' := snd (process_query env user_input k) in
  exists response metadata md,
    fst (process_query env user_input k) = Return (response, metadata) /\
    metadatas k' !! metadata = Some md /\
    total_requests (performance_metrics k') =
      total_requests (performance_metrics k) + 1 /\
    cache_hits (performance_metrics k') =
      cache_hits (performance_metrics k) + (if cached md then 1 else 0).
Proof.
  destruct (OrchestratorFacts.enter_spec env k)
    as (session & metadata & k0 & He & Hs & _ & Hmd & Hmds & _ & _ & _ & _ & _ & Hpm & _).
  assert (Hmd0 : metadatas k0 !! metadata = Some (fresh_metadata session)).
  { rewrite Hmds, Hmd. apply list_lookup_middle. reflexivity. }
  destruct (process_query_try env user_input session metadata k0)
    as [[response|e] k1] eqn:Hb;
    destruct (try_frame _ _ _ _ _ _ _ Hs Hmd0 Hb)
      as (Htot & _ & _ & md1 & Hmd1 & _ & _ & Hhits).
  - rewrite (OrchestratorFacts.process_query_returns _ _ _ _ _ _ _ _ He Hb).
    exists response, metadata, md1. simpl. rewrite <- Hpm.
    repeat split; [assumption | lia | assumption].
  - rewrite (OrchestratorFacts.process_query_raises _ _ _ _ _ _ _ _ He Hb).
    destruct (except_spec session metadata e k1) as (_ & Hm2 & Hpm2 & _).
    exists processing_error_message, metadata,
      (set_error (Some (str_exc e)) md1).
    cbn [fst snd]. split; [reflexivity|].
    cbn [bump_total_requests metadatas with_performance_metrics
         performance_metrics total_requests cache_hits].
    rewrite Hm2, Hpm2, list_lookup_alter_eq, Hmd1, <- Hpm.
    repeat split; [lia | exact Hhits].
Qed.

(** X11.  Every call allocates one new metadata dict, the one it returns,
    and never writes to the dict of an earlier call, which an entry of
    some session's history may still refer to.  The returned dict keeps
    the language the session had on entry. *)
Theorem earlier_metadata_untouched (env : Env) (user_input : pystr) (k : t) :
  let k' := snd (process_query env user_input k) in
  (exists response,
     fst (process_query env user_input k)
       = Return (response, length (metadatas k))) /\
  length (metadatas k') = S (length (metadatas k)) /\
  (forall i, (i < length (metadatas k))%nat ->
             metadatas k' !! i = metadatas k !! i) /\
  (forall s, current_session k = Some s ->
             language <$> (metadatas k' !! length (metadatas k))
               = Some (preferred_language s)).
Proof.
  destruct (OrchestratorFacts.enter_spec env k)
    as (session & metadata & k0 & He & Hs & Hsame & Hmd & Hmds & _).
  assert (Hmd0 : metadatas k0 !! metadata = Some (fresh_metadata session)).
  { rewrite Hmds, Hmd. apply list_lookup_middle. reflexivity. }
  assert (Hlen0 : length (metadatas k0) = S (length (metadatas k))).
  { rewrite Hmds, length_app. simpl. lia. }
  assert (Hold : forall i, (i < length (metadatas k))%nat ->
                           metadatas k0 !! i = metadatas k !! i).
  { intros i Hi. rewrite Hmds. now apply lookup_app_l. }
  destruct (process_query_try env user_input session metadata k0)
    as [[response|e] k1] eqn:Hb;
    destruct (try_frame _ _ _ _ _ _ _ Hs Hmd0 Hb)
      as (_ & Hlen1 & Hfr & md1 & Hmd1 & _ & Hlang & _).
  - rewrite (OrchestratorFacts.process_query_returns _ _ _ _ _ _ _ _ He Hb).
    cbn [fst snd bump_total_requests metadatas with_performance_metrics].
    rewrite <- Hmd. split; [eauto|]. split; [congruence|]. split.
    + intros i Hi. rewrite Hfr by (subst metadata; clear -Hi; lia). apply Hold; subst metadata; exact Hi.
    + intros s Hcs. rewrite Hmd1. simpl. rewrite Hlang.
      now rewrite (Hsame s Hcs).
  - rewrite (OrchestratorFacts.process_query_raises _ _ _ _ _ _ _ _ He Hb).
    destruct (except_spec session metadata e k1) as (_ & Hm2 & _).
    cbn [fst snd bump_total_requests metadatas with_performance_metrics].
    rewrite Hm2, <- Hmd. split; [eauto|].
    split; [rewrite length_alter; congruence|]. split.
    + intros i Hi. rewrite list_lookup_alter_ne by lia.
      rewrite Hfr by (subst metadata; clear -Hi; lia). apply Hold; subst metadata; exact Hi.
    + intros s Hcs. rewrite list_lookup_alter_eq, Hmd1. simpl. rewrite Hlang.
      now rewrite (Hsame s Hcs).
Qed.
(** X12.  A question the content filter rejects, while within the length
    limit, is answered with the fixed refusal: the call makes no cache
    operation and no model invocation, and records the turn nowhere: not
    in the session (history, counters, errors) and not in the analytics. *)
Theorem content_filter_rejection (env : Env) (user_input : pystr) (k : t) :
  Z.of_nat (length user_input) <= max_input_length (config k) ->
  _is_inappropriate_content k user_input = true ->
  let k' := snd (process_query env user_input k) in
  fst (process_query env user_input k) =
    Return (Py.lit "I can only help with appropriate questions. Please rephrase your request.",
            length (metadatas k)) /\
  cache_ops k' = cache_ops k /\ cache k' = cache k /\
  MultiModelAIManager.invocations (ai_manager k') =
    MultiModelAIManager.invocations (ai_manager k) /\
  analytics k' = analytics k /\
  (forall s, current_session k = Some s -> current_session k' = Some s) /\
  error <$> (metadatas k' !! length (metadatas k)) = Some None.
Proof.
  intros Hlen Hfil.
  destruct (OrchestratorFacts.enter_spec env k)
    as (session & metadata & k0 & He & Hs & Hsame & Hmd & Hmds & Hc & Hca & Hco & Han
        & _ & _ & Hm).
  assert (Hb : process_query_try env user_input session metadata k0 =
               (Return inappropriate_message, k0)).
  { unfold process_query_try, Eff.bind, Eff.gets, Eff.ret. cbn beta iota.
    unfold _is_inappropriate_content in *. rewrite Hc.
    apply Z.ltb_ge in Hlen. now rewrite Hlen, Hfil. }
  rewrite (OrchestratorFacts.process_query_returns _ _ _ _ _ _ _ _ He Hb).
  destruct Hm as (_ & _ & _ & _ & Hi).
  cbn [fst snd bump_total_requests with_performance_metrics cache_ops cache
       ai_manager analytics current_session metadatas].
  rewrite <- Hmd. split; [reflexivity|].
  split; [exact Hco|]. split; [exact Hca|]. split; [exact Hi|].
  split; [exact Han|]. split.
  - intros s Hcs. now rewrite <- (Hsame s Hcs).
  - rewrite Hmds, Hmd, list_lookup_middle by reflexivity. reflexivity.
Qed.

(** X13.  A turn answered from the cache invokes no model and leaves the
    health tracker alone; it makes one [cache.get] and no [cache.set],
    counts one request and one cache hit, and its metadata says
    [cached] with the model still [unknown]. *)
Theorem cache_hit_skips_models (env : Env) (user_input : pystr) (k : t)
    (session : UserSession) (metadata : nat) (k0 : t) (c : N) (text : pystr)
    (c1 : IntelligentCache.t) :
  process_query_enter env k = (Return (session, metadata), k0) ->
  (max_input_length (config k) <? Z.of_nat (length user_input)) = false ->
  _is_inappropriate_content k user_input = false ->
  IntelligentCache.get (now_get env) user_input
    (_format_conversation_context session) (cache k)
    = (Return (Some (c :: text)), c1) ->
  let k' := snd (process_query env user_input k) in
  fst (process_query env user_input k) = Return (c :: text, metadata) /\
  MultiModelAIManager.invocations (ai_manager k') =
    MultiModelAIManager.invocations (ai_manager k) /\
  MultiModelAIManager.model_health (ai_manager k') =
    MultiModelAIManager.model_health (ai_manager k) /\
  cache_ops k' =
    cache_ops k ++
    [IntelligentCache.Get (now_get env) user_input
       (_format_conversation_context session)] /\
  cache k' = c1 /\
  performance_metrics k' =
    {| total_requests := total_requests (performance_metrics k) + 1;
       cache_hits := cache_hits (performance_metrics k) + 1 |} /\
  metadatas k' !! metadata =
    Some {| cached := true; model_used := Py.lit "unknown";
            response_time := PFloat (time_hit env - time_start env)%float;
            language := preferred_language session; error := None |}.
Proof.
  intros He Hlen Hfil Hget k'.
  destruct (OrchestratorFacts.enter_spec env k)
    as (session' & metadata' & k0' & He' & Hs & _ & Hmd & Hmds & Hc & Hca & Hco & _
        & _ & Hpm & Hm).
  rewrite He in He'. injection He' as <- <- <-.
  assert (Hlen0 : (max_input_length (config k0) <? Z.of_nat (length user_input)) = false)
    by now rewrite Hc.
  assert (Hfil0 : _is_inappropriate_content k0 user_input = false).
  { unfold _is_inappropriate_content in *. now rewrite Hc. }
  assert (Hmd0 : metadatas k0 !! metadata = Some (fresh_metadata session)).
  { rewrite Hmds, Hmd. apply list_lookup_middle. reflexivity. }
  rewrite <- Hca in Hget.
  pose proof (hit_metrics env user_input session metadata k0 c text c1
                Hlen0 Hfil0 Hs Hget) as Hhit.
  destruct (OrchestratorFacts.hit_path env user_input session metadata k0 c text c1
              Hlen0 Hfil0 Hs Hget) as (k1 & Hb & _ & _ & Hm1 & Hc1 & Hai & Hops).
  rewrite Hb in Hhit. cbn [snd] in Hhit.
  subst k'. rewrite (OrchestratorFacts.process_query_returns _ _ _ _ _ _ _ _ He Hb).
  destruct Hm as (_ & _ & _ & Hh & Hi).
  cbn [fst snd bump_total_requests with_performance_metrics cache_ops cache
       ai_manager metadatas performance_metrics].
  rewrite Hai, Hh, Hi, Hops, Hco, Hc1, Hhit, Hpm, Hm1.
  rewrite !list_lookup_alter_eq, Hmd0. repeat split.
Qed.

(** X14.  When every model fails in an English session, the fixed apology is
    what the turn stores in the cache under the question's key, and its
    metadata names the model [error]: the failure is cached like an
    answer. *)
Theorem exhaustion_is_cached (env : Env) (user_input : pystr) (k : t)
    (session : UserSession) (metadata : nat) (k0 : t) (found : option pystr)
    (c1 : IntelligentCache.t) :
  process_query_enter env k = (Return (session, metadata), k0) ->
  (max_input_length (config k) <? Z.of_nat (length user_input)) = false ->
  _is_inappropriate_content k user_input = false ->
  let context := _format_conversation_context session in
  IntelligentCache.get (now_get env) user_input context (cache k)
    = (Return found, c1) ->
  match found with Some (_ :: _) => False | _ => True end ->
  Forall (MultiModelAIManager.raises
            (MultiModelAIManager.sent_context (ai_manager k) context) user_input)
    ((MultiModelAIManager.primary, MultiModelAIManager.current_model (ai_manager k))
       :: MultiModelAIManager.models (ai_manager k)) ->
  preferred_language session = Py.lit "en" ->
  1 <= IntelligentCache.max_size (cache k) ->
  let k' := snd (process_query env user_input k) in
  (exists key,
     IntelligentCache._generate_key user_input context = Return key /\
     PyDict.lookup key (IntelligentCache.cache (cache k')) =
       Some {| IntelligentCache.response := MultiModelAIManager.exhausted_message;
               IntelligentCache.timestamp := now_set env;
               IntelligentCache.hits := 0 |}) /\
  model_used <$> (metadatas k' !! metadata) = Some (Py.lit "error") /\
  exists s',
    current_session k' = Some s' /\
    questions_count s' = questions_count session + 1 /\
    ex_response <$> last (conversation_history s')
      = Some MultiModelAIManager.exhausted_message.
Proof.
  intros He Hlen Hfil context Hget Hmiss Hall Hlang Hmax k'.
  destruct (OrchestratorFacts.enter_spec env k)
    as (session' & metadata' & k0' & He' & Hs & _ & Hmd & Hmds & Hc & Hca & _ & _
        & _ & _ & Hm).
  rewrite He in He'. injection He' as <- <- <-.
  assert (Hlen0 : (max_input_length (config k0) <? Z.of_nat (length user_input)) = false)
    by now rewrite Hc.
  assert (Hfil0 : _is_inappropriate_content k0 user_input = false).
  { unfold _is_inappropriate_content in *. now rewrite Hc. }
  assert (Hmd0 : metadatas k0 !! metadata = Some (fresh_metadata session)).
  { rewrite Hmds, Hmd. apply list_lookup_middle. reflexivity. }
  rewrite <- Hca in Hget, Hmax.
  destruct Hm as (Hmc & Hmm & Hmcm & _ & _).
  assert (Hall0 : Forall (MultiModelAIManager.raises
                            (MultiModelAIManager.sent_context (ai_manager k0) context)
                            user_input)
                    ((MultiModelAIManager.primary,
                      MultiModelAIManager.current_model (ai_manager k0))
                       :: MultiModelAIManager.models (ai_manager k0))).
  { unfold MultiModelAIManager.sent_context in *. now rewrite Hmc, Hmm, Hmcm. }
  destruct (DispatcherFacts.get_response_exhausted user_input context (ai_manager k0) Hall0)
    as (mgr1 & Hresp & _).
  assert (Hpp : post_process env k0 session MultiModelAIManager.exhausted_message
                = MultiModelAIManager.exhausted_message).
  { unfold post_process. now rewrite decide_True by assumption. }
  destruct (CacheFacts.get_returns_key _ _ _ _ _ _ Hget) as [key Hkey].
  destruct (OrchestratorFacts.set_returns (now_set env) user_input
              MultiModelAIManager.exhausted_message context c1 key Hkey)
    as (c2 & Hset & Hlk).
  { now rewrite (OrchestratorFacts.get_max_size_eq _ _ _ _ _ _ Hget). }
  rewrite <- Hpp in Hset.
  destruct (OrchestratorFacts.miss_path env user_input session metadata k0 found c1
              MultiModelAIManager.exhausted_message (Py.lit "error")
              mgr1 (Return tt) c2 Hlen0 Hfil0 Hs Hget Hmiss Hresp Hset)
    as (k1 & Hb & Hc2 & _ & _ & _ & _ & Hs1 & Hm1 & _).
  rewrite Hpp in Hb, Hs1. subst k'.
  destruct (enable_analytics (config k0)); [destruct (db_failure env) as [e|]|].
  - rewrite (OrchestratorFacts.process_query_raises _ _ _ _ _ _ _ _ He Hb).
    destruct (except_spec session metadata e k1) as (Hs2 & Hm2 & _ & Hca2 & _).
    cbn [snd bump_total_requests with_performance_metrics cache metadatas
         current_session].
    rewrite Hca2, Hc2, Hm2, Hs2, Hs1, Hm1.
    rewrite !list_lookup_alter_eq, Hmd0.
    split; [eauto|]. split; [reflexivity|].
    eexists. split; [reflexivity|]. simpl. split; [reflexivity|].
    now rewrite last_snoc.
  - rewrite (OrchestratorFacts.process_query_returns _ _ _ _ _ _ _ _ He Hb).
    cbn [snd bump_total_requests with_performance_metrics cache metadatas
         current_session].
    rewrite Hc2, Hs1, Hm1, !list_lookup_alter_eq, Hmd0.
    split; [eauto|]. split; [reflexivity|].
    eexists. split; [reflexivity|]. simpl. split; [reflexivity|].
    now rewrite last_snoc.
  - rewrite (OrchestratorFacts.process_query_returns _ _ _ _ _ _ _ _ He Hb).
    cbn [snd bump_total_requests with_performance_metrics cache metadatas
         current_session].
    rewrite Hc2, Hs1, Hm1, !list_lookup_alter_eq, Hmd0.
    split; [eauto|]. split; [reflexivity|].
    eexists. split; [reflexivity|]. simpl. split; [reflexivity|].
    now rewrite last_snoc.
Qed.

(** X15.  A translation that cannot be had does not fail the turn: without a
    translator, or when the service raises or yields nothing, the
    dispatcher's response is cached and recorded as it is, and it is
    what the turn returns unless the analytics insert fails. *)
Theorem translation_failure_degrades (env : Env) (user_input : pystr) (k : t)
    (session : UserSession) (metadata : nat) (k0 : t) (found : option pystr)
    (c1 : IntelligentCache.t) (r model : pystr) (mgr1 : MultiModelAIManager.t) :
  process_query_enter env k = (Return (session, metadata), k0) ->
  (max_input_length (config k) <? Z.of_nat (length user_input)) = false ->
  _is_inappropriate_content k user_input = false ->
  let context := _format_conversation_context session in
  IntelligentCache.get (now_get env) user_input context (cache k)
    = (Return found, c1) ->
  match found with Some (_ :: _) => False | _ => True end ->
  MultiModelAIManager.get_response user_input context (ai_manager k0)
    = (Return (r, model), mgr1) ->
  translator k = false \/
  match google_translate env (Py.lit "en") (preferred_language session) r with
  | Return (Some (_ :: _)) => False
  | _ => True
  end ->
  1 <= IntelligentCache.max_size (cache k) ->
  let k' := snd (process_query env user_input k) in
  (exists key,
     IntelligentCache._generate_key user_input context = Return key /\
     PyDict.lookup key (IntelligentCache.cache (cache k')) =
       Some {| IntelligentCache.response := r;
               IntelligentCache.timestamp := now_set env;
               IntelligentCache.hits := 0 |}) /\
  (exists s',
     current_session k' = Some s' /\
     ex_response <$> last (conversation_history s') = Some r) /\
  (enable_analytics (config k) = false \/ db_failure env = None ->
   fst (process_query env user_input k) = Return (r, metadata)).
Proof.
  intros He Hlen Hfil context Hget Hmiss Hresp Htr Hmax k'.
  destruct (OrchestratorFacts.enter_spec env k)
    as (session' & metadata' & k0' & He' & Hs & _ & Hmd & Hmds & Hc & Hca & _ & _
        & Ht & _ & _).
  rewrite He in He'. injection He' as <- <- <-.
  assert (Hlen0 : (max_input_length (config k0) <? Z.of_nat (length user_input)) = false)
    by now rewrite Hc.
  assert (Hfil0 : _is_inappropriate_content k0 user_input = false).
  { unfold _is_inappropriate_content in *. now rewrite Hc. }
  rewrite <- Hca in Hget, Hmax.
  assert (Hpp : post_process env k0 session r = r).
  { unfold post_process, translate_text. rewrite Ht.
    case_decide; [reflexivity|].
    destruct Htr as [->|Htr]; [reflexivity|].
    destruct (translator k); [|reflexivity]. cbn [negb].
    destruct (google_translate env _ _ r) as [[[|? ?]|]|]; try reflexivity.
    contradiction. }
  destruct (CacheFacts.get_returns_key _ _ _ _ _ _ Hget) as [key Hkey].
  destruct (OrchestratorFacts.set_returns (now_set env) user_input r context c1
              key Hkey)
    as (c2 & Hset & Hlk).
  { now rewrite (OrchestratorFacts.get_max_size_eq _ _ _ _ _ _ Hget). }
  rewrite <- Hpp in Hset.
  destruct (OrchestratorFacts.miss_path env user_input session metadata k0 found c1
              r model mgr1 (Return tt) c2 Hlen0 Hfil0 Hs Hget Hmiss Hresp Hset)
    as (k1 & Hb & Hc2 & _ & _ & _ & _ & Hs1 & _).
  rewrite Hpp in Hb, Hs1. rewrite Hc in Hb. subst k'.
  destruct (enable_analytics (config k)); [destruct (db_failure env) as [e|]|].
  - rewrite (OrchestratorFacts.process_query_raises _ _ _ _ _ _ _ _ He Hb).
    destruct (except_spec session metadata e k1) as (Hs2 & _ & _ & Hca2 & _).
    cbn [fst snd bump_total_requests with_performance_metrics cache current_session].
    rewrite Hca2, Hc2, Hs2, Hs1.
    split; [eauto|]. split.
    + eexists. split; [reflexivity|]. simpl. now rewrite last_snoc.
    + intros [?|?]; discriminate.
  - rewrite (OrchestratorFacts.process_query_returns _ _ _ _ _ _ _ _ He Hb).
    cbn [fst snd bump_total_requests with_performance_metrics cache current_session].
    rewrite Hc2, Hs1. split; [eauto|]. split; [|reflexivity].
    eexists. split; [reflexivity|]. simpl. now rewrite last_snoc.
  - rewrite (OrchestratorFacts.process_query_returns _ _ _ _ _ _ _ _ He Hb).
    cbn [fst snd bump_total_requests with_performance_metrics cache current_session].
    rewrite Hc2, Hs1. split; [eauto|]. split; [|reflexivity].
    eexists. split; [reflexivity|]. simpl. now rewrite last_snoc.
Qed.

Lemma last3_app {A} (old : list A) (a b c : A) :
  last3 (old ++ [a; b; c]) = [a; b; c].
Proof.
  unfold last3. rewrite length_app. cbn [length].
  replace (length old + 3 - 3)%nat with (length old) by lia.
  apply drop_app_length.
Qed.

Lemma last3_short {A} (l : list A) : (length l <= 3)%nat -> last3 l = l.
Proof.
  intros Hl. unfold last3.
  replace (length l - 3)%nat with 0%nat by lia. reflexivity.
Qed.

(** X16.  The conversation context is made of the last three exchanges
    and of nothing else: for a history that ends in the exchanges a, b
    and c it is the six lines "User: question" and "Assistant:
    response" of a, b and c, whatever came before them, and a history
    of at most three exchanges is rendered whole.  Only the question
    and response texts enter it, so an answer cached in one session is
    served to any session whose last three exchanges read the same. *)
Theorem context_from_last_three (s1 s2 : UserSession) (old1 old2 : list Exchange)
    (a1 b1 c1 a2 b2 c2 : Exchange) (now : Z) (query : pystr)
    (c : IntelligentCache.t) :
  conversation_history s1 = old1 ++ [a1; b1; c1] ->
  conversation_history s2 = old2 ++ [a2; b2; c2] ->
  ex_question a2 = ex_question a1 -> ex_response a2 = ex_response a1 ->
  ex_question b2 = ex_question b1 -> ex_response b2 = ex_response b1 ->
  ex_question c2 = ex_question c1 -> ex_response c2 = ex_response c1 ->
  _format_conversation_context s1 =
    join_lines
      [Py.lit "User: " ++ ex_question a1; Py.lit "Assistant: " ++ ex_response a1;
       Py.lit "User: " ++ ex_question b1; Py.lit "Assistant: " ++ ex_response b1;
       Py.lit "User: " ++ ex_question c1; Py.lit "Assistant: " ++ ex_response c1] /\
  _format_conversation_context s2 = _format_conversation_context s1 /\
  IntelligentCache.get now query (_format_conversation_context s2) c =
    IntelligentCache.get now query (_format_conversation_context s1) c /\
  (forall s,
     (length (conversation_history s) <= 3)%nat ->
     _format_conversation_context s =
       join_lines
         (concat (List.map
            (fun x => [Py.lit "User: " ++ ex_question x;
                       Py.lit "Assistant: " ++ ex_response x])
            (conversation_history s)))).
Proof.
  intros H1 H2 Hqa Hra Hqb Hrb Hqc Hrc.
  assert (Hctx : forall s,
            _format_conversation_context s =
            join_lines
              (concat (List.map
                 (fun x => [Py.lit "User: " ++ ex_question x;
                            Py.lit "Assistant: " ++ ex_response x])
                 (last3 (conversation_history s))))).
  { intros s. unfold _format_conversation_context.
    destruct (conversation_history s); reflexivity. }
  assert (E1 : _format_conversation_context s1 =
    join_lines
      [Py.lit "User: " ++ ex_question a1; Py.lit "Assistant: " ++ ex_response a1;
       Py.lit "User: " ++ ex_question b1; Py.lit "Assistant: " ++ ex_response b1;
       Py.lit "User: " ++ ex_question c1; Py.lit "Assistant: " ++ ex_response c1]).
  { now rewrite (Hctx s1), H1, last3_app. }
  assert (E2 : _format_conversation_context s2 = _format_conversation_context s1).
  { rewrite E1, (Hctx s2), H2, last3_app. cbn [List.map concat app].
    now rewrite Hqa, Hra, Hqb, Hrb, Hqc, Hrc. }
  split; [exact E1|]. split; [exact E2|]. split; [now rewrite E2|].
  intros s Hs. now rewrite (Hctx s), (last3_short _ Hs).
Qed.
End WithHost.
Lemma content_filter_rejection_witness :
  let env := Sample.env 1700000000 Sample.to_hola None in
  let k := Sample.kiosk (Py.lit "en") (Sample.answers (PStr (Py.lit "hello"))) in
  fst (@process_query Sample.filtering_host env (Py.lit "hack") k) =
    Return (inappropriate_message, 0%nat) /\
  cache_ops (snd (@process_query Sample.filtering_host env (Py.lit "hack") k)) = [].
Proof.
  intros env k.
  destruct (@content_filter_rejection Sample.filtering_host env (Py.lit "hack") k
              ltac:(vm_compute; discriminate) ltac:(vm_compute; reflexivity))
    as (Hr & Hops & _).
  split; [exact Hr | exact Hops].
Defined.

(** The same question asked again in a new session. *)
Lemma cache_hit_skips_models_witness :
  let model := Sample.answers (PStr (Py.lit "hello")) in
  let k1 := snd (@process_query Sample.host
                   (Sample.env 1700000000 Sample.to_hola None) (Py.lit "hi")
                   (Sample.kiosk (Py.lit "en") model)) in
  let k2 := snd (create_session (Sample.env 1700000100 Sample.to_hola None) k1) in
  let env := Sample.env 1700000200 Sample.to_hola None in
  fst (@process_query Sample.host env (Py.lit "hi") k2)
    = Return (Py.lit "hello", 1%nat) /\
  MultiModelAIManager.invocations
    (ai_manager (snd (@process_query Sample.host env (Py.lit "hi") k2)))
  = MultiModelAIManager.invocations (ai_manager k2).
Proof.
  intros model k1 k2 env.
  edestruct (@cache_hit_skips_models Sample.host env (Py.lit "hi") k2)
    as (Hr & Hi & _);
    [ vm_compute; reflexivity | vm_compute; reflexivity
    | vm_compute; reflexivity | vm_compute; reflexivity | ].
  split; [exact Hr | exact Hi].
Defined.

(** A primary model that is down and no fallback. *)
Lemma exhaustion_is_cached_witness :
  let env := Sample.env 1700000000 Sample.to_hola None in
  let k := Sample.kiosk (Py.lit "en") (Sample.fails (Py.lit "connection refused")) in
  IntelligentCache.response <$>
    PyDict.lookup (Py.lit "hi")
      (IntelligentCache.cache (cache (snd (@process_query Sample.host env (Py.lit "hi") k))))
  = Some MultiModelAIManager.exhausted_message.
Proof.
  intros env k.
  edestruct (@exhaustion_is_cached Sample.host env (Py.lit "hi") k)
    as ((key & Hkey & Hl) & _);
    [ vm_compute; reflexivity | vm_compute; reflexivity | vm_compute; reflexivity
    | vm_compute; reflexivity | exact I
    | repeat constructor; eexists; vm_compute; reflexivity
    | vm_compute; reflexivity | vm_compute; discriminate | ].
  assert (Hk : Return key = Return (Py.lit "hi")) by (rewrite <- Hkey; reflexivity).
  injection Hk as Hk. rewrite Hk in Hl.
  exact (f_equal (fmap IntelligentCache.response) Hl).
Defined.

(** A Spanish session while the translation service times out. *)
Lemma translation_failure_degrades_witness :
  let env := Sample.env 1700000000
               (fun _ _ _ => Raise (Exception_ (Py.lit "timed out"))) None in
  let k := Sample.kiosk (Py.lit "es") (Sample.answers (PStr (Py.lit "hello"))) in
  fst (@process_query Sample.host env (Py.lit "hi") k)
    = Return (Py.lit "hello", 0%nat).
Proof.
  intros env k.
  edestruct (@translation_failure_degrades Sample.host env (Py.lit "hi") k)
    as (_ & _ & Hr);
    [ vm_compute; reflexivity | vm_compute; reflexivity | vm_compute; reflexivity
    | vm_compute; reflexivity | exact I | vm_compute; reflexivity
    | right; vm_compute; exact I | vm_compute; discriminate | ].
  apply Hr. right. reflexivity.
Defined.

(** A session after four exchanges and one after the last three of
    them, under another id and with other timestamps. *)
Lemma context_from_last_three_witness :
  let turn n ref :=
    {| ex_timestamp := Py.str_of_int n;
       ex_question := Py.lit "question " ++ Py.str_of_int (n mod 10);
       ex_response := Py.lit "answer " ++ Py.str_of_int (n mod 10);
       ex_metadata := ref |} in
  let with_history lang h :=
    {| id := id (Sample.session lang); start_time := 0; questions_count := 0;
       total_response_time := 0%float; preferred_language := lang;
       conversation_history := h; errors_encountered := 0 |} in
  _format_conversation_context
    (with_history (Py.lit "en") [turn 1 0%nat; turn 2 1%nat; turn 3 2%nat; turn 4 3%nat])
  = Py.lit "User: question 2" ++ [10%N] ++ Py.lit "Assistant: answer 2" ++ [10%N]
    ++ Py.lit "User: question 3" ++ [10%N] ++ Py.lit "Assistant: answer 3" ++ [10%N]
    ++ Py.lit "User: question 4" ++ [10%N] ++ Py.lit "Assistant: answer 4" /\
  _format_conversation_context
    (with_history (Py.lit "es") [turn 12 7%nat; turn 13 8%nat; turn 14 9%nat])
  = _format_conversation_context
      (with_history (Py.lit "en") [turn 1 0%nat; turn 2 1%nat; turn 3 2%nat; turn 4 3%nat]).
Proof.
  intros turn with_history.
  destruct (@context_from_last_three Sample.host
              (with_history (Py.lit "en")
                 [turn 1 0%nat; turn 2 1%nat; turn 3 2%nat; turn 4 3%nat])
              (with_history (Py.lit "es") [turn 12 7%nat; turn 13 8%nat; turn 14 9%nat])
              [turn 1 0%nat] [] (turn 2 1%nat) (turn 3 2%nat) (turn 4 3%nat)
              (turn 12 7%nat) (turn 13 8%nat) (turn 14 9%nat)
              0 [] (IntelligentCache.init 24 1000)
              eq_refl eq_refl eq_refl eq_refl eq_refl eq_refl eq_refl eq_refl)
    as (E1 & E2 & _).
  split; [rewrite E1; reflexivity | exact E2].
Defined.

(** A second turn leaves the metadata of the first as it was. *)
Lemma earlier_metadata_untouched_witness :
  let model := Sample.answers (PStr (Py.lit "hello")) in
  let k1 := snd (@process_query Sample.host
                   (Sample.env 1700000000 Sample.to_hola None) (Py.lit "hi")
                   (Sample.kiosk (Py.lit "en") model)) in
  let env := Sample.env 1700000200 Sample.to_hola None in
  metadatas (snd (@process_query Sample.host env (Py.lit "and then?") k1)) !! 0%nat
  = metadatas k1 !! 0%nat.
Proof.
  intros model k1 env.
  apply (@earlier_metadata_untouched Sample.host env (Py.lit "and then?") k1).
  vm_compute. lia.
Defined.
End OrchestratorExtras.

(** ** The session commands *)
Module DeskExtras.
Import UltraAdvancedKioskChatbot KioskDesk.

(** What a successful [change_language] leaves. *)
Lemma change_language_accepted code d s :
  current_session (kiosk d) = Some s ->
  code ∈ valid_languages ->
  exists d1,
    change_language code d = (Return true, d1) /\
    current_session (kiosk d1) = Some (set_language code s) /\
    config (kiosk d1) = config (kiosk d) /\
    cache (kiosk d1) = cache (kiosk d) /\
    metadatas (kiosk d1) = metadatas (kiosk d) /\
    sessions d1 = sessions d.
Proof.
  intros Hs Hcode.
  unfold change_language, Eff.bind, Eff.gets. cbn beta iota. rewrite Hs.
  rewrite decide_True by assumption.
  unfold lift, _display_message, Eff.modify, log, Eff.ret. simpl.
  eexists. split; [reflexivity|]. simpl. repeat split.
Qed.

Section WithHost.
Context `{PyHost}.

(** X17.  The cache does not know the language: after a successful
    [change_language], a question whose answer is in the cache is
    still answered with the cached text as it is, while the metadata
    of the turn names the new language. *)
Theorem cached_answer_survives_language_change (env : Env) (code q : pystr)
    (d : t) (s : UserSession) (c : N) (text : pystr) (c1 : IntelligentCache.t) :
  current_session (kiosk d) = Some s ->
  code ∈ valid_languages ->
  (max_input_length (config (kiosk d)) <? Z.of_nat (length q)) = false ->
  _is_inappropriate_content (kiosk d) q = false ->
  IntelligentCache.get (now_get env) q (_format_conversation_context s)
    (cache (kiosk d)) = (Return (Some (c :: text)), c1) ->
  let d1 := snd (change_language code d) in
  let turn := process_query env q (kiosk d1) in
  fst (change_language code d) = Return true /\
  preferred_language <$> current_session (kiosk d1) = Some code /\
  fst turn = Return (c :: text, length (metadatas (kiosk d))) /\
  language <$> (metadatas (snd turn) !! length (metadatas (kiosk d))) = Some code.
Proof.
  intros Hs Hcode Hlen Hfil Hget d1 turn.
  destruct (change_language_accepted code d s Hs Hcode)
    as (d1' & Hch & Hs1 & Hc1 & Hca1 & Hm1 & _).
  subst turn d1. rewrite Hch. cbn [fst snd].
  split; [reflexivity|]. split; [now rewrite Hs1|].
  destruct (OrchestratorFacts.enter_spec env (kiosk d1'))
    as (session & metadata & k0 & He & Hs0 & Hsame & Hmd & Hmds & Hc & Hca & _).
  pose proof (Hsame _ Hs1) as Hse.
  assert (Hctx : _format_conversation_context session = _format_conversation_context s).
  { rewrite Hse. reflexivity. }
  assert (Hlen0 : (max_input_length (config k0) <? Z.of_nat (length q)) = false)
    by now rewrite Hc, Hc1.
  assert (Hfil0 : _is_inappropriate_content k0 q = false).
  { unfold _is_inappropriate_content in *. now rewrite Hc, Hc1. }
  assert (Hget0 : IntelligentCache.get (now_get env) q
                    (_format_conversation_context session) (cache k0)
                  = (Return (Some (c :: text)), c1)) by now rewrite Hctx, Hca, Hca1.
  destruct (OrchestratorFacts.hit_path env q session metadata k0 c text c1
              Hlen0 Hfil0 Hs0 Hget0) as (k1 & Hb & _ & _ & Hmk1 & _).
  rewrite (OrchestratorFacts.process_query_returns _ _ _ _ _ _ _ _ He Hb).
  cbn [fst snd bump_total_requests with_performance_metrics metadatas].
  rewrite <- Hm1, <- Hmd. split; [reflexivity|].
  rewrite Hmk1, !list_lookup_alter_eq, Hmds, Hmd, list_lookup_middle by reflexivity.
  simpl. now rewrite Hse.
Qed.
End WithHost.
Section WithArith.
Context `{PyArith}.

(** The session [create_session] makes when [n] sessions are active. *)
Local Abbreviation fresh_session env cfg n :=
  {| id := Py.lit "session_" ++ Py.str_of_int (session_stamp env) ++ Py.lit "_"
           ++ Py.str_of_int (Z.of_nat n);
     start_time := now_session env; questions_count := 0;
     total_response_time := 0%float;
     preferred_language := default_language cfg;
     conversation_history := []; errors_encountered := 0 |}.

(** [del] takes the key out and nothing else. *)
Lemma elem_of_remaining (old k : pystr) (active : list pystr) :
  k ∈ List.filter (fun k => negb (bool_decide (k = old))) active <->
  k ∈ active /\ k <> old.
Proof.
  rewrite !list_elem_of_In, List.filter_In, negb_true_iff, bool_decide_eq_false.
  reflexivity.
Qed.

(** X18.  The session-limit test of the interactive loop.  Below the limit
    it does nothing.  At the limit it ends the session: the session's
    row is written when analytics is enabled, its id leaves
    [active_sessions], and a new session with no history takes its
    place, in the default language whatever language the old one had;
    the response cache is kept.  If the row cannot be written, the
    exception leaves the test with the old session still current. *)
Theorem session_limit_rollover (env : Env) (d : t) (s : UserSession) :
  current_session (kiosk d) = Some s ->
  let cfg := config (kiosk d) in
  let d' := snd (session_limit_check env d) in
  let remaining :=
    List.filter (fun k => negb (bool_decide (k = id s)))
      (active_sessions (kiosk d)) in
  (questions_count s < max_conversation_turns cfg ->
   session_limit_check env d = (Return tt, d)) /\
  (max_conversation_turns cfg <= questions_count s ->
   enable_analytics cfg = false \/ db_failure env = None ->
   id s ∈ active_sessions (kiosk d) ->
   fst (session_limit_check env d) = Return tt /\
   sessions d' =
     (if enable_analytics cfg
      then <[id s := session_row env s]> (sessions d) else sessions d) /\
   current_session (kiosk d') = Some (fresh_session env cfg (length remaining)) /\
   (forall k, k ∈ active_sessions (kiosk d') <->
              k ∈ remaining \/ k = id (fresh_session env cfg (length remaining))) /\
   cache (kiosk d') = cache (kiosk d) /\
   analytics (kiosk d') = analytics (kiosk d)) /\
  (max_conversation_turns cfg <= questions_count s ->
   enable_analytics cfg = true ->
   forall e, db_failure env = Some e ->
   fst (session_limit_check env d) = Raise e /\
   kiosk d' = kiosk d /\ sessions d' = sessions d).
Proof.
  intros Hs cfg d' remaining. subst d'.
  unfold session_limit_check, Eff.bind, Eff.gets. cbn beta iota. rewrite Hs.
  fold cfg. split; [|split].
  - intros Hlt. apply Z.leb_gt in Hlt. now rewrite Hlt.
  - intros Hge Hdb Hin. apply Z.leb_le in Hge. rewrite Hge.
    unfold _display_message, log_session, del_active_session, lift,
      create_session, log, Eff.modify, Eff.ret, Eff.raise.
    destruct (enable_analytics cfg) eqn:Ea.
    + destruct Hdb as [Hdb|Hdb]; [discriminate|]. rewrite Hdb.
      cbn [kiosk with_screen with_sessions sessions screen].
      rewrite decide_True by exact Hin.
      cbn [fst snd kiosk with_kiosk sessions]. fold remaining.
      repeat split; try reflexivity.
      * simpl. case_decide; rewrite ?elem_of_app, ?list_elem_of_singleton; tauto.
      * simpl. case_decide as Hd; rewrite ?elem_of_app, ?list_elem_of_singleton.
        -- intros [?| ->]; [assumption | exact Hd].
        -- tauto.
    + cbn [kiosk with_screen with_sessions sessions screen].
      rewrite decide_True by exact Hin.
      cbn [fst snd kiosk with_kiosk sessions]. fold remaining.
      repeat split; try reflexivity.
      * simpl. case_decide; rewrite ?elem_of_app, ?list_elem_of_singleton; tauto.
      * simpl. case_decide as Hd; rewrite ?elem_of_app, ?list_elem_of_singleton.
        -- intros [?| ->]; [assumption | exact Hd].
        -- tauto.
  - intros Hge Ha e Hdb. apply Z.leb_le in Hge. rewrite Hge.
    unfold _display_message, log_session, Eff.modify, Eff.raise.
    rewrite Ha, Hdb. repeat split.
Qed.

(** X19.  The clear command.  With no current session it only creates
    one.  With a current session it first writes the session's row when
    analytics is enabled: if that insert fails, the exception leaves
    the command with nothing changed; otherwise the session's id is
    taken out of [active_sessions] ([KeyError] if it is not there).
    When nothing raises, the command ends in a new current session
    with no history whose id counts the sessions that remain, displays
    one message, keeps the response cache and answers [cleared]. *)
Theorem clear_command_restarts (env : Env) (d : t) :
  let cfg := config (kiosk d) in
  let d' := snd (clear_command env d) in
  match current_session (kiosk d) with
  | None =>
      fst (clear_command env d) = Return (Py.lit "cleared") /\
      sessions d' = sessions d /\
      current_session (kiosk d') =
        Some (fresh_session env cfg (length (active_sessions (kiosk d)))) /\
      screen d' = screen d ++ [(new_session_message, Py.lit "success")] /\
      cache (kiosk d') = cache (kiosk d)
  | Some s =>
      let remaining :=
        List.filter (fun k => negb (bool_decide (k = id s)))
          (active_sessions (kiosk d)) in
      let logged :=
        if enable_analytics cfg
        then <[id s := session_row env s]> (sessions d) else sessions d in
      match (if enable_analytics cfg then db_failure env else None) with
      | Some e => clear_command env d = (Raise e, d)
      | None =>
          if decide (id s ∈ active_sessions (kiosk d)) then
            fst (clear_command env d) = Return (Py.lit "cleared") /\
            sessions d' = logged /\
            current_session (kiosk d') =
              Some (fresh_session env cfg (length remaining)) /\
            screen d' = screen d ++ [(new_session_message, Py.lit "success")] /\
            cache (kiosk d') = cache (kiosk d)
          else
            fst (clear_command env d) = Raise (KeyError (id s)) /\
            sessions d' = logged /\
            kiosk d' = kiosk d /\
            screen d' = screen d
      end
  end.
Proof.
  intros cfg d'. subst d'.
  unfold clear_command, Eff.bind, Eff.gets. cbn beta iota. fold cfg.
  destruct (current_session (kiosk d)) as [s|] eqn:Hs.
  - unfold _display_message, log_session, del_active_session, lift,
      create_session, log, Eff.modify, Eff.ret, Eff.raise.
    destruct (enable_analytics cfg) eqn:Ea.
    + destruct (db_failure env) as [e|]; [reflexivity|].
      cbn [kiosk with_screen with_sessions sessions screen].
      case_decide; cbn [fst snd kiosk with_kiosk with_sessions sessions screen];
        repeat split.
    + cbn [kiosk with_screen with_sessions sessions screen].
      case_decide; cbn [fst snd kiosk with_kiosk with_sessions sessions screen];
        repeat split.
  - unfold _display_message, lift, create_session, log, Eff.modify, Eff.ret.
    simpl. repeat split.
Qed.

(** One clear command on a current session that is active, with
    analytics enabled and a database that takes the row. *)
Lemma clear_step (env : Env) (d : t) (s : UserSession) :
  current_session (kiosk d) = Some s ->
  enable_analytics (config (kiosk d)) = true ->
  db_failure env = None ->
  id s ∈ active_sessions (kiosk d) ->
  let remaining :=
    List.filter (fun k => negb (bool_decide (k = id s)))
      (active_sessions (kiosk d)) in
  let s' := fresh_session env (config (kiosk d)) (length remaining) in
  exists d',
    clear_command env d = (Return (Py.lit "cleared"), d') /\
    sessions d' = <[id s := session_row env s]> (sessions d) /\
    current_session (kiosk d') = Some s' /\
    active_sessions (kiosk d') =
      (if decide (id s' ∈ remaining) then remaining else remaining ++ [id s']) /\
    config (kiosk d') = config (kiosk d).
Proof.
  intros Hs Ha Hdb Hin remaining s'.
  unfold clear_command, Eff.bind, Eff.gets. cbn beta iota. rewrite Hs, Ha.
  unfold _display_message, log_session, del_active_session, lift,
    create_session, log, Eff.modify, Eff.ret, Eff.raise.
  rewrite Hdb. cbn [kiosk with_screen with_sessions sessions screen].
  rewrite decide_True by exact Hin.
  eexists. split; [reflexivity|]. simpl. fold remaining.
  repeat split.
Qed.

(** X20.  Session ids can repeat.  A session that is the only active one and
    is cleared within the second it was created in gets a successor
    with the same id, since the id counts the sessions that remain; when
    the successor is cleared in turn, its row replaces the
    predecessor's in the [sessions] table. *)
Theorem quick_clear_reuses_id (env1 env2 : Env) (d : t) (s : UserSession) :
  current_session (kiosk d) = Some s ->
  active_sessions (kiosk d) = [id s] ->
  id s = Py.lit "session_" ++ Py.str_of_int (session_stamp env1) ++ Py.lit "_"
         ++ Py.str_of_int 0 ->
  enable_analytics (config (kiosk d)) = true ->
  db_failure env1 = None -> db_failure env2 = None ->
  let d1 := snd (clear_command env1 d) in
  let d2 := snd (clear_command env2 d1) in
  id <$> current_session (kiosk d1) = Some (id s) /\
  sessions d1 !! id s = Some (session_row env1 s) /\
  sessions d2 =
    <[id s := session_row env2 (fresh_session env1 (config (kiosk d)) 0)]>
      (sessions d) /\
  r_questions_count <$> (sessions d2 !! id s) = Some 0.
Proof.
  intros Hs Hact Hid Ha Hdb1 Hdb2 d1 d2.
  assert (Hin : id s ∈ active_sessions (kiosk d)).
  { rewrite Hact. apply list_elem_of_singleton. reflexivity. }
  destruct (clear_step env1 d s Hs Ha Hdb1 Hin) as (d1' & Hc1 & Ht1 & Hs1 & Ha1 & Hcfg1).
  assert (Hrem : List.filter (fun k => negb (bool_decide (k = id s)))
                   (active_sessions (kiosk d)) = []).
  { rewrite Hact. cbn [List.filter]. now rewrite bool_decide_eq_true_2. }
  rewrite Hrem in Hs1, Ha1. cbn [length] in Hs1, Ha1.
  rewrite decide_False in Ha1 by apply not_elem_of_nil.
  set (s1 := fresh_session env1 (config (kiosk d)) 0) in *.
  assert (Hid1 : id s1 = id s) by (symmetry; exact Hid).
  assert (Hin1 : id s1 ∈ active_sessions (kiosk d1')).
  { rewrite Ha1. apply list_elem_of_singleton. reflexivity. }
  assert (Ha' : enable_analytics (config (kiosk d1')) = true) by now rewrite Hcfg1.
  destruct (clear_step env2 d1' s1 Hs1 Ha' Hdb2 Hin1) as (d2' & Hc2 & Ht2 & _).
  subst d2 d1. rewrite Hc1. cbn [snd]. rewrite Hc2. cbn [snd].
  rewrite Hs1, Ht2, Ht1, Hid1, insert_insert_eq.
  split; [cbn [fmap option_fmap option_map]; now rewrite Hid1|].
  split; [now rewrite lookup_insert_eq|].
  split; [reflexivity | now rewrite lookup_insert_eq].
Qed.
End WithArith.

(** The same question asked again in a new session, after a change to
    Spanish. *)
Lemma cached_answer_survives_language_change_witness :
  let model := Sample.answers (PStr (Py.lit "hello")) in
  let k1 := snd (@process_query Sample.host
                   (Sample.env 1700000000 Sample.to_hola None) (Py.lit "hi")
                   (Sample.kiosk (Py.lit "en") model)) in
  let k2 := snd (create_session (Sample.env 1700000100 Sample.to_hola None) k1) in
  let env := Sample.env 1700000200 Sample.to_hola None in
  let d1 := snd (change_language (Py.lit "es") (Sample.desk k2)) in
  fst (@process_query Sample.host env (Py.lit "hi") (kiosk d1))
    = Return (Py.lit "hello", 1%nat) /\
  language <$> (metadatas (snd (@process_query Sample.host env (Py.lit "hi") (kiosk d1)))
                  !! 1%nat) = Some (Py.lit "es").
Proof.
  intros model k1 k2 env d1.
  edestruct (@cached_answer_survives_language_change Sample.host env (Py.lit "es")
               (Py.lit "hi") (Sample.desk k2))
    as (_ & _ & Hr & Hl);
    [ vm_compute; reflexivity
    | apply (bool_decide_unpack _); vm_compute; exact I
    | vm_compute; reflexivity | vm_compute; reflexivity
    | vm_compute; reflexivity | ].
  split; [exact Hr | exact Hl].
Defined.

(** A Spanish session that has reached the default limit of 50 turns. *)
Lemma session_limit_rollover_witness :
  let env := Sample.env 1700000900 Sample.to_hola None in
  let k := Sample.kiosk (Py.lit "es") (Sample.answers (PStr (Py.lit "hello"))) in
  let s := {| id := Py.lit "session_1700000000_0"; start_time := 0;
              questions_count := 50; total_response_time := 100%float;
              preferred_language := Py.lit "es";
              conversation_history := []; errors_encountered := 2 |} in
  let d := Sample.desk (with_current_session k (Some s)) in
  let d' := snd (@session_limit_check Sample.arith env d) in
  r_questions_count <$> (sessions d' !! Py.lit "session_1700000000_0") = Some 50 /\
  preferred_language <$> current_session (kiosk d') = Some (Py.lit "en") /\
  active_sessions (kiosk d') = [Py.lit "session_1700000900_0"].
Proof.
  intros env k s d d'.
  destruct (@session_limit_rollover Sample.arith env d s eq_refl)
    as (_ & Hroll & _).
  destruct Hroll as (_ & Ht & Hs & _).
  - vm_compute. discriminate.
  - right. reflexivity.
  - apply (bool_decide_unpack _). vm_compute. exact I.
  - subst d'. rewrite Ht, Hs. vm_compute. repeat split.
Defined.

Lemma clear_command_restarts_witness :
  let env := Sample.env 1700000900 Sample.to_hola None in
  let d := Sample.desk
             (Sample.kiosk (Py.lit "es") (Sample.answers (PStr (Py.lit "hello")))) in
  fst (@clear_command Sample.arith env d) = Return (Py.lit "cleared") /\
  id <$> current_session (kiosk (snd (@clear_command Sample.arith env d)))
    = Some (Py.lit "session_1700000900_0") /\
  @clear_command Sample.arith
    (Sample.env 1700000900 Sample.to_hola
       (Some (Exception_ (Py.lit "database is locked")))) d
    = (Raise (Exception_ (Py.lit "database is locked")), d).
Proof.
  intros env d.
  pose proof (@clear_command_restarts Sample.arith env d) as Hok.
  pose proof (@clear_command_restarts Sample.arith
                (Sample.env 1700000900 Sample.to_hola
                   (Some (Exception_ (Py.lit "database is locked")))) d) as Hfail.
  cbv zeta in Hok, Hfail.
  change (current_session (kiosk d)) with (Some (Sample.session (Py.lit "es")))
    in Hok, Hfail.
  cbv beta iota zeta in Hok, Hfail.
  change (enable_analytics (config (kiosk d))) with true in Hok, Hfail.
  cbv beta iota in Hok, Hfail.
  change (db_failure env) with (@None PyExc) in Hok.
  change (db_failure (Sample.env 1700000900 Sample.to_hola
                        (Some (Exception_ (Py.lit "database is locked")))))
    with (Some (Exception_ (Py.lit "database is locked"))) in Hfail.
  cbv beta iota in Hok, Hfail.
  rewrite decide_True in Hok
    by (apply (bool_decide_unpack _); vm_compute; exact I).
  destruct Hok as (Hr & _ & Hs & _).
  split; [exact Hr|]. split; [|exact Hfail].
  rewrite Hs. vm_compute. reflexivity.
Defined.

(** Two clear commands in the second the first session was created in. *)
Lemma quick_clear_reuses_id_witness :
  let env := Sample.env 1700000000 Sample.to_hola None in
  let d := Sample.desk
             (Sample.kiosk (Py.lit "en") (Sample.answers (PStr (Py.lit "hello")))) in
  let d2 := snd (@clear_command Sample.arith env
                   (snd (@clear_command Sample.arith env d))) in
  dom (sessions d2) = {[ Py.lit "session_1700000000_0" ]}.
Proof.
  intros env d d2.
  destruct (@quick_clear_reuses_id Sample.arith env env d
              (Sample.session (Py.lit "en")) eq_refl eq_refl
              ltac:(vm_compute; reflexivity) eq_refl eq_refl eq_refl)
    as (_ & _ & Ht & _).
  subst d2. rewrite Ht. rewrite dom_insert_L.
  change (sessions d) with (∅ : gmap pystr SessionRow).
  rewrite dom_empty_L. set_solver.
Defined.
End DeskExtras.

(** ** The text handed to speech synthesis *)
Module SpeechExtras.
Import AccessibilityEngine.

Lemma remove_markdown_clean text :
  Forall (fun c => is_markdown c = false) (remove_markdown text).
Proof.
  unfold remove_markdown. apply Forall_forall. intros c Hc.
  apply list_elem_of_In, List.filter_In in Hc as [_ Hc].
  now apply negb_true_iff in Hc.
Qed.

Lemma replace_from_Forall (P : N -> Prop) old new :
  Forall P new ->
  forall s skip, Forall P s -> Forall P (replace_from old new skip s).
Proof.
  intros Hnew. induction s as [|c s IH]; intros skip Hs; [constructor|].
  apply Forall_cons in Hs as [Hc Hs]. cbn [replace_from].
  destruct skip; [|now apply IH].
  destruct (starts_with old (c :: s)).
  - apply Forall_app. split; [assumption | now apply IH].
  - constructor; [assumption | now apply IH].
Qed.

Lemma str_replace_Forall (P : N -> Prop) old new s :
  Forall P new -> Forall P s -> Forall P (str_replace old new s).
Proof.
  intros Hnew Hs. destruct old as [|o old]; cbn [str_replace].
  - apply Forall_app. split; [assumption|].
    induction Hs as [|c s Hc Hs IH]; [constructor|]. cbn [List.map concat].
    apply Forall_app. split; [now constructor | assumption].
  - now apply replace_from_Forall.
Qed.

Lemma expand_abbreviations_Forall (P : N -> Prop) table :
  Forall (fun ae => Forall P (snd ae)) table ->
  forall text, Forall P text -> Forall P (expand_abbreviations table text).
Proof.
  unfold expand_abbreviations.
  induction 1 as [|[old new] table Hnew _ IH]; intros text Ht; [assumption|].
  cbn [fold_left]. apply IH. now apply str_replace_Forall.
Qed.

Lemma expansions_clean :
  Forall (fun ae => Forall (fun c => is_markdown c = false) (snd ae)) abbreviations.
Proof. repeat constructor. Qed.

Lemma split_from_words (P : N -> Prop) :
  forall s word,
    Forall (fun c => Py.is_space c = false /\ P c) word ->
    Forall P s ->
    Forall (fun w => w <> [] /\ Forall (fun c => Py.is_space c = false /\ P c) w)
      (split_from word s).
Proof.
  induction s as [|c s IH]; intros word Hw Hs; cbn [split_from].
  - destruct word; [constructor|]. constructor; [|constructor]. now split.
  - apply Forall_cons in Hs as [Hc Hs].
    destruct (Py.is_space c) eqn:Ec.
    + destruct word as [|w0 word].
      * apply IH; [constructor | assumption].
      * constructor; [now split|]. apply IH; [constructor | assumption].
    + apply IH; [|assumption]. apply Forall_app. split; [assumption|].
      constructor; [now split | constructor].
Qed.

Lemma join_space_Forall (R : N -> Prop) words :
  R 32%N -> Forall (Forall R) words -> Forall R (join_space words).
Proof.
  intros Hsp. induction 1 as [|w ws Hw Hws IH]; [constructor|].
  cbn [join_space]. destruct ws as [|w' ws]; [assumption|].
  apply Forall_app. split; [assumption|]. constructor; [assumption | exact IH].
Qed.

(** X21.  The text [_clean_text_for_speech] returns is a sequence of
    non-empty words separated by single spaces: it has no whitespace at
    either end, no whitespace character other than the space, no two
    spaces in a row, and none of the markdown characters star,
    underscore and backtick, also after the abbreviations have been
    expanded. *)
Theorem clean_text_normalized (text : pystr) :
  exists words,
    _clean_text_for_speech text = join_space words /\
    Forall (fun w => w <> [] /\
                     Forall (fun c => Py.is_space c = false /\
                                      is_markdown c = false) w) words /\
    Forall (fun c => (Py.is_space c = false \/ c = 32%N) /\ is_markdown c = false)
      (_clean_text_for_speech text).
Proof.
  unfold _clean_text_for_speech.
  set (expanded := expand_abbreviations abbreviations (remove_markdown text)).
  assert (Hclean : Forall (fun c => is_markdown c = false) expanded).
  { apply expand_abbreviations_Forall;
      [exact expansions_clean | apply remove_markdown_clean]. }
  assert (Hwords : Forall (fun w => w <> [] /\
                             Forall (fun c => Py.is_space c = false /\
                                              is_markdown c = false) w)
                     (split expanded)).
  { apply split_from_words; [constructor | exact Hclean]. }
  exists (split expanded). split; [reflexivity|]. split; [exact Hwords|].
  apply join_space_Forall; [split; [now right | reflexivity]|].
  eapply Forall_impl; [exact Hwords|]. intros w [_ Hw].
  eapply Forall_impl; [exact Hw|]. intros c [Hs Hm]. split; [now left | exact Hm].
Qed.
End SpeechExtras.
